(** * Retail Insights Assistant: the agent pipeline, embedded and verified

    A shallow embedding of [src/agents/extraction_agent.py],
    [src/agents/validation_agent.py], [src/agents/query_agent.py],
    [src/agents/synthesis_agent.py] and [src/agents/orchestrator.py], and
    of parts of [src/data/loader.py] and [src/data/vector_store.py].

    Python objects with mutable attributes are threaded explicitly: a method
    of an agent is a function from the agent's attributes to an outcome
    (a value or a raised exception) and the attributes afterwards.  An
    exception does not roll the attributes back, so the state survives a
    [Raise] exactly as it does in Python.

    The collaborators the code only calls (the chat model, the DuckDB
    connection) are taken as parameters, and so is what pandas and Python
    do that the model does not work out: the layout of text, arithmetic on
    [int64] and [float64], the case table of [str.lower], the reading of
    dates, and calls on frames with repeated labels, mixed kinds of values
    or values that are no scalars.  The pandas operations the strategies
    are built from are worked out on lists of rows. *)

From Stdlib Require Import List String Ascii ZArith QArith Lia Bool Arith.
From Stdlib Require Import Permutation Sorted DecimalString.
Import ListNotations.
Close Scope Q_scope.
Open Scope string_scope.
Open Scope list_scope.

Set Implicit Arguments.

(* ================================================================== *)
(** * Python values, exceptions and the object monad                    *)
(* ================================================================== *)

(** The exception classes the modelled code raises or catches; every handler
    in the source is [except Exception], so the class never selects a
    handler and only [str(e)] is observed. *)
Inductive exn : Type :=
| TypeError (msg : string)
| ValueError (msg : string)
| AttributeError (msg : string)
| ProviderError (msg : string)
| SqlError (msg : string).

Definition str_exn (e : exn) : string :=
  match e with
  | TypeError m | ValueError m | AttributeError m | ProviderError m | SqlError m => m
  end.

Inductive outcome (A : Type) : Type :=
| Return (a : A)
| Raise (e : exn).
Arguments Return {A} a.
Arguments Raise {A} e.

(** [M S A]: a method body over an object with attributes [S]. *)
Definition M (S A : Type) : Type := S -> outcome A * S.

Definition ret {S A} (a : A) : M S A := fun s => (Return a, s).
Definition raise {S A} (e : exn) : M S A := fun s => (Raise e, s).
Definition bind {S A B} (m : M S A) (k : A -> M S B) : M S B :=
  fun s => match m s with
           | (Return a, s') => k a s'
           | (Raise e, s') => (Raise e, s')
           end.
Definition gets {S A} (f : S -> A) : M S A := fun s => (Return (f s), s).
Definition modify {S} (f : S -> S) : M S unit := fun s => (Return tt, f s).
(** A call to a function that has no access to the object. *)
Definition lift {S A} (o : outcome A) : M S A := fun s => (o, s).
(** [try: body except Exception as e: handler(e)]. *)
Definition try_except {S A} (body : M S A) (handler : exn -> M S A) : M S A :=
  fun s => match body s with
           | (Return a, s') => (Return a, s')
           | (Raise e, s') => handler e s'
           end.

Declare Scope py_scope.
Delimit Scope py_scope with py.
Notation "x <- m ;; k" := (bind m (fun x => k))
  (at level 61, m at next level, right associativity) : py_scope.
Notation "m ;;; k" := (bind m (fun _ => k))
  (at level 61, right associativity) : py_scope.

(** The same sequencing for code that touches no object. *)
Definition obind {A B} (o : outcome A) (k : A -> outcome B) : outcome B :=
  match o with
  | Return a => k a
  | Raise e => Raise e
  end.

Fixpoint omap {A B} (f : A -> outcome B) (l : list A) : outcome (list B) :=
  match l with
  | [] => Return []
  | x :: t => obind (f x) (fun y => obind (omap f t) (fun ys => Return (y :: ys)))
  end.

(** A value that a dict lookup [d.get(key, default)] may find: the key is
    missing, the key is bound to [None], or the key is bound to a value. *)
Inductive field (A : Type) : Type :=
| Absent
| PyNone
| Given (a : A).
Arguments Absent {A}.
Arguments PyNone {A}.
Arguments Given {A} a.

(** [d.get(key, default)]: the default is used only when the key is missing;
    a key bound to [None] yields [None]. *)
Definition dict_get {A} (f : field A) (default : option A) : option A :=
  match f with
  | Absent => default
  | PyNone => None
  | Given a => Some a
  end.

(* ================================================================== *)
(** * Strings                                                          *)
(* ================================================================== *)

(** [str.lower] on the letters A to Z; every other byte is left as it is.
    The code looks for the texts [date] and [is_valid: true] in a lowered
    string, and for that this is all of [str.lower]: no character outside
    A to Z lowers to a letter of these texts followed by the next one, and
    the bytes that encode other characters are never bytes of A to Z.
    Where the code compares two lowered texts, [str.lower] is taken from
    the parameter [str_lower] below. *)
Definition lower_ascii (c : ascii) : ascii :=
  let n := nat_of_ascii c in
  if (65 <=? n)%nat && (n <=? 90)%nat then ascii_of_nat (n + 32) else c.

Fixpoint lower (s : string) : string :=
  match s with
  | EmptyString => EmptyString
  | String c t => String (lower_ascii c) (lower t)
  end.

(** [sub in s]. *)
Fixpoint contains (sub s : string) : bool :=
  String.prefix sub s ||
  match s with
  | EmptyString => false
  | String _ t => contains sub t
  end.

Definition newline : string := String (ascii_of_nat 10) EmptyString.

(** [sep.join(parts)]. *)
Definition join (sep : string) (parts : list string) : string :=
  String.concat sep parts.

(** [str(n)] for a non-negative integer. *)
Definition str_nat (n : nat) : string :=
  NilZero.string_of_uint (Nat.to_uint n).

(** [str(b)] for a bool. *)
Definition str_bool (b : bool) : string := if b then "True" else "False".

(** Python truthiness of a string: [if s:]. *)
Definition truthy (s : string) : bool :=
  match s with EmptyString => false | _ => true end.

(** [s[n:]] *)
Fixpoint drop (n : nat) (s : string) : string :=
  match n, s with
  | O, _ => s
  | _, EmptyString => EmptyString
  | S n', String _ t => drop n' t
  end.

(** [s[::-1]] *)
Fixpoint string_rev (s : string) : string :=
  match s with
  | EmptyString => EmptyString
  | String c t => (string_rev t ++ String c EmptyString)%string
  end.

(** The text with the given character codes. *)
Definition of_codes (l : list nat) : string :=
  string_of_list_ascii (map ascii_of_nat l).

(** The white space [str.strip()] removes: the characters U+0009 to U+000D,
    U+001C to U+0020, U+0085, U+00A0, U+1680, U+2000 to U+200A, U+2028,
    U+2029, U+202F, U+205F and U+3000, each as the bytes that encode it in
    UTF-8.  No entry is the beginning of another. *)
Definition whitespace : list string :=
  map of_codes
    [ [9]; [10]; [11]; [12]; [13]; [28]; [29]; [30]; [31]; [32];
      [194; 133]; [194; 160]; [225; 154; 128];
      [226; 128; 128]; [226; 128; 129]; [226; 128; 130]; [226; 128; 131];
      [226; 128; 132]; [226; 128; 133]; [226; 128; 134]; [226; 128; 135];
      [226; 128; 136]; [226; 128; 137]; [226; 128; 138];
      [226; 128; 168]; [226; 128; 169]; [226; 128; 175]; [226; 129; 159];
      [227; 128; 128] ].

(** The entry of [ws] the text begins with, if any. *)
Definition leading (ws : list string) (s : string) : option string :=
  find (fun w => String.prefix w s) ws.

(** Entries of [ws] are taken off the front for as long as there is one;
    every turn removes a character, so [fuel] turns are enough for a text
    of [fuel] characters. *)
Fixpoint strip_leading (ws : list string) (fuel : nat) (s : string) : string :=
  match fuel with
  | O => s
  | S fuel' =>
      match leading ws s with
      | Some w => strip_leading ws fuel' (drop (String.length w) s)
      | None => s
      end
  end.

Definition lstrip (s : string) : string :=
  strip_leading whitespace (String.length s) s.

(** The same from the end: on the reversed text, with every entry
    reversed. *)
Definition rstrip (s : string) : string :=
  string_rev (strip_leading (map string_rev whitespace) (String.length s) (string_rev s)).

Definition strip (s : string) : string := rstrip (lstrip s).

(** [s.split(sep)[1]] for a string that starts with [sep]: the text between
    the first and the second occurrence of [sep] (to the end when there is
    no second one). *)
Fixpoint until (sep s : string) : string :=
  if String.prefix sep s then EmptyString
  else match s with
       | EmptyString => EmptyString
       | String c t => String c (until sep t)
       end.

Definition split_second (sep s : string) : string :=
  until sep (drop (String.length sep) s).

(* ================================================================== *)
(** * Data frames                                                      *)
(* ================================================================== *)

(** Column types as pandas declares them.  [datetime64] is
    [datetime64[ns]]; [datetime64_unit] stands for a [datetime64] of
    another unit ([s], [ms], [us]) and [datetime64_tz] for a datetime
    with a time zone. *)
Inductive dtype : Type :=
| int64 | float64 | object | datetime64 | bool_ | datetime64_unit | datetime64_tz.

(** A cell.  A number is the rational it stands for (what arithmetic on
    the numbers of a column gives, with its overflow and rounding, is
    asked of pandas, see [Rendering]); [NaN] is the missing value (NaN,
    None, NaT); [Nested] is a value that is no scalar and cannot be
    hashed, such as the list or the dict DuckDB returns for a nested
    type, with the name of its Python type. *)
Inductive cell : Type :=
| NaN
| Num (q : Q)
| Str (s : string)
| Timestamp (t : Z)
| Nested (type_name : string).

Definition row : Type := list cell.

Record DataFrame : Type := mkDataFrame {
  schema : list (string * dtype);
  rows : list row
}.

(** [pd.DataFrame()] *)
Definition empty_frame : DataFrame := mkDataFrame [] [].

Definition columns (df : DataFrame) : list string := map fst (schema df).

(** [len(df)] *)
Definition len (df : DataFrame) : nat := List.length (rows df).

Definition dtype_eqb (a b : dtype) : bool :=
  match a, b with
  | int64, int64 | float64, float64 | object, object
  | datetime64, datetime64 | bool_, bool_
  | datetime64_unit, datetime64_unit | datetime64_tz, datetime64_tz => true
  | _, _ => false
  end.

(** The column holds points in time, whatever the unit or the zone. *)
Definition is_datetime (t : dtype) : bool :=
  match t with
  | datetime64 | datetime64_unit | datetime64_tz => true
  | _ => false
  end.

(** [col in df.columns] *)
Definition has_column (c : string) (df : DataFrame) : bool :=
  existsb (String.eqb c) (columns df).

Fixpoint index_of (c : string) (cols : list string) : option nat :=
  match cols with
  | [] => None
  | x :: t => if String.eqb c x then Some O
              else match index_of c t with
                   | Some i => Some (S i)
                   | None => None
                   end
  end.

(** [df[col].dtype], of the first column of that name. *)
Fixpoint dtype_of (c : string) (sch : list (string * dtype)) : dtype :=
  match sch with
  | [] => object
  | (x, d) :: t => if String.eqb c x then d else dtype_of c t
  end.

(** The cell of a row under a column label ([NaN] when the label is not a
    column or the row is short). *)
Definition get (df : DataFrame) (c : string) (r : row) : cell :=
  match index_of c (columns df) with
  | Some i => nth i r NaN
  | None => NaN
  end.

(** [df[col]] as the list of its values. *)
Definition series (df : DataFrame) (c : string) : list cell :=
  map (get df c) (rows df).

Definition is_nan (c : cell) : bool :=
  match c with NaN => true | _ => false end.

(** [a == b] on two scalars, as a boolean mask uses it: a missing value is
    equal to nothing, not even to itself, and values of different kinds are
    different.  (The operations below are defined on scalars; they hand a
    frame with other values over to pandas before any is compared.) *)
Definition cell_eq (a b : cell) : bool :=
  match a, b with
  | Num x, Num y => Qeq_bool x y
  | Str x, Str y => String.eqb x y
  | Timestamp x, Timestamp y => Z.eqb x y
  | Nested x, Nested y => String.eqb x y
  | _, _ => false
  end.

(** Equality of keys and of whole rows, where two missing values count as
    the same ([groupby], [drop_duplicates]). *)
Definition cell_same (a b : cell) : bool :=
  match a, b with
  | NaN, NaN => true
  | _, _ => cell_eq a b
  end.

Fixpoint row_same (r1 r2 : row) : bool :=
  match r1, r2 with
  | [], [] => true
  | a :: t1, b :: t2 => cell_same a b && row_same t1 t2
  | _, _ => false
  end.

(** The order [sort_values] and the sorted group keys follow on values of
    one kind: the order of the numbers, of the texts (by character code)
    and of the points in time.  Values of different kinds are put in some
    order to make the comparison total; the operations below sort a column
    with this order only when its values are of one kind. *)
Definition cell_leb (a b : cell) : bool :=
  match a, b with
  | NaN, _ => true
  | _, NaN => false
  | Num x, Num y => Qle_bool x y
  | Num _, _ => true
  | _, Num _ => false
  | Str x, Str y => String.leb x y
  | Str _, _ => true
  | _, Str _ => false
  | Timestamp x, Timestamp y => Z.leb x y
  | Timestamp _, _ => true
  | _, Timestamp _ => false
  | Nested x, Nested y => String.leb x y
  end.

(** A value pandas can hash and compare with others of its kind. *)
Definition scalar (c : cell) : bool :=
  match c with Nested _ => false | _ => true end.

Inductive kind : Type := Number | Text | Time.

Definition kind_of (c : cell) : option kind :=
  match c with
  | Num _ => Some Number
  | Str _ => Some Text
  | Timestamp _ => Some Time
  | NaN | Nested _ => None
  end.

Definition of_kind (k : kind) (c : cell) : bool :=
  match c, k with
  | NaN, _ => true
  | Num _, Number | Str _, Text | Timestamp _, Time => true
  | _, _ => false
  end.

(** The values are scalars of one kind, missing values apart: what a
    column of a numeric type, of a datetime type or of text holds. *)
Definition uniform (l : list cell) : bool :=
  forallb (of_kind Number) l || forallb (of_kind Text) l || forallb (of_kind Time) l.

(** [df.head(n)] is [df.iloc[:n]]: the first [n] rows, all but the last
    [-n] rows when [n] is negative, and every row when [n] is [None]. *)
Definition head (n : option Z) (df : DataFrame) : DataFrame :=
  match n with
  | None => df
  | Some z =>
      if (0 <=? z)%Z
      then mkDataFrame (schema df) (firstn (Z.to_nat z) (rows df))
      else mkDataFrame (schema df) (firstn (len df - Z.to_nat (- z)) (rows df))
  end.

(** [df.copy()]: a deep copy of an immutable value is the value. *)
Definition copy (df : DataFrame) : DataFrame := df.

(** [df[col]] is a Series when exactly one column has the label, and a
    frame of all the columns of that label otherwise. *)
Definition unique_label (c : string) (df : DataFrame) : bool :=
  (List.length (filter (String.eqb c) (columns df)) =? 1)%nat.

(** [df.select_dtypes(include=['number']).columns] *)
Definition numeric_columns (df : DataFrame) : list string :=
  map fst (filter (fun cd => match snd cd with
                             | int64 | float64 => true
                             | _ => false
                             end) (schema df)).

(** What the code asks of pandas and Python and the model does not work
    out, taken as given.

    Text layout and formats: [describe] (which raises on a frame it cannot
    describe), [to_string] without and with the index, the [repr] of a
    dict of counts, the [:.2%] and [:.2f] formats.

    Tables and arithmetic: [str_lower] is [str.lower] with its full case
    table; [series_sum] and [series_mean] are what [.sum()] and [.mean()]
    give for the numbers of a column of the given type, with the
    wrap-around of [int64] and the rounding of [float64];
    [parse_timestamp] is the reading of a text as a point in time.

    Calls outside the frames the model works out: [reduce_other] is a
    reduction ([sum], [mean], [max], [min]) of values that are not all
    numbers; [groupby_more] has the attributes of a [SeriesGroupBy] other
    than [sum], [mean], [max], [min], [count] (such as [median], [std],
    [first]; [None] for a name that is no attribute), each with the outcome
    of calling it and resetting the index; [groupby_irregular],
    [sort_irregular], [filter_irregular] and [nunique_irregular] are the
    outcome of grouping, sorting, selecting by equality and counting
    distinct values on a frame where a label is repeated, a column mixes
    kinds of values or holds values that are no scalars.  [sort_ties]
    decides among rows with equal keys, which the sort of pandas (numpy's
    quicksort) leaves in an order of its own: it gives, for the row at each
    position of the frame, the rank that orders it among its equals. *)
Record Rendering : Type := mkRendering {
  describe : DataFrame -> outcome DataFrame;
  to_string : DataFrame -> string;
  repr_counts : list (string * nat) -> string;
  format_pct : Q -> string;
  format_2f : cell -> string;
  to_string_index : DataFrame -> string;
  str_lower : string -> string;
  series_sum : dtype -> list Q -> Q;
  series_mean : dtype -> list Q -> Q;
  parse_timestamp : string -> option Z;
  reduce_other : string -> list cell -> outcome cell;
  groupby_more : string -> option (DataFrame -> string -> string -> outcome DataFrame);
  groupby_irregular : DataFrame -> string -> string -> string -> outcome DataFrame;
  sort_irregular : DataFrame -> string -> bool -> outcome DataFrame;
  filter_irregular : DataFrame -> string -> cell -> outcome DataFrame;
  nunique_irregular : DataFrame -> string -> outcome string;
  sort_ties : DataFrame -> string -> bool -> nat -> nat
}.

(** ** Selecting rows *)

(** A cell a column of the given type holds in a frame the model works on:
    numbers in a numeric or an object column, text in an object column,
    points in time in a [datetime64] column without a zone. *)
Definition conforms (t : dtype) (c : cell) : bool :=
  match c with
  | NaN => true
  | Num _ => match t with int64 | float64 | object => true | _ => false end
  | Str _ => match t with object => true | _ => false end
  | Timestamp _ => match t with datetime64 | datetime64_unit => true | _ => false end
  | Nested _ => false
  end.

(** [cell == value] in the mask of a selection: a text is read as a point
    in time before it is compared with one (and is equal to none when it
    cannot be read). *)
Definition mask_eq (pd : Rendering) (c value : cell) : bool :=
  match c, value with
  | Timestamp x, Str s =>
      match parse_timestamp pd s with
      | Some y => Z.eqb x y
      | None => false
      end
  | _, _ => cell_eq c value
  end.

(** The selection is one the model works out. *)
Definition selectable (df : DataFrame) (c : string) (value : cell) : bool :=
  unique_label c df && scalar value
  && forallb (conforms (dtype_of c (schema df))) (series df c).

(** [df[df[col] == value]]: the rows selected by the boolean mask. *)
Definition select_eq (pd : Rendering) (df : DataFrame) (c : string) (value : cell)
  : outcome DataFrame :=
  if selectable df c value
  then Return (mkDataFrame (schema df)
                 (filter (fun r => mask_eq pd (get df c r) value) (rows df)))
  else filter_irregular pd df c value.

(** ** Sorting *)

Section Sorting.
Variable A : Type.
Variable leb : A -> A -> bool.

Fixpoint insert_sorted (x : A) (l : list A) : list A :=
  match l with
  | [] => [x]
  | y :: t => if leb x y then x :: l else y :: insert_sorted x t
  end.

(** Later elements are inserted first, so equal keys keep their order. *)
Fixpoint sort (l : list A) : list A :=
  match l with
  | [] => []
  | x :: t => insert_sorted x (sort t)
  end.
End Sorting.

(** The order of two rows, given with their positions, in [sort_values]:
    by the cell under [c], and among equal cells by the rank of the
    rendering. *)
Definition row_leb (pd : Rendering) (df : DataFrame) (c : string) (ascending : bool)
    (x y : nat * row) : bool :=
  let before := fun a b => if ascending then cell_leb a b else cell_leb b a in
  let kx := get df c (snd x) in
  let ky := get df c (snd y) in
  if before kx ky
  then if before ky kx
       then (sort_ties pd df c ascending (fst x) <=? sort_ties pd df c ascending (fst y))%nat
       else true
  else false.

(** The rows ordered by the cell under [c]; rows whose cell is missing go
    last in both directions, in the order they had. *)
Definition sort_rows (pd : Rendering) (df : DataFrame) (c : string) (ascending : bool)
  : list row :=
  let numbered := combine (seq 0 (len df)) (rows df) in
  let present := filter (fun x => negb (is_nan (get df c (snd x)))) numbered in
  let missing := filter (fun x => is_nan (get df c (snd x))) numbered in
  map snd (sort (row_leb pd df c ascending) present ++ missing).

(** The column can be sorted by the model: it is one column and its values
    are of one kind. *)
Definition sortable (df : DataFrame) (c : string) : bool :=
  unique_label c df && uniform (series df c).

(** [df.sort_values(col, ascending=...)] *)
Definition sort_values (pd : Rendering) (df : DataFrame) (c : string) (ascending : bool)
  : outcome DataFrame :=
  if sortable df c
  then Return (mkDataFrame (schema df) (sort_rows pd df c ascending))
  else sort_irregular pd df c ascending.

(** ** Grouping and aggregation *)

(** The distinct values of a list, first occurrences kept. *)
Fixpoint distinct (same : cell -> cell -> bool) (l : list cell) : list cell :=
  match l with
  | [] => []
  | x :: t => x :: filter (fun y => negb (same x y)) (distinct same t)
  end.

(** The values that are not missing. *)
Definition present (l : list cell) : list cell :=
  filter (fun c => negb (is_nan c)) l.

(** The group keys of [df.groupby(col)]: the distinct values that are not
    missing, in ascending order. *)
Definition group_keys (df : DataFrame) (c : string) : list cell :=
  sort cell_leb (distinct cell_same (present (series df c))).

(** The values of column [metric] in the group of key [k]. *)
Definition group_values (df : DataFrame) (by_ metric : string) (k : cell) : list cell :=
  map (get df metric) (filter (fun r => cell_same (get df by_ r) k) (rows df)).

Definition numbers (l : list cell) : list Q :=
  flat_map (fun c => match c with Num q => [q] | _ => [] end) l.

Definition all_numeric (l : list cell) : bool :=
  forallb (fun c => match c with NaN | Num _ => true | _ => false end) l.

(** The sum and the mean of the numbers of a column of type [t]: missing
    values are skipped, and the mean of no number is missing. *)
Definition total (pd : Rendering) (t : dtype) (l : list cell) : cell :=
  Num (series_sum pd t (numbers l)).

Definition mean (pd : Rendering) (t : dtype) (l : list cell) : cell :=
  match numbers l with
  | [] => NaN
  | qs => Num (series_mean pd t qs)
  end.

(** The largest and the smallest of the values that are present, missing
    when there is none. *)
Definition largest (l : list cell) : cell :=
  fold_right (fun c acc => if is_nan acc then c
                           else if cell_leb acc c then c else acc)
             NaN (present l).

Definition smallest (l : list cell) : cell :=
  fold_right (fun c acc => if is_nan acc then c
                           else if cell_leb c acc then c else acc)
             NaN (present l).

(** [.sum()], [.mean()], [.max()] and [.min()] of a group or a column of
    type [t]. *)
Definition agg_sum (pd : Rendering) (t : dtype) (l : list cell) : outcome cell :=
  if all_numeric l then Return (total pd t l) else reduce_other pd "sum" l.

Definition agg_mean (pd : Rendering) (t : dtype) (l : list cell) : outcome cell :=
  if all_numeric l then Return (mean pd t l) else reduce_other pd "mean" l.

Definition agg_max (pd : Rendering) (l : list cell) : outcome cell :=
  if all_numeric l then Return (largest l) else reduce_other pd "max" l.

Definition agg_min (pd : Rendering) (l : list cell) : outcome cell :=
  if all_numeric l then Return (smallest l) else reduce_other pd "min" l.

(** [.count()]: how many values are present. *)
Definition agg_count (l : list cell) : outcome cell :=
  Return (Num (inject_Z (Z.of_nat (List.length (present l))))).

(** The grouping is one the model works out: [by_] and [metric] are each
    one column, and the keys are scalars of one kind. *)
Definition groupable (df : DataFrame) (by_ metric : string) : bool :=
  unique_label by_ df && unique_label metric df && uniform (series df by_).

(** [df.groupby(by)[metric].<name>().reset_index()]: one row per group key,
    holding the key and the aggregate of the group.  [reset_index] refuses
    to insert the key column when the aggregated column has the same
    label. *)
Definition groupby_agg (pd : Rendering) (df : DataFrame) (by_ metric name : string)
    (agg : list cell -> outcome cell) (out : dtype) : outcome DataFrame :=
  if groupable df by_ metric then
    obind (omap (fun k => obind (agg (group_values df by_ metric k))
                                (fun v => Return [k; v]))
                (group_keys df by_))
          (fun rs =>
             if String.eqb by_ metric
             then Raise (ValueError ("cannot insert " ++ by_ ++ ", already exists"))
             else Return (mkDataFrame [(by_, dtype_of by_ (schema df)); (metric, out)] rs))
  else groupby_irregular pd df by_ metric name.

(** ** Missing values and duplicates *)

(** The cells of the column at position [i]. *)
Definition column_at (i : nat) (df : DataFrame) : list cell :=
  map (fun r => nth i r NaN) (rows df).

(** [df.isnull().sum()]: per column, the number of missing cells. *)
Definition null_counts (df : DataFrame) : list (string * nat) :=
  map (fun ic => (snd ic, List.length (filter is_nan (column_at (fst ic) df))))
      (combine (seq 0 (List.length (columns df))) (columns df)).

(** [df.drop_duplicates()] on rows of scalars: the first occurrence of
    every row. *)
Fixpoint dedup (l : list row) : list row :=
  match l with
  | [] => []
  | r :: t => r :: filter (fun r' => negb (row_same r r')) (dedup t)
  end.

Definition drop_duplicates (df : DataFrame) : DataFrame :=
  mkDataFrame (schema df) (dedup (rows df)).

(** The first value that cannot be hashed, column by column. *)
Definition unhashable (df : DataFrame) : option string :=
  match flat_map (fun i => flat_map (fun c => match c with
                                              | Nested n => [n]
                                              | _ => []
                                              end) (column_at i df))
                 (seq 0 (List.length (columns df))) with
  | n :: _ => Some n
  | [] => None
  end.

(** [len(df.drop_duplicates())]: the rows are hashed, which a value that
    is no scalar refuses. *)
Definition count_distinct_rows (df : DataFrame) : outcome nat :=
  match unhashable df with
  | Some n => Raise (TypeError ("unhashable type: '" ++ n ++ "'"))
  | None => Return (List.length (rows (drop_duplicates df)))
  end.

(* ================================================================== *)
(** * Query intents                                                    *)
(* ================================================================== *)

(** [QueryIntent] of [query_agent.py], the pydantic model the resolver
    returns. *)
Record QueryIntent : Type := mkQueryIntent {
  qi_query_type : string;
  qi_entities : list string;
  qi_metrics : list string;
  qi_time_period : option string;
  qi_filters : list (string * cell);
  qi_aggregation : option string;
  qi_sort_by : option string;
  qi_limit : option Z;
  qi_sql_query : option string
}.

(** The intent as the extraction strategies receive it: a [Dict[str, Any]]
    whose keys may be missing.  The values have the types [QueryIntent]
    declares; [filters] keeps the insertion order of the dict. *)
Record Intent : Type := mkIntent {
  query_type : field string;
  entities : field (list string);
  metrics : field (list string);
  time_period : field string;
  filters : field (list (string * cell));
  aggregation : field string;
  sort_by : field string;
  limit : field Z;
  sql_query : field string
}.

(** The dict with no key: [{}]. *)
Definition empty_intent : Intent :=
  mkIntent Absent Absent Absent Absent Absent Absent Absent Absent Absent.

Definition of_option {A} (o : option A) : field A :=
  match o with
  | Some a => Given a
  | None => PyNone
  end.

(** [intent.dict()]: every field becomes a key, an unset optional field is
    bound to [None]. *)
Definition dict (i : QueryIntent) : Intent :=
  mkIntent (Given (qi_query_type i)) (Given (qi_entities i)) (Given (qi_metrics i))
           (of_option (qi_time_period i)) (Given (qi_filters i))
           (of_option (qi_aggregation i)) (of_option (qi_sort_by i))
           (of_option (qi_limit i)) (of_option (qi_sql_query i)).

(** The keys a dict ends up with when it is filled in this order: every
    label once, at its first position. *)
Fixpoint first_seen (l : list string) : list string :=
  match l with
  | [] => []
  | x :: t => x :: filter (fun y => negb (String.eqb x y)) (first_seen t)
  end.

(** A list read with [intent.get(key, [])]; [None] is as falsy as [[]]. *)
Definition get_list {A} (f : field (list A)) : list A :=
  match dict_get f (Some []) with
  | Some l => l
  | None => []
  end.

(* ================================================================== *)
(** * DataExtractionAgent ([extraction_agent.py])                      *)
(* ================================================================== *)

Section Agents.

(** The DuckDB connection: [self.db_conn.execute(sql).fetchdf()] returns a
    frame or raises, and may change the state of the connection. *)
Variable Conn : Type.
Variable db_execute : string -> M Conn DataFrame.

Variable pd : Rendering.

Record DataExtractionAgent : Type := mkExtraction {
  db_conn : Conn;
  df : DataFrame;
  last_query : option string;
  last_result : option DataFrame
}.

(** [DataExtractionAgent.__init__] *)
Definition new_extraction_agent (c : Conn) (d : DataFrame) : DataExtractionAgent :=
  mkExtraction c d None None.

Definition set_last_query (q : string) (self : DataExtractionAgent) : DataExtractionAgent :=
  mkExtraction (db_conn self) (df self) (Some q) (last_result self).

Definition set_last_result (r : DataFrame) (self : DataExtractionAgent) : DataExtractionAgent :=
  mkExtraction (db_conn self) (df self) (last_query self) (Some r).

(** A call on the connection the agent holds. *)
Definition on_conn {A} (m : M Conn A) : M DataExtractionAgent A :=
  fun self =>
    let (o, c) := m (db_conn self) in
    (o, mkExtraction c (df self) (last_query self) (last_result self)).

Definition execute_sql (sql : string) : M DataExtractionAgent DataFrame :=
  try_except
    (result <- on_conn (db_execute sql) ;;
     modify (set_last_query sql) ;;;
     modify (set_last_result result) ;;;
     ret result)%py
    (fun e => raise e).

(** The column an entity names: the first column, in column order, whose
    lower-cased label contains the lower-cased text of some entity. *)
Definition find_entity_col (d : DataFrame) (ents : list string) : option string :=
  find (fun col => existsb (fun entity => contains (str_lower pd entity) (str_lower pd col))
                           ents)
       (columns d).

(** The loop that looks for the date column: the first column, in column
    order, whose type is [datetime64[ns]] or whose lower-cased label
    contains "date".  The type is read off [self.df[col]], which has none
    when the label is repeated. *)
Fixpoint scan_date_col (d : DataFrame) (cols : list string) : outcome (option string) :=
  match cols with
  | [] => Return None
  | col :: rest =>
      if unique_label col d then
        if dtype_eqb (dtype_of col (schema d)) datetime64 || contains "date" (lower col)
        then Return (Some col)
        else scan_date_col d rest
      else Raise (AttributeError "'DataFrame' object has no attribute 'dtype'")
  end.

Definition find_date_col (d : DataFrame) : outcome (option string) :=
  scan_date_col d (columns d).

(** [if not col:] for a variable that holds [None] or a label. *)
Definition unresolved (col : option string) : bool :=
  match col with
  | None => true
  | Some c => negb (truthy c)
  end.

(** [metrics[0] if metrics[0] in self.df.columns else None], followed by
    the test [if metric_col:]. *)
Definition metric_col (d : DataFrame) (ms : list string) : option string :=
  match ms with
  | m :: _ => if has_column m d && truthy m then Some m else None
  | [] => None
  end.

(** The positions of the columns that carry the label [c]. *)
Definition positions (c : string) (d : DataFrame) : list nat :=
  map fst (filter (fun ic => String.eqb c (snd ic))
                  (combine (seq 0 (List.length (columns d))) (columns d))).

(** [df[cols]] for labels of the frame: for every label, in the order
    given, all the columns that carry it. *)
Definition project (d : DataFrame) (cols : list string) : DataFrame :=
  let selected := flat_map (fun c => positions c d) cols in
  mkDataFrame (map (fun i => nth i (schema d) (EmptyString, object)) selected)
              (map (fun r => map (fun i => nth i r NaN) selected) (rows d)).

(** The four statistics of one metric in [_extract_summary]. *)
Definition metric_stats (d : DataFrame) (metric : string)
  : outcome (list ((string * dtype) * cell)) :=
  let s := series d metric in
  let t := dtype_of metric (schema d) in
  obind (agg_sum pd t s) (fun tot =>
  obind (agg_mean pd t s) (fun avg =>
  obind (agg_max pd s) (fun mx =>
  obind (agg_min pd s) (fun mn =>
    Return [ (((metric ++ "_total")%string, t), tot);
             (((metric ++ "_avg")%string, float64), avg);
             (((metric ++ "_max")%string, t), mx);
             (((metric ++ "_min")%string, t), mn) ])))).

(** The body of [_extract_summary], as a function of [self.df]. *)
Definition summary (d : DataFrame) (intent : Intent) : outcome DataFrame :=
  let ms := get_list (metrics intent) in
  match ms with
  | [] => describe pd (project d (numeric_columns d))
  | _ =>
      obind (omap (metric_stats d)
                  (filter (fun m => has_column m d) (first_seen ms)))
            (fun stats =>
               let result_data := List.concat stats in
               Return (mkDataFrame (map fst result_data)
                         (match result_data with
                          | [] => []
                          | _ => [map snd result_data]
                          end)))
  end.

(** [self.df.groupby(by)[metric].sum().reset_index()] *)
Definition groupby_sum (d : DataFrame) (by_ metric : string) : outcome DataFrame :=
  let t := dtype_of metric (schema d) in
  groupby_agg pd d by_ metric "sum" (agg_sum pd t) t.

(** The body of [_extract_comparison], as a function of [self.df]. *)
Definition comparison (d : DataFrame) (intent : Intent) : outcome DataFrame :=
  let ents := get_list (entities intent) in
  let ms := get_list (metrics intent) in
  match ents, ms with
  | [], _ | _, [] => Return (head (Some 10%Z) d)
  | _, _ =>
      let entity_col := find_entity_col d ents in
      if unresolved entity_col then Return (head (Some 10%Z) d)
      else match entity_col, metric_col d ms with
           | Some e, Some m =>
               obind (groupby_sum d e m)
                     (fun result => sort_values pd result m false)
           | _, _ => Return (head (Some 10%Z) d)
           end
  end.

(** The body of [_extract_trend], as a function of [self.df]. *)
Definition trend (d : DataFrame) (intent : Intent) : outcome DataFrame :=
  let ms := get_list (metrics intent) in
  obind (find_date_col d) (fun date_col =>
    if unresolved date_col || match ms with [] => true | _ => false end
    then Return (head (Some 10%Z) d)
    else match date_col, metric_col d ms with
         | Some c, Some m =>
             obind (groupby_sum d c m)
                   (fun result => sort_values pd result c true)
         | _, _ => Return (head (Some 10%Z) d)
         end).

(** One turn of the loop over [filters.items()]. *)
Definition apply_filter (result : DataFrame) (f : string * cell) : outcome DataFrame :=
  if has_column (fst f) result then select_eq pd result (fst f) (snd f)
  else Return result.

(** The loop over [filters.items()], from the frame [result]. *)
Fixpoint apply_filters (fs : list (string * cell)) (result : DataFrame)
  : outcome DataFrame :=
  match fs with
  | [] => Return result
  | f :: rest => obind (apply_filter result f) (apply_filters rest)
  end.

(** The body of [_extract_filtered], as a function of [self.df]. *)
Definition filtered (d : DataFrame) (intent : Intent) : outcome DataFrame :=
  match dict_get (filters intent) (Some []) with
  | None => Raise (AttributeError "'NoneType' object has no attribute 'items'")
  | Some fs =>
      obind (apply_filters fs (copy d)) (fun result =>
        let lim := dict_get (limit intent) (Some 100%Z) in
        Return (head lim result))
  end.

(** [getattr(self.df.groupby(by)[metric], name, 'sum')], called and its
    index reset: [None] when the groupby object has no attribute [name],
    so that the default, the text ['sum'], is what is called.  The five
    methods the intent schema names (pandas has no [avg]) are worked out
    here; the other attributes of the object are taken from
    [groupby_more]. *)
Definition groupby_attr (d : DataFrame) (by_ metric name : string)
  : option (outcome DataFrame) :=
  let t := dtype_of metric (schema d) in
  if String.eqb name "sum" then Some (groupby_agg pd d by_ metric name (agg_sum pd t) t)
  else if String.eqb name "mean"
       then Some (groupby_agg pd d by_ metric name (agg_mean pd t) float64)
  else if String.eqb name "max" then Some (groupby_agg pd d by_ metric name (agg_max pd) t)
  else if String.eqb name "min" then Some (groupby_agg pd d by_ metric name (agg_min pd) t)
  else if String.eqb name "count"
       then Some (groupby_agg pd d by_ metric name agg_count int64)
  else match groupby_more pd name with
       | Some call => Some (call d by_ metric)
       | None => None
       end.

(** The body of [_extract_aggregation], as a function of [self.df]. *)
Definition aggregate (d : DataFrame) (intent : Intent) : outcome DataFrame :=
  let ents := get_list (entities intent) in
  let ms := get_list (metrics intent) in
  let agg_name := dict_get (aggregation intent) (Some "sum") in
  match ents, ms with
  | [], _ | _, [] => Return (head (Some 10%Z) d)
  | _, _ =>
      let entity_col := find_entity_col d ents in
      if unresolved entity_col then Return (head (Some 10%Z) d)
      else match entity_col, metric_col d ms with
           | Some e, Some m =>
               (* agg_func = getattr(groupby, aggregation, 'sum') *)
               match agg_name with
               | None =>
                   Raise (TypeError "attribute name must be string, not 'NoneType'")
               | Some name =>
                   match groupby_attr d e m name with
                   | None =>
                       (* the default is the text 'sum', and it is called *)
                       Raise (TypeError "'str' object is not callable")
                   | Some called =>
                       obind called (fun result =>
                         obind
                           (match dict_get (sort_by intent) None with
                            | Some s =>
                                if truthy s && has_column s result
                                then sort_values pd result s false
                                else Return result
                            | None => Return result
                            end)
                           (fun result =>
                              let lim := dict_get (limit intent) (Some 100%Z) in
                              Return (head lim result)))
                   end
               end
           | _, _ => Return (head (Some 10%Z) d)
           end
  end.

(** The strategies are methods that read [self.df] and assign no
    attribute. *)
Definition on_df (f : DataFrame -> Intent -> outcome DataFrame) (intent : Intent)
  : M DataExtractionAgent DataFrame :=
  (d <- gets df ;; lift (f d intent))%py.

Definition _extract_summary := on_df summary.
Definition _extract_comparison := on_df comparison.
Definition _extract_trend := on_df trend.
Definition _extract_filtered := on_df filtered.
Definition _extract_aggregation := on_df aggregate.

Definition extract_by_intent (intent : Intent) : M DataExtractionAgent DataFrame :=
  match dict_get (query_type intent) (Some "summary") with
  | Some t =>
      if String.eqb t "summary" then _extract_summary intent
      else if String.eqb t "comparison" then _extract_comparison intent
      else if String.eqb t "trend" then _extract_trend intent
      else if String.eqb t "filter" then _extract_filtered intent
      else if String.eqb t "aggregation" then _extract_aggregation intent
      else gets (fun self => head (Some 10%Z) (df self))
  | None => gets (fun self => head (Some 10%Z) (df self))
  end.

End Agents.

(* ================================================================== *)
(** * ValidationAgent ([validation_agent.py])                           *)
(* ================================================================== *)

(** The dict [validate_result] returns.  The substitute the orchestrator
    builds when validation raises has only the first four keys. *)
Record Validation : Type := mkValidation {
  is_valid : bool;
  confidence : Q;
  quality_score : Q;
  issues : list string;
  suggestions : option (list string);
  row_count : option nat;
  column_count : option nat
}.

(** The chat model, one entry per prompt the agents send.  A call returns
    the content of the reply or raises; the arguments are the values the
    prompt is rendered from, so a reply may depend on all of them. *)
Record ChatModel : Type := mkChatModel {
  (* prompt | llm | parser, on (query, schema_description) *)
  ask_intent : string -> string -> outcome QueryIntent;
  (* sql_prompt | llm, on (query, schema_description, table_name) *)
  ask_sql : string -> string -> string -> outcome string;
  (* validation_prompt | llm, on (question, query, result_summary, sample_data) *)
  ask_validation : string -> string -> string -> string -> outcome string;
  (* summary_prompt | llm, on (question, data_summary, validation_status) *)
  ask_summary : string -> string -> string -> outcome string;
  (* conversational_prompt | llm, on (question, data_summary) *)
  ask_answer : string -> string -> outcome string
}.

(** [try: body except Exception as e: handler(e)] for code without an
    object. *)
Definition ocatch {A} (body : outcome A) (handler : exn -> outcome A) : outcome A :=
  match body with
  | Return a => Return a
  | Raise e => handler e
  end.

(** [max(a, b)] and [min(a, b)] of Python: the first argument wins a tie. *)
Definition pymax (a b : Q) : Q := if Qle_bool b a then a else b.
Definition pymin (a b : Q) : Q := if Qle_bool a b then a else b.

Section Validation.

Variable llm : ChatModel.
Variable pd : Rendering.

Definition sum_nat (l : list nat) : nat := fold_right Nat.add 0%nat l.

(** The deterministic checks that open [validate_result]: the lists
    [issues] and [suggestions] after the three tests.  The third hashes
    the rows and raises on a value that cannot be hashed. *)
Definition basic_checks (result : DataFrame) : outcome (list string * list string) :=
  let issues := [] in
  let suggestions := [] in
  let '(issues, suggestions) :=
    if (len result =? 0)%nat
    then (issues ++ ["Result is empty - no data returned"],
          suggestions ++ ["Review query filters or check if data exists for the criteria"])
    else (issues, suggestions) in
  let counts := null_counts result in
  let '(issues, suggestions) :=
    if (0 <? sum_nat (map snd counts))%nat
    then
      let null_cols := filter (fun p => (0 <? snd p)%nat) counts in
      (issues ++ [("Null values found in columns: " ++ repr_counts pd null_cols)%string],
       suggestions ++ ["Consider handling null values or filtering them out"])
    else (issues, suggestions) in
  obind (count_distinct_rows result) (fun distinct_rows =>
    if negb (len result =? distinct_rows)%nat
    then
      let duplicates := (len result - distinct_rows)%nat in
      Return (issues ++ [("Found " ++ str_nat duplicates ++ " duplicate rows")%string],
              suggestions ++ ["Consider removing duplicates or adding DISTINCT to query"])
    else Return (issues, suggestions)).

(** [df.select_dtypes(include=['object']).columns] *)
Definition object_columns (d : DataFrame) : list string :=
  map fst (filter (fun cd => dtype_eqb (snd cd) object) (schema d)).

(** The line of [_create_summary] for one numeric column.  With a repeated
    label, [df[col]] is a frame, its [min()] a Series, and the format
    [:.2f] refuses a Series. *)
Definition numeric_line (d : DataFrame) (col : string) : outcome string :=
  if unique_label col d then
    let s := series d col in
    Return ("  " ++ col ++ ": min=" ++ format_2f pd (smallest s)
            ++ ", max=" ++ format_2f pd (largest s)
            ++ ", mean=" ++ format_2f pd (mean pd (dtype_of col (schema d)) s))%string
  else Raise (TypeError "unsupported format string passed to Series.__format__").

(** [df[col].nunique()], printed: the number of distinct values that are
    present, which are hashed to be counted. *)
Definition nunique (d : DataFrame) (col : string) : outcome string :=
  if unique_label col d then
    match flat_map (fun c => match c with Nested n => [n] | _ => [] end) (series d col) with
    | n :: _ => Raise (TypeError ("unhashable type: '" ++ n ++ "'"))
    | [] => Return (str_nat (List.length (distinct cell_same (present (series d col)))))
    end
  else nunique_irregular pd d col.

Definition categorical_line (d : DataFrame) (col : string) : outcome string :=
  obind (nunique d col) (fun unique_count =>
    Return ("  " ++ col ++ ": " ++ unique_count ++ " unique values")%string).

(** [_create_summary] *)
Definition _create_summary (d : DataFrame) : outcome string :=
  if (len d =? 0)%nat then Return "Empty DataFrame"
  else
    let summary_parts :=
      [ ("Rows: " ++ str_nat (len d) ++ ", Columns: "
         ++ str_nat (List.length (columns d)))%string;
        ("Columns: " ++ join ", " (columns d))%string ] in
    let numeric_cols := numeric_columns d in
    obind (if (0 <? List.length numeric_cols)%nat
           then obind (omap (numeric_line d) numeric_cols) (fun lines =>
                  Return (summary_parts ++ [(newline ++ "Numeric columns summary:")%string]
                          ++ lines))
           else Return summary_parts) (fun summary_parts =>
    let categorical_cols := object_columns d in
    obind (if (0 <? List.length categorical_cols)%nat
           then obind (omap (categorical_line d) (firstn 3 categorical_cols)) (fun lines =>
                  Return (summary_parts ++ [(newline ++ "Categorical columns:")%string]
                          ++ lines))
           else Return summary_parts) (fun summary_parts =>
    Return (join newline summary_parts))).

(** [validate_result]: the checks, the summary and the sample come before
    the [try]; only the call of the chat model and what is computed from
    its reply are inside. *)
Definition validate_result (question query : string) (result : DataFrame)
  : outcome Validation :=
  obind (basic_checks result) (fun '(issues, suggestions) =>
  obind (_create_summary result) (fun result_summary =>
  let sample_data :=
    if (0 <? len result)%nat then to_string pd (head (Some 10%Z) result)
    else "No data" in
  let '(is_valid, confidence, quality_score) :=
    match ask_validation llm question query result_summary sample_data with
    | Return validation_text =>
        let is_valid :=
          contains "is_valid: true" (lower validation_text)
          || (List.length issues =? 0)%nat in
        let confidence := (1 - inject_Z (Z.of_nat (List.length issues)) * (2 # 10))%Q in
        let confidence := pymax 0 (pymin 1 confidence) in
        (is_valid, confidence, confidence)
    | Raise _ =>
        let is_valid := (List.length issues =? 0)%nat in
        let confidence := if is_valid then (7 # 10)%Q else (3 # 10)%Q in
        (is_valid, confidence, confidence)
    end in
  Return (mkValidation is_valid confidence quality_score issues
            (Some suggestions) (Some (len result))
            (Some (List.length (columns result)))))).

End Validation.

(* ================================================================== *)
(** * QueryResolutionAgent ([query_agent.py])                           *)
(* ================================================================== *)

Section QueryResolution.

Variable llm : ChatModel.
Variable schema_description : string.

(** The intent [resolve_query] falls back to. *)
Definition basic_intent : QueryIntent :=
  mkQueryIntent "summary" [] [] None [] None None None None.

Definition resolve_query (query : string) : outcome QueryIntent :=
  ocatch (ask_intent llm query schema_description)
         (fun _ => Return basic_intent).

Definition fence : string := "```".

Definition generate_sql (query table_name : string) : outcome string :=
  ocatch
    (obind (ask_sql llm query schema_description table_name) (fun content =>
       let sql := strip content in
       let sql :=
         if String.prefix fence sql then
           let sql := split_second fence sql in
           let sql := if String.prefix "sql" sql then drop 3 sql else sql in
           strip sql
         else sql in
       Return sql))
    (fun _ => Return ("SELECT * FROM " ++ table_name ++ " LIMIT 10")%string).

End QueryResolution.

(* ================================================================== *)
(** * SynthesisAgent ([synthesis_agent.py])                             *)
(* ================================================================== *)

Section Synthesis.

Variable llm : ChatModel.
Variable pd : Rendering.

(** [_create_data_summary], with [max_rows] at its default of 20. *)
Definition _create_data_summary (d : DataFrame) : outcome string :=
  if (len d =? 0)%nat then Return "No data available"
  else
    let summary_parts :=
      [ ("Total Records: " ++ str_nat (len d))%string;
        ("Columns: " ++ join ", " (columns d))%string;
        EmptyString ] in
    let summary_parts :=
      if (len d <=? 20)%nat
      then summary_parts ++ ["Complete Data:"; to_string pd d]
      else summary_parts ++ ["Sample Data (first 20 rows):";
                             to_string pd (head (Some 20%Z) d)] in
    let summary_parts := summary_parts ++ [EmptyString] in
    let numeric_cols := numeric_columns d in
    obind (if (0 <? List.length numeric_cols)%nat
           then obind (describe pd (project d numeric_cols)) (fun stats =>
                  Return (summary_parts ++ ["Statistical Summary:"; to_string_index pd stats]))
           else Return summary_parts) (fun summary_parts =>
    Return (join newline summary_parts)).

(** The lines of a list under a heading, none for an empty list. *)
Definition bullet_list (heading : string) (items : list string) : list string :=
  match items with
  | [] => []
  | _ => (newline ++ heading)%string :: map (fun item => ("  - " ++ item)%string) items
  end.

(** [_format_validation]; a key the dict does not have reads as its
    default. *)
Definition _format_validation (validation : option Validation) : string :=
  match validation with
  | None => "Validation not performed"
  | Some v =>
      let parts :=
        [ ("Valid: " ++ str_bool (is_valid v))%string;
          ("Confidence: " ++ format_pct pd (confidence v))%string;
          ("Quality Score: " ++ format_pct pd (quality_score v))%string;
          ("Rows: " ++ str_nat (match row_count v with Some n => n | None => 0 end))%string;
          ("Columns: " ++ str_nat (match column_count v with Some n => n | None => 0 end))%string ] in
      let parts := parts ++ bullet_list "Issues:" (issues v) in
      let parts :=
        parts ++ bullet_list "Suggestions:"
                   (match suggestions v with Some l => l | None => [] end) in
      join newline parts
  end.

(** The line of [_fallback_summary] for one numeric column; as in
    [_create_summary], the format refuses the Series a repeated label
    gives. *)
Definition statistics_line (d : DataFrame) (col : string) : outcome string :=
  if unique_label col d then
    let t := dtype_of col (schema d) in
    Return ("  " ++ col ++ ": Total = " ++ format_2f pd (total pd t (series d col))
            ++ ", Average = " ++ format_2f pd (mean pd t (series d col)))%string
  else Raise (TypeError "unsupported format string passed to Series.__format__").

Definition _fallback_summary (question : string) (data : DataFrame)
    (validation : option Validation) : outcome string :=
  let parts :=
    [ ("Analysis Results for: " ++ question)%string;
      EmptyString;
      "Data Summary:";
      ("  - Total records: " ++ str_nat (len data))%string;
      ("  - Columns: " ++ join ", " (columns data))%string;
      EmptyString ] in
  obind
    (if (0 <? len data)%nat then
       let parts := parts ++ ["Sample Data:"; to_string pd (head (Some 5%Z) data); EmptyString] in
       let numeric_cols := numeric_columns data in
       if (0 <? List.length numeric_cols)%nat then
         obind (omap (statistics_line data) numeric_cols) (fun lines =>
           Return (parts ++ ["Key Statistics:"] ++ lines))
       else Return parts
     else Return parts)
    (fun parts => Return (join newline parts)).

(** [generate_summary]: the two texts of the prompt are made before the
    [try], and the fallback runs inside the handler. *)
Definition generate_summary (question : string) (data : DataFrame)
    (validation : option Validation) : outcome string :=
  obind (_create_data_summary data) (fun data_summary =>
  let validation_status := _format_validation validation in
  ocatch (ask_summary llm question data_summary validation_status)
         (fun _ => _fallback_summary question data validation)).



End Synthesis.

(* ================================================================== *)
(** * RetailInsightsOrchestrator ([orchestrator.py])                    *)
(* ================================================================== *)

(** [AgentState], the dict the graph passes from node to node. *)
Record AgentState : Type := mkState {
  st_question : string;
  st_query_intent : Intent;
  st_sql_query : string;
  st_extracted_data : DataFrame;
  st_validation_result : option Validation;
  st_final_answer : string;
  st_messages : list string;
  st_error : string
}.

(** The dict [process_query] returns. *)
Record Response : Type := mkResponse {
  r_question : string;
  r_answer : string;
  r_data : DataFrame;
  r_validation : option Validation;
  r_sql_query : string;
  r_messages : list string;
  r_error : string
}.

Section Orchestrator.

(** The four agents the orchestrator holds, by the methods it calls on
    them.  Only the extraction agent has attributes that a call changes;
    [X] is the type of that agent. *)
Variable X : Type.
Variable query_agent_resolve_query : string -> outcome QueryIntent.
Variable query_agent_generate_sql : string -> outcome string.
Variable extraction_agent_execute_sql : string -> M X DataFrame.
Variable validation_agent_validate_result :
  string -> string -> DataFrame -> outcome Validation.
Variable synthesis_agent_generate_summary :
  string -> DataFrame -> option Validation -> outcome string.

Variable pd : Rendering.

Definition _query_resolution_node (state : AgentState) : M X AgentState :=
  try_except
    (let question := st_question state in
     intent <- lift (query_agent_resolve_query question) ;;
     sql <- lift (query_agent_generate_sql question) ;;
     ret (mkState (st_question state) (dict intent) sql
                  (st_extracted_data state) (st_validation_result state)
                  (st_final_answer state)
                  [("Query resolved: " ++ qi_query_type intent)%string]
                  (st_error state)))%py
    (fun e =>
       ret (mkState (st_question state) (st_query_intent state) (st_sql_query state)
                    (st_extracted_data state) (st_validation_result state)
                    (st_final_answer state)
                    [("Error in query resolution: " ++ str_exn e)%string]
                    ("Query resolution failed: " ++ str_exn e)%string)).

Definition _data_extraction_node (state : AgentState) : M X AgentState :=
  try_except
    (let sql := st_sql_query state in
     if negb (truthy sql) then raise (ValueError "No SQL query generated")
     else
       result <- extraction_agent_execute_sql sql ;;
       ret (mkState (st_question state) (st_query_intent state) (st_sql_query state)
                    result (st_validation_result state) (st_final_answer state)
                    [("Extracted " ++ str_nat (len result) ++ " rows")%string]
                    (st_error state)))%py
    (fun e =>
       ret (mkState (st_question state) (st_query_intent state) (st_sql_query state)
                    empty_frame (st_validation_result state) (st_final_answer state)
                    [("Error in data extraction: " ++ str_exn e)%string]
                    ("Data extraction failed: " ++ str_exn e)%string)).

(** The substitute for a validation that raised. *)
Definition failed_validation (e : exn) : Validation :=
  mkValidation false 0 0 [str_exn e] None None None.

Definition _validation_node (state : AgentState) : M X AgentState :=
  try_except
    (let question := st_question state in
     let sql := st_sql_query state in
     let data := st_extracted_data state in
     validation <- lift (validation_agent_validate_result question sql data) ;;
     ret (mkState (st_question state) (st_query_intent state) (st_sql_query state)
                  (st_extracted_data state) (Some validation) (st_final_answer state)
                  [("Validation complete: Valid=" ++ str_bool (is_valid validation)
                    ++ ", Quality=" ++ format_pct pd (quality_score validation))%string]
                  (st_error state)))%py
    (fun e =>
       ret (mkState (st_question state) (st_query_intent state) (st_sql_query state)
                    (st_extracted_data state) (Some (failed_validation e))
                    (st_final_answer state)
                    [("Error in validation: " ++ str_exn e)%string]
                    ("Validation failed: " ++ str_exn e)%string)).

Definition no_data_answer : string :=
  "I couldn't find any data to answer your question. Please try rephrasing or check if the data exists.".

Definition apology (e : exn) : string :=
  ("I encountered an error while generating the answer: " ++ str_exn e)%string.

Definition _synthesis_node (state : AgentState) : M X AgentState :=
  try_except
    (let question := st_question state in
     let data := st_extracted_data state in
     let validation := st_validation_result state in
     answer <- (if (0 <? len data)%nat
                then lift (synthesis_agent_generate_summary question data validation)
                else ret no_data_answer) ;;
     ret (mkState (st_question state) (st_query_intent state) (st_sql_query state)
                  (st_extracted_data state) (st_validation_result state) answer
                  ["Answer generated successfully"]
                  (st_error state)))%py
    (fun e =>
       ret (mkState (st_question state) (st_query_intent state) (st_sql_query state)
                    (st_extracted_data state) (st_validation_result state)
                    (apology e)
                    [("Error in synthesis: " ++ str_exn e)%string]
                    ("Synthesis failed: " ++ str_exn e)%string)).

(** How the compiled graph folds what a node returns into its channels:
    [messages] is declared with the reducer [operator.add], every other
    key takes the returned value. *)
Definition apply_update (old new : AgentState) : AgentState :=
  mkState (st_question new) (st_query_intent new) (st_sql_query new)
          (st_extracted_data new) (st_validation_result new)
          (st_final_answer new)
          (st_messages old ++ st_messages new)
          (st_error new).

Definition step (node : AgentState -> M X AgentState) (state : AgentState)
  : M X AgentState :=
  (new <- node state ;; ret (apply_update state new))%py.

(** [self.workflow.invoke]: the graph of [_build_workflow] is the line
    query_resolution, data_extraction, validation, synthesis, END. *)
Definition workflow_invoke (initial_state : AgentState) : M X AgentState :=
  (s1 <- step _query_resolution_node initial_state ;;
   s2 <- step _data_extraction_node s1 ;;
   s3 <- step _validation_node s2 ;;
   step _synthesis_node s3)%py.

Definition initial_state (question : string) : AgentState :=
  mkState question empty_intent EmptyString empty_frame None EmptyString []
          EmptyString.

Definition process_query (question : string) : M X Response :=
  try_except
    (final_state <- workflow_invoke (initial_state question) ;;
     ret (mkResponse question
                     (st_final_answer final_state)
                     (st_extracted_data final_state)
                     (st_validation_result final_state)
                     (st_sql_query final_state)
                     (st_messages final_state)
                     (st_error final_state)))%py
    (fun e =>
       ret (mkResponse question
              ("An error occurred while processing your question: " ++ str_exn e)%string
              empty_frame None EmptyString [] (str_exn e))).

End Orchestrator.

(** The orchestrator as [__init__] wires it: the three agents that share
    the chat model, and the extraction agent over the connection. *)
Section Wiring.

Variable Conn : Type.
Variable db_execute : string -> M Conn DataFrame.
Variable llm : ChatModel.
Variable pd : Rendering.
Variable schema_description : string.

Definition orchestrator_process_query (question : string)
  : M (DataExtractionAgent Conn) Response :=
  process_query
    (resolve_query llm schema_description)
    (fun q => generate_sql llm schema_description q "sales_data")
    (execute_sql db_execute)
    (validate_result llm pd)
    (generate_summary llm pd)
    pd question.

End Wiring.

(* ================================================================== *)
(** * Reading the strategies as functions of the dataset               *)
(* ================================================================== *)

(** What [extract_by_intent] returns, as a function of the dataset. *)
Definition extraction (pd : Rendering) (d : DataFrame) (intent : Intent)
  : outcome DataFrame :=
  match dict_get (query_type intent) (Some "summary") with
  | Some t =>
      if String.eqb t "summary" then summary pd d intent
      else if String.eqb t "comparison" then comparison pd d intent
      else if String.eqb t "trend" then trend pd d intent
      else if String.eqb t "filter" then filtered pd d intent
      else if String.eqb t "aggregation" then aggregate pd d intent
      else Return (head (Some 10%Z) d)
  | None => Return (head (Some 10%Z) d)
  end.

(** The column resolution as the specification words it: the first entity
    alone is matched, without regard to case, against the column labels. *)
Definition spec_entity_col (pd : Rendering) (d : DataFrame) (ents : list string)
  : option string :=
  match ents with
  | [] => None
  | entity :: _ =>
      find (fun col => contains (str_lower pd entity) (str_lower pd col)) (columns d)
  end.

(** The date column as the specification words it: a column of the datetime
    type if there is one, and only otherwise a column with "date" in its
    label. *)
Definition spec_date_col (d : DataFrame) : option string :=
  match find (fun col => is_datetime (dtype_of col (schema d))) (columns d) with
  | Some c => Some c
  | None => find (fun col => contains "date" (lower col)) (columns d)
  end.

(** The aggregates [groupby(by)[metric].<agg>()] holds, one per group key
    and in the order of the keys. *)
Definition group_aggregates (agg : list cell -> outcome cell) (d : DataFrame)
    (by_ metric : string) : outcome (list cell) :=
  omap (fun k => agg (group_values d by_ metric k)) (group_keys d by_).

(** The rows [groupby(by)[metric].<agg>().reset_index()] is made of: a key
    and the aggregate of its group. *)
Definition group_rows (d : DataFrame) (by_ : string) (values : list cell) : list row :=
  map (fun kv => [fst kv; snd kv]) (combine (group_keys d by_) values).

(** Values [sort_values] can order: all present and of one kind. *)
Definition orderable (values : list cell) : bool :=
  uniform values && forallb (fun v => negb (is_nan v)) values.


(** [intent.get('query_type', 'summary')] *)
Definition resolved_type (intent : Intent) : option string :=
  dict_get (query_type intent) (Some "summary").


(* ================================================================== *)
(** * The stages of a run, one by one                                  *)
(* ================================================================== *)

(** What each stage of [process_query] meets, written out stage by stage
    from the agents: the outcome of the call the stage makes, and the
    value the next stage is handed. *)
Section Stages.

Variable X : Type.
Variable resolve : string -> outcome QueryIntent.
Variable gen_sql : string -> outcome string.
Variable exec_sql : string -> M X DataFrame.
Variable validate : string -> string -> DataFrame -> outcome Validation.
Variable summarise : string -> DataFrame -> option Validation -> outcome string.

Variable question : string.
Variable x : X.

(** Stage 1: the intent and the SQL text, or the exception of the first
    call that raised. *)
Definition resolution_outcome : outcome (QueryIntent * string) :=
  obind (resolve question) (fun intent =>
  obind (gen_sql question) (fun sql => Return (intent, sql))).

(** The SQL text stage 2 is handed: empty when stage 1 raised. *)
Definition resolved_sql : string :=
  match resolution_outcome with
  | Return (_, sql) => sql
  | Raise _ => EmptyString
  end.

(** Stage 2: an empty SQL text is refused, any other is executed. *)
Definition extraction_outcome : outcome DataFrame * X :=
  if truthy resolved_sql then exec_sql resolved_sql x
  else (Raise (ValueError "No SQL query generated"), x).

(** The relation stage 3 is handed: empty when stage 2 raised. *)
Definition extracted : DataFrame :=
  match fst extraction_outcome with
  | Return d => d
  | Raise _ => empty_frame
  end.

(** Stage 3. *)
Definition validation_outcome : outcome Validation :=
  validate question resolved_sql extracted.

(** The validation stage 4 is handed: the substitute when stage 3
    raised. *)
Definition validated : Validation :=
  match validation_outcome with
  | Return v => v
  | Raise e => failed_validation e
  end.

(** Stage 4: the synthesizer is asked only about a relation with rows. *)
Definition synthesis_outcome : outcome string :=
  if (0 <? len extracted)%nat
  then summarise question extracted (Some validated)
  else Return no_data_answer.

(** The answer: the apology when stage 4 raised. *)
Definition answered : string :=
  match synthesis_outcome with
  | Return a => a
  | Raise e => apology e
  end.

(** The error text: that of the last stage that raised, empty when none
    did. *)
Definition last_error : string :=
  match synthesis_outcome with
  | Raise e => ("Synthesis failed: " ++ str_exn e)%string
  | Return _ =>
      match validation_outcome with
      | Raise e => ("Validation failed: " ++ str_exn e)%string
      | Return _ =>
          match fst extraction_outcome with
          | Raise e => ("Data extraction failed: " ++ str_exn e)%string
          | Return _ =>
              match resolution_outcome with
              | Raise e => ("Query resolution failed: " ++ str_exn e)%string
              | Return _ => EmptyString
              end
          end
      end
  end.

End Stages.

(* ================================================================== *)
(** * Sample data                                                      *)
(* ================================================================== *)

Definition int (z : Z) : cell := Num (inject_Z z).

(** A small sales table: two regions, two categories. *)
Definition sales : DataFrame :=
  mkDataFrame
    [("Region", object); ("Category", object); ("Sales", int64); ("Date", datetime64)]
    [ [Str "North"; Str "Electronics"; int 100; Timestamp 3];
      [Str "South"; Str "Clothing"; int 250; Timestamp 1];
      [Str "North"; Str "Clothing"; int 40; Timestamp 2];
      [Str "South"; Str "Electronics"; int 10; Timestamp 1] ].


(** A table whose first column only carries "date" in its label, while a
    later column is the one typed as a datetime. *)
Definition notes : DataFrame :=
  mkDataFrame
    [("update_note", object); ("when", datetime64); ("Sales", int64)]
    [ [Str "b"; Timestamp 1; int 5];
      [Str "a"; Timestamp 1; int 7];
      [Str "b"; Timestamp 2; int 1] ].

(** A table whose only datetime column carries a time zone, and no label
    has "date" in it. *)
Definition zoned : DataFrame :=
  mkDataFrame
    [("when", datetime64_tz); ("Sales", int64)]
    [ [Timestamp 2; int 5]; [Timestamp 1; int 7] ].

(** The exact sum of a list of rationals. *)
Definition Qsum (l : list Q) : Q := Qred (fold_right Qplus 0%Q l).

(** Renderings that are good enough to run the code on an example: on
    ASCII labels and small integers, where lower-casing is that of the
    letters A to Z, the sums and means are the exact ones, and rows with
    equal keys stay in the order they had. *)
Definition plain : Rendering :=
  let refuse := TypeError "not supported in the example" in
  mkRendering (fun d => Return d) (fun _ => "<frame>") (fun _ => "{}")
              (fun _ => "0.00%") (fun _ => "0.00") (fun _ => "<frame>")
              lower
              (fun _ qs => Qsum qs)
              (fun _ qs => Qred (Qsum qs / inject_Z (Z.of_nat (List.length qs))))
              (fun _ => None)
              (fun _ _ => Raise refuse)
              (fun _ => None)
              (fun _ _ _ _ => Raise refuse)
              (fun _ _ _ => Raise refuse)
              (fun _ _ _ => Raise refuse)
              (fun _ _ => Raise refuse)
              (fun _ _ _ i => i).

(** A connection that knows one table and refuses every other query. *)
Definition one_table (sql : string) : M unit DataFrame :=
  if String.eqb sql "SELECT * FROM sales_data LIMIT 10"
  then ret sales
  else raise (SqlError "Parser Error: syntax error").

Definition intent_of (type : string) : Intent :=
  mkIntent (Given type) Absent Absent Absent Absent Absent Absent Absent Absent.

Definition with_entities (l : list string) (i : Intent) : Intent :=
  mkIntent (query_type i) (Given l) (metrics i) (time_period i) (filters i)
           (aggregation i) (sort_by i) (limit i) (sql_query i).

Definition with_metrics (l : list string) (i : Intent) : Intent :=
  mkIntent (query_type i) (entities i) (Given l) (time_period i) (filters i)
           (aggregation i) (sort_by i) (limit i) (sql_query i).

Definition with_filters (l : list (string * cell)) (i : Intent) : Intent :=
  mkIntent (query_type i) (entities i) (metrics i) (time_period i) (Given l)
           (aggregation i) (sort_by i) (limit i) (sql_query i).

Definition with_aggregation (a : string) (i : Intent) : Intent :=
  mkIntent (query_type i) (entities i) (metrics i) (time_period i) (filters i)
           (Given a) (sort_by i) (limit i) (sql_query i).

Definition with_limit (n : Z) (i : Intent) : Intent :=
  mkIntent (query_type i) (entities i) (metrics i) (time_period i) (filters i)
           (aggregation i) (sort_by i) (Given n) (sql_query i).

(** The intent of the filter example. *)
Definition electronics_top5 : Intent :=
  with_limit 5 (with_filters [("Category", Str "Electronics")] (intent_of "filter")).

(* ================================================================== *)
(** * The validation rules in the words of the specification           *)
(* ================================================================== *)

(** The three deterministic findings. *)
Definition is_empty (d : DataFrame) : bool := (len d =? 0)%nat.

Definition has_nulls (d : DataFrame) : bool :=
  existsb (fun i => existsb is_nan (column_at i d)) (seq 0 (List.length (columns d))).

Definition has_duplicates (d : DataFrame) : bool :=
  negb (len d =? len (drop_duplicates d))%nat.

Definition count_if (b : bool) : nat := if b then 1 else 0.

(** The deterministic issue count: one for each finding. *)
Definition issue_count (d : DataFrame) : nat :=
  count_if (is_empty d) + count_if (has_nulls d) + count_if (has_duplicates d).

(** The reply of the chat model affirms validity when it carries the
    marker, in any letter case. *)
Definition affirmed (text : string) : bool :=
  contains "is_valid: true" (lower text).

(** [clamp x lo hi]: [x] brought into the interval from [lo] to [hi]. *)
Definition clamp (x lo hi : Q) : Q :=
  if Qlt_le_dec x lo then lo
  else if Qlt_le_dec hi x then hi
  else x.

(** A frame with a row that occurs twice and a missing cell. *)
Definition flawed : DataFrame :=
  mkDataFrame [("Region", object); ("Sales", float64)]
    [ [Str "North"; int 1]; [Str "North"; int 1]; [Str "South"; NaN] ].

(** A chat model that answers every prompt with fixed text. *)
Definition canned (intent : QueryIntent) (sql judgment summary : string) : ChatModel :=
  mkChatModel (fun _ _ => Return intent) (fun _ _ _ => Return sql)
              (fun _ _ _ _ => Return judgment) (fun _ _ _ => Return summary)
              (fun _ _ => Return summary).

(** A chat model that is down. *)
Definition offline : ChatModel :=
  let e := ProviderError "Connection error." in
  mkChatModel (fun _ _ => Raise e) (fun _ _ _ => Raise e) (fun _ _ _ _ => Raise e)
              (fun _ _ _ => Raise e) (fun _ _ => Raise e).

(** A comparison that names two entities, the second of which is the first
    column of [sales]. *)
Definition by_category_then_region : Intent :=
  with_metrics ["Sales"] (with_entities ["Category"; "Region"] (intent_of "comparison")).

Definition by_region : Intent :=
  with_metrics ["Sales"] (with_entities ["Region"] (intent_of "comparison")).

Definition sales_trend : Intent := with_metrics ["Sales"] (intent_of "trend").

Definition average_by_region : Intent :=
  with_aggregation "avg"
    (with_metrics ["Sales"] (with_entities ["Region"] (intent_of "aggregation"))).

(** A chat model that answers the summary prompt with empty text. *)
Definition terse : ChatModel :=
  canned basic_intent "SELECT * FROM sales_data LIMIT 10" "is_valid: true" EmptyString.

(** A chat model that fails on the validation prompt only. *)
Definition no_judge : ChatModel :=
  mkChatModel (fun _ _ => Return basic_intent)
              (fun _ _ _ => Return "SELECT * FROM sales_data LIMIT 10")
              (fun _ _ _ _ => Raise (ProviderError "Connection error."))
              (fun _ _ _ => Return "Sales are led by the South region.")
              (fun _ _ => Return "South leads.").

(* ================================================================== *)
(** * Callers of the extraction agent                                  *)
(* ================================================================== *)

(** A caller that runs one query after the other on the same agent and
    goes on after a query that raised, as the orchestrator does from one
    question to the next. *)
Definition execute_each {Conn} (db_execute : string -> M Conn DataFrame)
    (sqls : list string) (self : DataExtractionAgent Conn) : DataExtractionAgent Conn :=
  fold_left (fun agent sql => snd (execute_sql db_execute sql agent)) sqls self.

(** The four columns [_extract_summary] makes for one metric. *)
Definition stat_columns (metric : string) : list string :=
  [ (metric ++ "_total")%string; (metric ++ "_avg")%string;
    (metric ++ "_max")%string; (metric ++ "_min")%string ].

(** A reply that wraps the query in a Markdown code fence, with or without
    a language tag after the opening fence. *)
Definition fenced (lang q : string) : string :=
  (fence ++ lang ++ newline ++ q ++ newline ++ fence)%string.

Fixpoint no_backtick (s : string) : bool :=
  match s with
  | EmptyString => true
  | String c t => negb (Ascii.eqb c "`"%char) && no_backtick t
  end.

(** A chat model whose reply to the SQL prompt is fixed. *)
Definition replies_sql (content : string) : ChatModel :=
  canned basic_intent content "is_valid: true" "ok".

(** A resolved intent of the given type with nothing else set, as the
    pydantic model builds it. *)
Definition bare_intent (type : string) (ents ms : list string)
    (fs : list (string * cell)) : QueryIntent :=
  mkQueryIntent type ents ms None fs None None None None.

(** The sample of the relation that goes into the validation prompt. *)
Definition sample_data (pd : Rendering) (result : DataFrame) : string :=
  if (0 <? len result)%nat then to_string pd (head (Some 10%Z) result) else "No data".

(** Every label of the frame is the label of one column. *)
Definition distinct_labels (d : DataFrame) : bool :=
  forallb (fun c => unique_label c d) (columns d).

(** Every cell of the frame can be hashed. *)
Definition hashable (d : DataFrame) : bool :=
  match unhashable d with
  | None => true
  | Some _ => false
  end.

(** A frame of scalars under labels that are all different. *)
Definition regular (d : DataFrame) : bool := distinct_labels d && hashable d.

(** What [validate_result] computes before it calls the chat model. *)
Definition validation_preparation (pd : Rendering) (d : DataFrame) : outcome string :=
  obind (basic_checks pd d) (fun _ => _create_summary pd d).


(** A frame with a list in a cell. *)
Definition with_list : DataFrame :=
  mkDataFrame [("tags", object)] [ [Nested "list"] ].

(** A connection whose every query returns that frame, as DuckDB does for
    a column of a nested type. *)
Definition list_table (sql : string) : M unit DataFrame := ret with_list.

(** A row passes the filters: it passes each filter whose column the
    dataset has. *)
Definition passes (pd : Rendering) (d : DataFrame) (fs : list (string * cell)) (r : row)
  : bool :=
  forallb (fun f => negb (has_column (fst f) d) || mask_eq pd (get d (fst f) r) (snd f)) fs.

(** Every filter whose column the dataset has is a selection the model
    works out. *)
Definition all_selectable (d : DataFrame) (fs : list (string * cell)) : bool :=
  forallb (fun f => negb (has_column (fst f) d) || selectable d (fst f) (snd f)) fs.

(** How many of [n] rows [head(limit)] keeps. *)
Definition kept (lim : option Z) (n : nat) : nat :=
  match lim with
  | None => n
  | Some z => if (0 <=? z)%Z then Nat.min (Z.to_nat z) n else n - Z.to_nat (- z)
  end.

(** A hundred and fifty rows. *)
Definition many : DataFrame :=
  mkDataFrame [("Id", int64)] (map (fun n => [int (Z.of_nat n)]) (seq 0 150)).

(** What [metric_stats] returns for a numeric column. *)
Definition numeric_stats (pd : Rendering) (d : DataFrame) (metric : string)
  : list ((string * dtype) * cell) :=
  let s := series d metric in
  let t := dtype_of metric (schema d) in
  [ (((metric ++ "_total")%string, t), total pd t s);
    (((metric ++ "_avg")%string, float64), mean pd t s);
    (((metric ++ "_max")%string, t), largest s);
    (((metric ++ "_min")%string, t), smallest s) ].

(** A comparison whose entity is the metric itself. *)
Definition sales_by_sales : Intent :=
  with_metrics ["Sales"] (with_entities ["sales"] (intent_of "comparison")).

(* ================================================================== *)
(** * DataExtractionAgent: get_context                                 *)
(* ================================================================== *)

(** [s[:n]] *)
Fixpoint take (n : nat) (s : string) : string :=
  match n, s with
  | O, _ => EmptyString
  | _, EmptyString => EmptyString
  | S n', String c t => String c (take n' t)
  end.

(** [str(z)] for an integer. *)
Definition str_int (z : Z) : string :=
  if (z <? 0)%Z then ("-" ++ str_nat (Z.to_nat (- z)))%string else str_nat (Z.to_nat z).

Definition no_data_yet : string := "No data extracted yet.".

(** The lines of the context for a result with rows. *)
Definition context_parts (pd : Rendering) (max_rows : Z) (query : option string)
    (result : DataFrame) : list string :=
  [ ("Query executed: "
     ++ match query with
        | Some q => if truthy q then take 200 q else "N/A"
        | None => "N/A"
        end)%string;
    (newline ++ "Result contains " ++ str_nat (len result) ++ " rows and "
     ++ str_nat (List.length (columns result)) ++ " columns")%string;
    (newline ++ "Columns: " ++ join ", " (columns result))%string;
    (newline ++ "First " ++ str_int max_rows ++ " rows:")%string;
    to_string pd (head (Some max_rows) result) ].

Definition get_context {Conn} (pd : Rendering) (max_rows : Z)
  : M (DataExtractionAgent Conn) string :=
  gets (fun self =>
          match last_result self with
          | None => no_data_yet
          | Some result =>
              if (len result =? 0)%nat then no_data_yet
              else join newline (context_parts pd max_rows (last_query self) result)
          end).

(* ================================================================== *)
(** * DataLoader and the overall summary                               *)
(* ================================================================== *)

(** The dict [DataLoader.get_summary_stats] returns. *)
Record SummaryStats : Type := mkStats {
  total_records : nat;
  stat_columns_all : list string;
  stat_numeric_columns : list string;
  stat_categorical_columns : list string;
  stat_date_columns : list string;
  missing_values : list (string * nat);
  memory_usage_mb : Q
}.

(** [df.select_dtypes(include=[t]).columns] for one column type. *)
Definition columns_of_type (t : dtype) (d : DataFrame) : list string :=
  map fst (filter (fun cd => dtype_eqb (snd cd) t) (schema d)).

(** [df.select_dtypes(include=['datetime']).columns]: the columns of a
    [datetime64] type of any unit; a type with a time zone is not among
    them. *)
Definition naive_datetime_columns (d : DataFrame) : list string :=
  map fst (filter (fun cd => match snd cd with
                             | datetime64 | datetime64_unit => true
                             | _ => false
                             end) (schema d)).

(** [get_summary_stats], on the dataset the loader holds ([None] before a
    file is loaded); the memory footprint is taken as given. *)
Definition get_summary_stats (memory_usage : DataFrame -> Q)
    (loaded : option DataFrame) : outcome SummaryStats :=
  match loaded with
  | None => Raise (ValueError "No data loaded")
  | Some d =>
      Return (mkStats (len d) (columns d) (numeric_columns d)
                      (columns_of_type object d)
                      (naive_datetime_columns d)
                      (null_counts d)
                      (memory_usage d / 1024 / 1024)%Q)
  end.

Definition summary_question : string :=
  "Provide a comprehensive summary of the retail sales data, including key metrics, trends, and insights.".

(** [RetailInsightsOrchestrator.generate_summary]: the statistics are
    computed first and not used further. *)
Definition orchestrator_generate_summary {Conn}
    (db_execute : string -> M Conn DataFrame) (llm : ChatModel) (pd : Rendering)
    (schema_description : string) (memory_usage : DataFrame -> Q)
    (loaded : option DataFrame) : M (DataExtractionAgent Conn) string :=
  try_except
    (stats <- lift (get_summary_stats memory_usage loaded) ;;
     result <- orchestrator_process_query db_execute llm pd schema_description
                 summary_question ;;
     ret (r_answer result))%py
    (fun e => ret ("Error generating summary: " ++ str_exn e)%string).

(* ================================================================== *)
(** * ValidationAgent: business rules                                  *)
(* ================================================================== *)







Section BusinessRules.

(** [str(v)] of a bound in the message of a range rule. *)
Variable str_bound : option Q -> string.





End BusinessRules.








(* ================================================================== *)
(** * DocumentChunker ([vector_store.py])                               *)
(* ================================================================== *)

(** An index of a Python slice, brought into the text: a negative index
    counts from the end. *)
Definition clip (n i : Z) : Z :=
  if (i <? 0)%Z then Z.max 0 (n + i) else Z.min i n.

(** [s[a:b]] *)
Definition slice (s : string) (a b : Z) : string :=
  let n := Z.of_nat (String.length s) in
  take (Z.to_nat (clip n b - clip n a)) (drop (Z.to_nat (clip n a)) s).

(** The [while] loop of [chunk_text], with a bound on the number of turns:
    [None] when the bound is used up before the loop ends. *)
Fixpoint chunk_text_loop (fuel : nat) (text : string) (chunk_size overlap : Z)
    (start : Z) (chunks : list string) : option (list string) :=
  match fuel with
  | O => None
  | S fuel' =>
      if (start <? Z.of_nat (String.length text))%Z then
        let end_ := (start + chunk_size)%Z in
        let chunk := slice text start end_ in
        chunk_text_loop fuel' text chunk_size overlap (end_ - overlap)%Z
                        (chunks ++ [chunk])
      else Some chunks
  end.

Definition chunk_text (fuel : nat) (text : string) (chunk_size overlap : Z)
  : option (list string) :=
  chunk_text_loop fuel text chunk_size overlap 0%Z [].

(** The text the chunks stand for once the overlaps are dropped: of every
    chunk, the part before the next chunk starts. *)
Definition without_overlap (chunk_size overlap : Z) (chunks : list string) : string :=
  String.concat EmptyString (map (take (Z.to_nat (chunk_size - overlap))) chunks).

(** A chunk of [chunk_dataframe_rows]: the text and the three entries of
    its metadata. *)
Record RowChunk : Type := mkRowChunk {
  chunk_body : string;
  start_row : nat;
  end_row : nat;
  num_records : nat
}.

(** [df.iloc[i:j]] for [0 <= i <= j]. *)
Definition iloc (d : DataFrame) (i j : nat) : DataFrame :=
  mkDataFrame (schema d) (firstn (j - i) (skipn i (rows d))).

(** [range(0, stop, step)] for a positive step. *)
Definition range_by (stop step : nat) : list nat :=
  map (fun k => k * step) (seq 0 ((stop + step - 1) / step)).

Section RowChunks.

Variable pd : Rendering.
(** [df.to_string()], with the index column. *)
Variable to_string_indexed : DataFrame -> string.

(** One turn of the loop of [chunk_dataframe_rows]. *)
Definition row_chunk (d : DataFrame) (chunk_size i : nat) : outcome RowChunk :=
  let chunk_df := iloc d i (i + chunk_size) in
  let text_parts :=
    [ ("Data summary for rows " ++ str_nat i ++ " to " ++ str_nat (i + len chunk_df)
       ++ ":")%string;
      to_string pd chunk_df ] in
  let numeric_cols := numeric_columns chunk_df in
  obind (if (0 <? List.length numeric_cols)%nat
         then obind (describe pd (project chunk_df numeric_cols)) (fun stats =>
                Return (text_parts
                        ++ [(newline ++ "Numeric summary:")%string;
                            to_string_indexed stats]))
         else Return text_parts)
        (fun text_parts =>
           Return (mkRowChunk (join newline text_parts) i (i + len chunk_df)
                              (len chunk_df))).

Definition chunk_dataframe_rows (d : DataFrame) (chunk_size : Z)
  : outcome (list RowChunk) :=
  if (chunk_size =? 0)%Z then Raise (ValueError "range() arg 3 must not be zero")
  else if (chunk_size <? 0)%Z then Return []
  else omap (row_chunk d (Z.to_nat chunk_size)) (range_by (len d) (Z.to_nat chunk_size)).

End RowChunks.

(* ================================================================== *)
(** * DataLoader ([loader.py])                                          *)
(* ================================================================== *)

(** Every row has one cell per column. *)
Definition well_formed (d : DataFrame) : Prop :=
  Forall (fun r => List.length r = List.length (schema d)) (rows d).

(** [df[col] = values]: the column under the label takes the new values,
    row by row, and the new type. *)
Definition assign_column (d : DataFrame) (col : string) (t : dtype) (vals : list cell)
  : DataFrame :=
  mkDataFrame
    (map (fun cd => if String.eqb (fst cd) col then (fst cd, t) else cd) (schema d))
    (map (fun ir =>
            map (fun cc => if String.eqb (fst (fst cc)) col
                           then nth (fst ir) vals NaN else snd cc)
                (combine (schema d) (snd ir)))
         (combine (seq 0 (len d)) (rows d))).

(** [df[cols] = df[cols].fillna(v)] *)
Definition fillna (d : DataFrame) (cols : list string) (v : cell) : DataFrame :=
  mkDataFrame (schema d)
    (map (fun r =>
            map (fun cc => if existsb (String.eqb (fst (fst cc))) cols && is_nan (snd cc)
                           then v else snd cc)
                (combine (schema d) r))
         (rows d)).

Module Loader.

Section WithEngine.

Variable Conn : Type.
(** [pd.to_datetime] on a column: the parsed values, or an exception. *)
Variable to_datetime : list cell -> outcome (list cell).

(** The attributes of a [DataLoader]. *)
Record DataLoader : Type := mkLoader {
  df : option DataFrame;
  db_conn : option Conn
}.

(** One turn of the loop over the text columns: a column with "date" in
    its label is parsed, and kept as it is when the parsing raises. *)
Definition convert_date (d : DataFrame) (col : string) : DataFrame :=
  if contains "date" (lower col) then
    match to_datetime (series d col) with
    | Return vals => assign_column d col datetime64 vals
    | Raise _ => d
    end
  else d.

Definition preprocess (arg : option DataFrame) : M DataLoader DataFrame :=
  fun self =>
    match (match arg with Some d => Some d | None => df self end) with
    | None => (Raise (ValueError "No data loaded"), self)
    | Some d =>
        let d := copy d in
        let date_columns := columns_of_type object d in
        let d := fold_left convert_date date_columns d in
        let d := fillna d (numeric_columns d) (Num 0) in
        let d := fillna d (columns_of_type object d) (Str "Unknown") in
        (Return d, mkLoader (Some d) (db_conn self))
    end.

End WithEngine.

End Loader.

(** A type whose missing cells [preprocess] fills. *)
Definition filled_type (t : dtype) : bool :=
  match t with
  | int64 | float64 | object => true
  | _ => false
  end.

(** Orders with gaps, and a date column read as text. *)
Definition raw_orders : DataFrame :=
  mkDataFrame [("OrderDate", object); ("Region", object); ("Sales", float64)]
    [ [Str "2024-01-05"; Str "North"; NaN];
      [Str "2024-01-06"; NaN; Num 12];
      [NaN; Str "South"; Num 7] ].

(** A parser that knows no date. *)
Definition no_dates (l : list cell) : outcome (list cell) :=
  Raise (ValueError "Unknown datetime string format").

(** A parser that reads every text as day 0 and keeps a gap a gap. *)
Definition all_day_zero (l : list cell) : outcome (list cell) :=
  Return (map (fun c => match c with NaN => NaN | _ => Timestamp 0 end) l).


(** The rows [groupby(by)[metric].count().reset_index()] is made of: the
    key and the number of values of its group that are present. *)
Definition count_rows (d : DataFrame) (by_ metric : string) : list row :=
  map (fun k => [k; Num (inject_Z (Z.of_nat
                   (List.length (present (group_values d by_ metric k)))))])
      (group_keys d by_).

(** The categories of [sales] counted per region, largest count first, two
    rows at most. *)
Definition count_by_region : Intent :=
  let i := with_limit 2 (with_aggregation "count"
             (with_metrics ["Category"] (with_entities ["Region"]
                (intent_of "aggregation")))) in
  mkIntent (query_type i) (entities i) (metrics i) (time_period i) (filters i)
           (aggregation i) (Given "Category") (limit i) (sql_query i).

(* ================================================================== *)
(** * The extraction agent over a store of frames                      *)
(* ================================================================== *)

(** The strategies of [extraction_agent.py] once more, call by call, over
    a store in which a frame is an object with an identity: a variable
    holds a reference, a pandas method reads the object it is called on
    and returns a new object, and an operation in place changes the object
    for everyone who holds a reference to it.  What a call computes is
    what the definitions above say; what is added here is where the frames
    live, so that leaving the dataset of the agent unchanged is a property
    the code could fail to have.  Objects that are made and dropped within
    one expression (the frame of [select_dtypes], a groupby object, a
    boolean mask) are given no address. *)
Module Refs.

Definition ref : Type := nat.

(** The store: the frames made so far, each at its address. *)
Definition Heap : Type := list DataFrame.

Definition read (h : Heap) (r : ref) : DataFrame := nth r h empty_frame.

Fixpoint update (h : Heap) (r : ref) (d : DataFrame) : Heap :=
  match h, r with
  | [], _ => []
  | _ :: t, O => d :: t
  | x :: t, S r' => x :: update t r' d
  end.

Section Agent.

Variable Conn : Type.
Variable pd : Rendering.

(** The attributes of the agent; [df] and [last_result] hold references. *)
Record DataExtractionAgent : Type := mkExtraction {
  db_conn : Conn;
  df : ref;
  last_query : option string;
  last_result : option ref
}.

(** A method body runs over the store and the attributes of [self]. *)
Definition State : Type := (Heap * DataExtractionAgent)%type.

(** The object behind a reference. *)
Definition deref (r : ref) : M State DataFrame := gets (fun s => read (fst s) r).

(** A new object, at the next address. *)
Definition new (d : DataFrame) : M State ref :=
  fun s => (Return (List.length (fst s)), (fst s ++ [d], snd s)).

(** An object changed in place. *)
Definition assign (r : ref) (d : DataFrame) : M State unit :=
  modify (fun s => (update (fst s) r d, snd s)).

(** [self.df] *)
Definition self_df : M State ref := gets (fun s => df (snd s)).

(** A pandas method that leaves the frame it is called on as it is and
    returns a new frame: [head], [copy], [describe], the selection of
    columns or of rows, [sort_values] and the aggregates of a
    [groupby]. *)
Definition method (f : DataFrame -> outcome DataFrame) (r : ref) : M State ref :=
  (d <- deref r ;; d' <- lift (f d) ;; new d')%py.

Definition pd_head (n : option Z) : ref -> M State ref :=
  method (fun d => Return (head n d)).

Definition pd_copy : ref -> M State ref := method (fun d => Return (copy d)).

(** [df[cols]] *)
Definition pd_getitem_columns (cols : list string) : ref -> M State ref :=
  method (fun d => Return (project d cols)).

Definition pd_describe : ref -> M State ref := method (describe pd).

(** [df[df[col] == value]] *)
Definition pd_getitem_eq (c : string) (value : cell) : ref -> M State ref :=
  method (fun d => select_eq pd d c value).

(** [df.sort_values(col, ascending=...)] *)
Definition pd_sort_values (c : string) (ascending : bool) : ref -> M State ref :=
  method (fun d => sort_values pd d c ascending).

(** [df.sort_values(col, ascending=..., inplace=True)]: the one frame is
    reordered, and nothing is returned. *)
Definition pd_sort_values_inplace (c : string) (ascending : bool) (r : ref)
  : M State unit :=
  (d <- deref r ;; d' <- lift (sort_values pd d c ascending) ;; assign r d')%py.

(** [df.groupby(by)[metric].sum().reset_index()] *)
Definition pd_groupby_sum (by_ metric : string) : ref -> M State ref :=
  method (fun d => groupby_sum pd d by_ metric).

(** [self.df.head(10)] *)
Definition first_rows : M State ref := (self <- self_df ;; pd_head (Some 10%Z) self)%py.

Definition _extract_summary (intent : Intent) : M State ref :=
  let ms := get_list (metrics intent) in
  (self <- self_df ;;
   d <- deref self ;;
   match ms with
   | [] =>
       numeric <- pd_getitem_columns (numeric_columns d) self ;;
       pd_describe numeric
   | _ =>
       stats <- lift (omap (metric_stats pd d)
                           (filter (fun m => has_column m d) (first_seen ms))) ;;
       let result_data := List.concat stats in
       new (mkDataFrame (map fst result_data)
                        (match result_data with
                         | [] => []
                         | _ => [map snd result_data]
                         end))
   end)%py.

Definition _extract_comparison (intent : Intent) : M State ref :=
  let ents := get_list (entities intent) in
  let ms := get_list (metrics intent) in
  (self <- self_df ;;
   d <- deref self ;;
   match ents, ms with
   | [], _ | _, [] => first_rows
   | _, _ =>
       let entity_col := find_entity_col pd d ents in
       if unresolved entity_col then first_rows
       else match entity_col, metric_col d ms with
            | Some e, Some m =>
                result <- pd_groupby_sum e m self ;;
                pd_sort_values m false result
            | _, _ => first_rows
            end
   end)%py.

Definition _extract_trend (intent : Intent) : M State ref :=
  let ms := get_list (metrics intent) in
  (self <- self_df ;;
   d <- deref self ;;
   date_col <- lift (find_date_col d) ;;
   if unresolved date_col || match ms with [] => true | _ => false end
   then first_rows
   else match date_col, metric_col d ms with
        | Some c, Some m =>
            result <- pd_groupby_sum c m self ;;
            pd_sort_values c true result
        | _, _ => first_rows
        end)%py.

(** One turn of the loop over [filters.items()]: the variable [result] is
    bound to the selection, a new frame. *)
Definition apply_filter (result : ref) (f : string * cell) : M State ref :=
  (d <- deref result ;;
   if has_column (fst f) d then pd_getitem_eq (fst f) (snd f) result
   else ret result)%py.

Fixpoint apply_filters (fs : list (string * cell)) (result : ref) : M State ref :=
  match fs with
  | [] => ret result
  | f :: rest => (result <- apply_filter result f ;; apply_filters rest result)%py
  end.

Definition _extract_filtered (intent : Intent) : M State ref :=
  (self <- self_df ;;
   result <- pd_copy self ;;
   match dict_get (filters intent) (Some []) with
   | None => raise (AttributeError "'NoneType' object has no attribute 'items'")
   | Some fs =>
       result <- apply_filters fs result ;;
       pd_head (dict_get (limit intent) (Some 100%Z)) result
   end)%py.

Definition _extract_aggregation (intent : Intent) : M State ref :=
  let ents := get_list (entities intent) in
  let ms := get_list (metrics intent) in
  let agg_name := dict_get (aggregation intent) (Some "sum") in
  (self <- self_df ;;
   d <- deref self ;;
   match ents, ms with
   | [], _ | _, [] => first_rows
   | _, _ =>
       let entity_col := find_entity_col pd d ents in
       if unresolved entity_col then first_rows
       else match entity_col, metric_col d ms with
            | Some e, Some m =>
                match agg_name with
                | None =>
                    raise (TypeError "attribute name must be string, not 'NoneType'")
                | Some name =>
                    match groupby_attr pd d e m name with
                    | None => raise (TypeError "'str' object is not callable")
                    | Some called =>
                        result <- method (fun _ => called) self ;;
                        result <-
                          match dict_get (sort_by intent) None with
                          | Some s =>
                              r <- deref result ;;
                              if truthy s && has_column s r
                              then pd_sort_values s false result
                              else ret result
                          | None => ret result
                          end ;;
                        pd_head (dict_get (limit intent) (Some 100%Z)) result
                    end
                end
            | _, _ => first_rows
            end
   end)%py.

Definition extract_by_intent (intent : Intent) : M State ref :=
  match dict_get (query_type intent) (Some "summary") with
  | Some t =>
      if String.eqb t "summary" then _extract_summary intent
      else if String.eqb t "comparison" then _extract_comparison intent
      else if String.eqb t "trend" then _extract_trend intent
      else if String.eqb t "filter" then _extract_filtered intent
      else if String.eqb t "aggregation" then _extract_aggregation intent
      else first_rows
  | None => first_rows
  end.

(** What a run that only makes new frames looks like: from the store [h]
    and the agent [a] it ends with [h] extended and [a] as it was, and its
    outcome is a reference to a frame made during the run, holding [d]
    when [o] is [Return d], or the exception of [o]. *)
Definition allocates (run : outcome ref * State) (h : Heap) (a : DataExtractionAgent)
    (o : outcome DataFrame) : Prop :=
  exists fresh,
    snd run = (h ++ fresh, a)
    /\ match fst run, o with
       | Return r, Return d =>
           List.length h <= r /\ r < List.length (h ++ fresh) /\ read (h ++ fresh) r = d
       | Raise e, Raise e' => e = e'
       | _, _ => False
       end.

(** A method that is not in the source, to compare with: one that sorts
    the dataset of the agent in place before it takes the first rows. *)
Definition sorted_in_place (c : string) : M State ref :=
  (self <- self_df ;; pd_sort_values_inplace c true self ;;; pd_head (Some 10%Z) self)%py.

End Agent.

End Refs.
(* ================================================================== *)
(** * The object monad                                                 *)
(* ================================================================== *)

Unset Implicit Arguments.

Lemma bind_ret_l {S A B} (a : A) (k : A -> M S B) (s : S) :
  bind (ret a) k s = k a s.
Proof. reflexivity. Qed.

Lemma bind_raise {S A B} (e : exn) (k : A -> M S B) (s : S) :
  bind (raise e) k s = (Raise e, s).
Proof. reflexivity. Qed.

Lemma bind_lift_return {S A B} (a : A) (k : A -> M S B) (s : S) :
  bind (lift (Return a)) k s = k a s.
Proof. reflexivity. Qed.

Lemma bind_lift_raise {S A B} (e : exn) (k : A -> M S B) (s : S) :
  bind (lift (Raise e)) k s = (Raise e, s).
Proof. reflexivity. Qed.

(** A computation that only reads the object and then runs code without
    access to it leaves the object as it was, whatever the outcome. *)
Lemma gets_lift_state {S A B} (f : S -> A) (g : A -> outcome B) (s : S) :
  snd (bind (gets f) (fun a => lift (g a)) s) = s.
Proof. reflexivity. Qed.

Lemma gets_lift_value {S A B} (f : S -> A) (g : A -> outcome B) (s : S) :
  fst (bind (gets f) (fun a => lift (g a)) s) = g (f s).
Proof. reflexivity. Qed.

(* ================================================================== *)
(** * DataExtractionAgent: execute_sql                                 *)
(* ================================================================== *)

Section ExecuteSql.

Variable Conn : Type.
Variable db_execute : string -> M Conn DataFrame.

(** C9: [execute_sql] is atomic on failure.  When the engine raises, the
    exception is passed on and [last_query] and [last_result] (and the
    dataset) are exactly what they were before the call; only the
    connection may have moved.  When the engine returns a frame, the
    frame is returned and the two attributes become the executed query
    and that frame. *)
Theorem execute_sql_atomic (sql : string) (self : DataExtractionAgent Conn) :
  match db_execute sql (db_conn self) with
  | (Raise e, c) =>
      execute_sql db_execute sql self
      = (Raise e, mkExtraction c (df self) (last_query self) (last_result self))
  | (Return result, c) =>
      execute_sql db_execute sql self
      = (Return result, mkExtraction c (df self) (Some sql) (Some result))
  end.
Proof.
  unfold execute_sql, try_except, bind, on_conn.
  destruct (db_execute sql (db_conn self)) as [[result | e] c]; reflexivity.
Qed.

End ExecuteSql.

(* ================================================================== *)
(** * DataExtractionAgent: the dataset is only read                    *)
(* ================================================================== *)

Lemma on_df_state {Conn} (f : DataFrame -> Intent -> outcome DataFrame)
    (intent : Intent) (self : DataExtractionAgent Conn) :
  on_df f intent self = (f (df self) intent, self).
Proof. reflexivity. Qed.

Lemma extract_by_intent_run {Conn} (pd : Rendering) (intent : Intent)
    (self : DataExtractionAgent Conn) :
  extract_by_intent pd intent self = (extraction pd (df self) intent, self).
Proof.
  unfold extract_by_intent, extraction.
  destruct (dict_get (query_type intent) (Some "summary")) as [t |]; [| reflexivity].
  repeat match goal with
         | |- context [String.eqb t ?s] => destruct (String.eqb t s)
         end; reflexivity.
Qed.

(* ================================================================== *)
(** * Lists, heads and sorting                                         *)
(* ================================================================== *)

Lemma firstn_min {A} (n : nat) (l : list A) :
  firstn n l = firstn (Nat.min n (List.length l)) l.
Proof.
  destruct (Nat.le_gt_cases n (List.length l)) as [H | H].
  - now rewrite Nat.min_l.
  - rewrite Nat.min_r by lia.
    rewrite firstn_all. apply firstn_all2. lia.
Qed.

Lemma in_firstn {A} (n : nat) (l : list A) (x : A) :
  In x (firstn n l) -> In x l.
Proof.
  revert l. induction n as [| n IH]; intros [| y t]; simpl; try tauto.
  intros [H | H]; [now left | right; now apply IH].
Qed.


Lemma head_schema (n : option Z) (d : DataFrame) : schema (head n d) = schema d.
Proof.
  destruct n as [z |]; simpl; [| reflexivity].
  destruct (0 <=? z)%Z; reflexivity.
Qed.

Lemma head_rows_in (n : option Z) (d : DataFrame) (r : row) :
  In r (rows (head n d)) -> In r (rows d).
Proof.
  destruct n as [z |]; simpl; [| tauto].
  destruct (0 <=? z)%Z; simpl; apply in_firstn.
Qed.

Lemma head_len (z : Z) (d : DataFrame) :
  (0 <= z)%Z -> len (head (Some z) d) <= Z.to_nat z.
Proof.
  intros H. unfold head, len.
  destruct (Z.leb_spec 0 z) as [_ | H']; [| lia].
  simpl. rewrite length_firstn. lia.
Qed.

Section SortingFacts.

Variable A : Type.
Variable leb : A -> A -> bool.
Hypothesis leb_total : forall a b, leb a b = true \/ leb b a = true.

Let le (a b : A) : Prop := leb a b = true.

Lemma insert_sorted_perm (x : A) (l : list A) :
  Permutation (insert_sorted leb x l) (x :: l).
Proof.
  induction l as [| y t IH]; simpl.
  - apply Permutation_refl.
  - destruct (leb x y).
    + apply Permutation_refl.
    + eapply perm_trans; [apply perm_skip, IH | apply perm_swap].
Qed.

Lemma sort_perm (l : list A) : Permutation (sort leb l) l.
Proof.
  induction l as [| x t IH]; simpl.
  - apply perm_nil.
  - eapply perm_trans; [apply insert_sorted_perm | now apply perm_skip].
Qed.

Lemma insert_sorted_hd (x y : A) (l : list A) :
  le y x -> HdRel le y l -> HdRel le y (insert_sorted leb x l).
Proof.
  intros Hyx Hl. destruct l as [| z t]; simpl.
  - now constructor.
  - destruct (leb x z); constructor; [assumption | now inversion Hl].
Qed.

Lemma insert_sorted_sorted (x : A) (l : list A) :
  Sorted le l -> Sorted le (insert_sorted leb x l).
Proof.
  induction 1 as [| y t Ht IH Hy]; simpl.
  - repeat constructor.
  - destruct (leb x y) eqn:E.
    + constructor; [now constructor | now constructor].
    + constructor; [assumption |].
      apply insert_sorted_hd; [| assumption].
      destruct (leb_total x y) as [H | H]; [congruence | exact H].
Qed.

Lemma sort_sorted (l : list A) : Sorted le (sort leb l).
Proof.
  induction l as [| x t IH]; simpl.
  - constructor.
  - now apply insert_sorted_sorted.
Qed.

(** A list that is in order already comes back as it is. *)
Lemma sort_of_sorted (l : list A) : Sorted le l -> sort leb l = l.
Proof.
  induction 1 as [| x t Ht IH Hx]; simpl; [reflexivity |].
  rewrite IH. destruct Hx as [| y t' Hxy]; simpl; [reflexivity |].
  unfold le in Hxy. now rewrite Hxy.
Qed.

End SortingFacts.

Lemma sort_length {A} (leb : A -> A -> bool) (l : list A) :
  List.length (sort leb l) = List.length l.
Proof. apply Permutation_length, sort_perm. Qed.

Lemma filter_all {A} (p : A -> bool) (l : list A) :
  (forall x, In x l -> p x = true) -> filter p l = l.
Proof.
  induction l as [| x t IH]; simpl; intros H; [reflexivity |].
  rewrite (H x) by now left. f_equal. apply IH. intros y Hy. apply H. now right.
Qed.

Lemma filter_none {A} (p : A -> bool) (l : list A) :
  (forall x, In x l -> p x = false) -> filter p l = [].
Proof.
  induction l as [| x t IH]; simpl; intros H; [reflexivity |].
  rewrite (H x) by now left. apply IH. intros y Hy. apply H. now right.
Qed.

(* ================================================================== *)
(** * The fallback of the strategies                                   *)
(* ================================================================== *)





Lemma extraction_comparison (pd : Rendering) (d : DataFrame) (intent : Intent) :
  resolved_type intent = Some "comparison" ->
  extraction pd d intent = comparison pd d intent.
Proof. unfold resolved_type, extraction. now intros ->. Qed.

Lemma extraction_trend (pd : Rendering) (d : DataFrame) (intent : Intent) :
  resolved_type intent = Some "trend" ->
  extraction pd d intent = trend pd d intent.
Proof. unfold resolved_type, extraction. now intros ->. Qed.

Lemma extraction_aggregation (pd : Rendering) (d : DataFrame) (intent : Intent) :
  resolved_type intent = Some "aggregation" ->
  extraction pd d intent = aggregate pd d intent.
Proof. unfold resolved_type, extraction. now intros ->. Qed.

Lemma extraction_filter (pd : Rendering) (d : DataFrame) (intent : Intent) :
  resolved_type intent = Some "filter" ->
  extraction pd d intent = filtered pd d intent.
Proof. unfold resolved_type, extraction. now intros ->. Qed.



(* ================================================================== *)
(** * The filter strategy                                              *)
(* ================================================================== *)

Lemma get_schema (d d' : DataFrame) (c : string) (r : row) :
  schema d' = schema d -> get d' c r = get d c r.
Proof. unfold get, columns. now intros ->. Qed.

Lemma has_column_schema (d d' : DataFrame) (c : string) :
  schema d' = schema d -> has_column c d' = has_column c d.
Proof. unfold has_column, columns. now intros ->. Qed.

Lemma filter_filter {A} (p q : A -> bool) (l : list A) :
  filter q (filter p l) = filter (fun x => p x && q x) l.
Proof.
  induction l as [| x t IH]; simpl; [reflexivity |].
  destruct (p x); simpl; [destruct (q x) |]; now rewrite IH.
Qed.

Lemma filter_pointwise {A} (p q : A -> bool) (l : list A) :
  (forall x, p x = q x) -> filter p l = filter q l.
Proof.
  intros H. induction l as [| x t IH]; simpl; [reflexivity |].
  now rewrite H, IH.
Qed.

(** A selection the model works out on the dataset is one it works out on
    any part of its rows. *)
Lemma selectable_part (d : DataFrame) (rs : list row) (c : string) (v : cell) :
  (forall r, In r rs -> In r (rows d)) ->
  selectable d c v = true ->
  selectable (mkDataFrame (schema d) rs) c v = true.
Proof.
  intros Hsub. unfold selectable, unique_label, columns, series. cbn [schema rows].
  intros H. apply andb_true_iff in H. destruct H as [H Hc]. rewrite H. cbn [andb].
  rewrite forallb_forall in *. intros x Hx.
  apply in_map_iff in Hx. destruct Hx as (r & <- & Hr).
  apply Hc. apply in_map_iff. exists r. split; [reflexivity | now apply Hsub].
Qed.

(** On filters the model works out, the loop keeps the rows that pass every
    filter whose column exists, in the order of the dataset. *)
Lemma apply_filters_rows (pd : Rendering) (d : DataFrame) (fs : list (string * cell)) :
  all_selectable d fs = true ->
  forall rs, (forall r, In r rs -> In r (rows d)) ->
  apply_filters pd fs (mkDataFrame (schema d) rs)
  = Return (mkDataFrame (schema d) (filter (passes pd d fs) rs)).
Proof.
  induction fs as [| [c v] fs IH]; intros Hs rs Hsub.
  - simpl. f_equal. f_equal. symmetry. now apply filter_all.
  - cbn [all_selectable forallb fst snd] in Hs. apply andb_true_iff in Hs.
    destruct Hs as [Hf Hs]. cbn [apply_filters]. unfold apply_filter. cbn [fst snd].
    rewrite (has_column_schema d (mkDataFrame (schema d) rs)) by reflexivity.
    destruct (has_column c d) eqn:Hc.
    + cbn [negb orb] in Hf. unfold select_eq.
      rewrite (selectable_part d rs c v Hsub Hf). cbn [obind schema rows].
      rewrite (IH Hs).
      * f_equal. f_equal. rewrite filter_filter. apply filter_pointwise.
        intros r. unfold passes. cbn [forallb fst snd]. rewrite Hc. cbn [negb orb].
        now rewrite (get_schema d (mkDataFrame (schema d) rs)).
      * intros r Hr. apply filter_In in Hr. now apply Hsub.
    + cbn [obind]. rewrite (IH Hs rs Hsub). f_equal. f_equal.
      apply filter_pointwise. intros r. unfold passes. cbn [forallb fst snd].
      now rewrite Hc.
Qed.

Lemma filtered_rows (pd : Rendering) (d : DataFrame) (intent : Intent)
    (fs : list (string * cell)) :
  dict_get (filters intent) (Some []) = Some fs ->
  all_selectable d fs = true ->
  filtered pd d intent
  = Return (head (dict_get (limit intent) (Some 100%Z))
                 (mkDataFrame (schema d) (filter (passes pd d fs) (rows d)))).
Proof.
  intros Hfs Hs. unfold filtered, copy. rewrite Hfs.
  destruct d as [sch rs]. cbn [schema rows].
  pose proof (apply_filters_rows pd (mkDataFrame sch rs) fs Hs rs (fun r H => H)) as E.
  cbn [schema rows] in E. rewrite E. reflexivity.
Qed.

Lemma mask_eq_str (pd : Rendering) (c : cell) (s : string) :
  mask_eq pd c (Str s) = true ->
  c = Str s
  \/ exists x, c = Timestamp x /\ parse_timestamp pd s = Some x.
Proof.
  destruct c as [| q | s' | t | n]; simpl; try discriminate.
  - intros H. apply String.eqb_eq in H. left. now subst.
  - destruct (parse_timestamp pd s) as [y |]; [| discriminate].
    intros H. apply Z.eqb_eq in H. subst. right. eauto.
Qed.

(** C4, at the failing input: a filter intent as [QueryIntent.dict()] makes
    it when no limit was set (the key [limit] bound to [None]), with no
    filter, over a dataset of 150 rows, returns all 150 rows: [head(None)]
    cuts nothing, and the default of 100 is not used. *)
Theorem filter_unset_limit_not_cut :
  extract_by_intent plain (dict (bare_intent "filter" [] [] []))
    (new_extraction_agent tt many)
  = (Return many, new_extraction_agent tt many)
  /\ len many = 150.
Proof. split; vm_compute; reflexivity. Qed.

(* ================================================================== *)
(** * ValidationAgent                                                  *)
(* ================================================================== *)

Lemma filter_positive {A} (p : A -> bool) (l : list A) :
  (0 <? List.length (filter p l))%nat = existsb p l.
Proof.
  induction l as [| x t IH]; simpl; [reflexivity |].
  destruct (p x); simpl; [reflexivity | exact IH].
Qed.

Lemma sum_positive {A} (f : A -> nat) (l : list A) :
  (0 <? sum_nat (map f l))%nat = existsb (fun x => (0 <? f x)%nat) l.
Proof.
  induction l as [| x t IH]; simpl; [reflexivity |].
  rewrite <- IH. destruct (f x); simpl; [reflexivity |].
  destruct (sum_nat (map f t)); reflexivity.
Qed.

Lemma existsb_pointwise {A} (p q : A -> bool) (l : list A) :
  (forall x, p x = q x) -> existsb p l = existsb q l.
Proof.
  intros H. induction l as [| x t IH]; simpl; [reflexivity |].
  now rewrite H, IH.
Qed.

Lemma map_fst_combine {A B} (a : list A) (b : list B) :
  List.length a = List.length b -> map fst (combine a b) = a.
Proof.
  revert b. induction a as [| x a IH]; intros [| y b] H; simpl in *;
    try reflexivity; try discriminate.
  f_equal. apply IH. now injection H.
Qed.

Lemma existsb_map {A B} (f : A -> B) (p : B -> bool) (l : list A) :
  existsb p (map f l) = existsb (fun x => p (f x)) l.
Proof. induction l as [| x t IH]; simpl; [reflexivity | now rewrite IH]. Qed.

Lemma null_test (d : DataFrame) :
  (0 <? sum_nat (map snd (null_counts d)))%nat = has_nulls d.
Proof.
  unfold null_counts, has_nulls. rewrite map_map. cbn [snd].
  rewrite sum_positive.
  rewrite <- (map_fst_combine (seq 0 (List.length (columns d))) (columns d))
    at 2 by apply length_seq.
  rewrite existsb_map. apply existsb_pointwise.
  intros ic. apply filter_positive.
Qed.

Section ValidationFacts.

Variable pd : Rendering.

(** The checks return on rows that can be hashed, and then each finding
    has added one issue and one suggestion; on a value that cannot be
    hashed they raise. *)
Lemma basic_checks_cases (d : DataFrame) :
  match unhashable d with
  | None =>
      exists iss sug,
        basic_checks pd d = Return (iss, sug)
        /\ List.length iss = issue_count d
        /\ List.length sug = issue_count d
  | Some n => basic_checks pd d = Raise (TypeError ("unhashable type: '" ++ n ++ "'"))
  end.
Proof.
  unfold basic_checks, issue_count, count_distinct_rows, has_duplicates.
  rewrite null_test. fold (is_empty d). unfold len.
  destruct (unhashable d) as [n |].
  - destruct (is_empty d), (has_nulls d); reflexivity.
  - cbn [obind].
    destruct (is_empty d), (has_nulls d),
      (negb (List.length (rows d) =? List.length (rows (drop_duplicates d)))%nat);
      do 2 eexists; (split; [reflexivity |]); split; reflexivity.
Qed.

Lemma basic_checks_count (d : DataFrame) (iss sug : list string) :
  basic_checks pd d = Return (iss, sug) ->
  List.length iss = issue_count d /\ List.length sug = issue_count d.
Proof.
  intros H. pose proof (basic_checks_cases d) as C.
  destruct (unhashable d) as [n |].
  - rewrite H in C. discriminate.
  - destruct C as (iss' & sug' & E & Hi & Hs). rewrite H in E.
    injection E as <- <-. auto.
Qed.

Lemma pymax_pymin_bounds (x : Q) :
  (0 <= pymax 0 (pymin 1 x) /\ pymax 0 (pymin 1 x) <= 1)%Q.
Proof.
  unfold pymax, pymin.
  destruct (Qle_bool 1 x) eqn:E1.
  - change (Qle_bool 1 0) with false. cbv iota. split; discriminate.
  - destruct (Qle_bool x 0) eqn:E0.
    + split; discriminate.
    + split.
      * destruct (Qlt_le_dec 0 x) as [H | H]; [now apply Qlt_le_weak |].
        apply Qle_bool_iff in H. congruence.
      * destruct (Qlt_le_dec x 1) as [H | H]; [now apply Qlt_le_weak |].
        apply Qle_bool_iff in H. congruence.
Qed.

(** [max(0.0, min(1.0, x))] is the clamp of [x] to the unit interval. *)
Lemma pymax_pymin_clamp (x : Q) : (pymax 0 (pymin 1 x) == clamp x 0 1)%Q.
Proof.
  unfold pymax, pymin, clamp.
  destruct (Qlt_le_dec x 0) as [Hlt | Hge].
  - assert (E1 : Qle_bool 1 x = false).
    { destruct (Qle_bool 1 x) eqn:E; [| reflexivity].
      apply Qle_bool_iff in E. exfalso.
      apply (Qlt_irrefl 0). eapply Qlt_trans; [| exact Hlt].
      eapply Qlt_le_trans; [| exact E]. reflexivity. }
    rewrite E1.
    assert (E0 : Qle_bool x 0 = true) by (apply Qle_bool_iff; now apply Qlt_le_weak).
    rewrite E0. reflexivity.
  - destruct (Qlt_le_dec 1 x) as [Hgt | Hle].
    + assert (E1 : Qle_bool 1 x = true) by (apply Qle_bool_iff; now apply Qlt_le_weak).
      rewrite E1. change (Qle_bool 1 0) with false. reflexivity.
    + destruct (Qle_bool 1 x) eqn:E1.
      * change (Qle_bool 1 0) with false. cbv iota.
        apply Qle_bool_iff in E1. now apply Qle_antisym.
      * destruct (Qle_bool x 0) eqn:E0; [| reflexivity].
        apply Qle_bool_iff in E0. now apply Qle_antisym.
Qed.

(** [validate_result] from the point where its preparation has returned:
    the result is made of the lists of the checks and of what the chat
    model did. *)
Lemma validate_result_prepared (llm : ChatModel) (question query : string)
    (result : DataFrame) (iss sug : list string) (result_summary : string) :
  basic_checks pd result = Return (iss, sug) ->
  _create_summary pd result = Return result_summary ->
  validate_result llm pd question query result
  = Return
      (match ask_validation llm question query result_summary (sample_data pd result) with
       | Return text =>
           let c := pymax 0 (pymin 1 (1 - inject_Z (Z.of_nat (List.length iss)) * (2 # 10))%Q) in
           mkValidation (affirmed text || (List.length iss =? 0)%nat) c c iss (Some sug)
                        (Some (len result)) (Some (List.length (columns result)))
       | Raise _ =>
           let c := if (List.length iss =? 0)%nat then (7 # 10)%Q else (3 # 10)%Q in
           mkValidation (List.length iss =? 0)%nat c c iss (Some sug)
                        (Some (len result)) (Some (List.length (columns result)))
       end).
Proof.
  intros Hb Hs. unfold validate_result, sample_data, affirmed. rewrite Hb, Hs.
  cbn [obind].
  destruct (ask_validation llm question query result_summary _); reflexivity.
Qed.

(** [validate_result] returns only when its preparation has. *)
Lemma validate_result_returned (llm : ChatModel) (question query : string)
    (result : DataFrame) (v : Validation) :
  validate_result llm pd question query result = Return v ->
  exists iss sug result_summary,
    basic_checks pd result = Return (iss, sug)
    /\ _create_summary pd result = Return result_summary.
Proof.
  unfold validate_result.
  destruct (basic_checks pd result) as [[iss sug] | e]; [| discriminate].
  cbn [obind].
  destruct (_create_summary pd result) as [s | e]; [| discriminate].
  eauto.
Qed.

(** Whatever the chat model does, the confidence and the quality score of
    a result that is returned lie between 0 and 1. *)
Lemma validate_result_bounded (llm : ChatModel) (question query : string)
    (result : DataFrame) (v : Validation) :
  validate_result llm pd question query result = Return v ->
  (0 <= confidence v /\ confidence v <= 1)%Q
  /\ (0 <= quality_score v /\ quality_score v <= 1)%Q.
Proof.
  intros Hv.
  destruct (validate_result_returned llm question query result v Hv)
    as (iss & sug & s & Hb & Hs).
  rewrite (validate_result_prepared llm question query result iss sug s Hb Hs) in Hv.
  injection Hv as <-.
  destruct (ask_validation llm question query s _) as [text | e];
    cbn [confidence quality_score].
  - split; apply pymax_pymin_bounds.
  - destruct (List.length iss =? 0)%nat; repeat split; discriminate.
Qed.

(** C5: when the call of the chat model is reached (the checks and the
    summary that are made before it have returned) and the chat model
    answers, [validate_result] returns a result that is valid iff the
    answer carries the affirmative marker or the deterministic checks
    (emptiness, missing values, duplicate rows) found nothing; its
    confidence is [1 - 0.2 * issues] clamped to the unit interval and its
    quality score is the confidence.  Whatever the chat model does, the
    confidence and the quality score of a result that is returned lie
    between 0 and 1; and so do those of the validation result a response
    carries, which is the result returned or, when [validate_result]
    raised, the substitute of the orchestrator. *)
Theorem validate_result_judged (llm : ChatModel) (question query : string)
    (result : DataFrame) :
  (forall iss sug result_summary text,
      basic_checks pd result = Return (iss, sug) ->
      _create_summary pd result = Return result_summary ->
      ask_validation llm question query result_summary (sample_data pd result)
      = Return text ->
      exists v,
        validate_result llm pd question query result = Return v
        /\ is_valid v = affirmed text || (issue_count result =? 0)%nat
        /\ List.length (issues v) = issue_count result
        /\ (confidence v
            == clamp (1 - inject_Z (Z.of_nat (issue_count result)) * (2 # 10)) 0 1)%Q
        /\ quality_score v = confidence v)
  /\ (forall v,
        validate_result llm pd question query result = Return v ->
        (0 <= confidence v /\ confidence v <= 1)%Q
        /\ (0 <= quality_score v /\ quality_score v <= 1)%Q)
  /\ (forall X rq gs (ex : string -> M X DataFrame) x,
        let v := validated rq gs ex (validate_result llm pd) question x in
        (0 <= confidence v /\ confidence v <= 1)%Q
        /\ (0 <= quality_score v /\ quality_score v <= 1)%Q).
Proof.
  split; [| split].
  - intros iss sug s text Hb Hs Hllm.
    destruct (basic_checks_count result iss sug Hb) as [Hc _].
    rewrite (validate_result_prepared llm question query result iss sug s Hb Hs), Hllm.
    eexists. split; [reflexivity |]. cbn [is_valid issues confidence quality_score].
    rewrite Hc. repeat split. apply pymax_pymin_clamp.
  - apply validate_result_bounded.
  - intros X rq gs ex x. cbv zeta. unfold validated, validation_outcome.
    destruct (validate_result llm pd question _ _) as [v | e] eqn:Hv.
    + exact (validate_result_bounded llm question _ _ v Hv).
    + cbn. repeat split; discriminate.
Qed.

(** C6: when the call of the chat model is reached and fails,
    [validate_result] still returns a result: valid iff the deterministic
    checks found nothing, confidence 0.7 when valid and 0.3 otherwise,
    quality score equal to the confidence.  The issues and suggestions are
    the ones the checks collected before the call, the same lists a
    successful call returns. *)
Theorem validate_result_degraded (llm : ChatModel) (question query : string)
    (result : DataFrame) (iss sug : list string) (result_summary : string) (e : exn) :
  basic_checks pd result = Return (iss, sug) ->
  _create_summary pd result = Return result_summary ->
  ask_validation llm question query result_summary (sample_data pd result) = Raise e ->
  exists v,
    validate_result llm pd question query result = Return v
    /\ is_valid v = (issue_count result =? 0)%nat
    /\ confidence v = (if is_valid v then 7 # 10 else 3 # 10)%Q
    /\ quality_score v = confidence v
    /\ issues v = iss
    /\ suggestions v = Some sug
    /\ List.length (issues v) = issue_count result
    /\ forall llm' v',
        validate_result llm' pd question query result = Return v' ->
        issues v' = issues v /\ suggestions v' = suggestions v.
Proof.
  intros Hb Hs Hllm.
  destruct (basic_checks_count result iss sug Hb) as [Hc _].
  rewrite (validate_result_prepared llm question query result iss sug result_summary Hb Hs),
    Hllm.
  eexists. split; [reflexivity |].
  cbn [is_valid issues suggestions confidence quality_score]. rewrite Hc.
  repeat split.
  - rewrite (validate_result_prepared llm' question query result iss sug result_summary
               Hb Hs) in H.
    injection H as <-. now destruct (ask_validation llm' _ _ _ _).
  - rewrite (validate_result_prepared llm' question query result iss sug result_summary
               Hb Hs) in H.
    injection H as <-. now destruct (ask_validation llm' _ _ _ _).
Qed.

End ValidationFacts.

Lemma validate_result_judged_witness :
  exists v,
    validate_result (canned basic_intent "SELECT 1" "Is_Valid: TRUE" "ok") plain
                    "Which region sells most?" "SELECT 1" flawed = Return v
    /\ is_valid v = true
    /\ List.length (issues v) = 2
    /\ (confidence v == 6 # 10)%Q.
Proof.
  destruct (basic_checks plain flawed) as [[iss sug] | e] eqn:Hb;
    [| vm_compute in Hb; discriminate Hb].
  destruct (_create_summary plain flawed) as [s | e] eqn:Hs;
    [| vm_compute in Hs; discriminate Hs].
  destruct (validate_result_judged plain
              (canned basic_intent "SELECT 1" "Is_Valid: TRUE" "ok")
              "Which region sells most?" "SELECT 1" flawed) as (H & _ & _).
  destruct (H iss sug s "Is_Valid: TRUE" Hb Hs eq_refl)
    as (v & Hv & Hvalid & Hlen & Hconf & _).
  exists v. split; [exact Hv |]. split; [| split].
  - rewrite Hvalid. vm_compute. reflexivity.
  - rewrite Hlen. vm_compute. reflexivity.
  - rewrite Hconf. vm_compute. reflexivity.
Defined.

Lemma validate_result_degraded_witness :
  exists v,
    validate_result offline plain "Which region sells most?" "SELECT 1" flawed = Return v
    /\ is_valid v = false
    /\ confidence v = (3 # 10)%Q
    /\ List.length (issues v) = 2.
Proof.
  destruct (basic_checks plain flawed) as [[iss sug] | e] eqn:Hb;
    [| vm_compute in Hb; discriminate Hb].
  destruct (_create_summary plain flawed) as [s | e] eqn:Hs;
    [| vm_compute in Hs; discriminate Hs].
  destruct (validate_result_degraded plain offline "Which region sells most?" "SELECT 1"
              flawed iss sug s (ProviderError "Connection error.") Hb Hs eq_refl)
    as (v & Hv & Hvalid & Hconf & _ & _ & _ & Hlen & _).
  exists v. split; [exact Hv |].
  assert (Hfalse : is_valid v = false) by (rewrite Hvalid; vm_compute; reflexivity).
  split; [exact Hfalse |]. split.
  - rewrite Hconf, Hfalse. reflexivity.
  - rewrite Hlen. vm_compute. reflexivity.
Defined.

(* ================================================================== *)
(** * Cells: equality and order                                        *)
(* ================================================================== *)

Lemma Qeq_bool_sym (a b : Q) : Qeq_bool a b = Qeq_bool b a.
Proof.
  destruct (Qeq_bool a b) eqn:E1, (Qeq_bool b a) eqn:E2; try reflexivity.
  - apply Qeq_bool_iff in E1. symmetry in E1. apply Qeq_bool_iff in E1. congruence.
  - apply Qeq_bool_iff in E2. symmetry in E2. apply Qeq_bool_iff in E2. congruence.
Qed.

Lemma cell_same_refl (a : cell) : cell_same a a = true.
Proof.
  destruct a as [| q | s | t | n]; simpl.
  - reflexivity.
  - apply Qeq_bool_iff. reflexivity.
  - apply String.eqb_refl.
  - apply Z.eqb_refl.
  - apply String.eqb_refl.
Qed.

Lemma cell_same_trans (a b c : cell) :
  cell_same a b = true -> cell_same b c = true -> cell_same a c = true.
Proof.
  destruct a as [| x | x | x | x], b as [| y | y | y | y], c as [| z | z | z | z];
    simpl; try discriminate; try reflexivity.
  - rewrite !Qeq_bool_iff. intros H1 H2. now rewrite H1.
  - rewrite !String.eqb_eq. congruence.
  - rewrite !Z.eqb_eq. congruence.
  - rewrite !String.eqb_eq. congruence.
Qed.

Lemma cell_leb_total (a b : cell) : cell_leb a b = true \/ cell_leb b a = true.
Proof.
  destruct a as [| x | x | x | x], b as [| y | y | y | y]; simpl; auto.
  - destruct (Qlt_le_dec x y) as [H | H].
    + left. apply Qle_bool_iff. now apply Qlt_le_weak.
    + right. now apply Qle_bool_iff.
  - apply String.leb_total.
  - destruct (Z.leb_spec x y); [now left | right]. apply Z.leb_le. lia.
  - apply String.leb_total.
Qed.

(* ================================================================== *)
(** * Grouping                                                         *)
(* ================================================================== *)

Lemma distinct_in (same : cell -> cell -> bool) (l : list cell) (k : cell) :
  In k (distinct same l) -> In k l.
Proof.
  induction l as [| x t IH]; simpl; [tauto |].
  intros [H | H]; [now left | right].
  apply filter_In in H. now apply IH.
Qed.

(** Every value has a representative among the distinct ones. *)
Lemma distinct_complete (l : list cell) (c : cell) :
  In c l -> exists k, In k (distinct cell_same l) /\ cell_same k c = true.
Proof.
  induction l as [| x t IH]; simpl; [tauto |].
  intros [-> | H].
  - exists c. split; [now left | apply cell_same_refl].
  - destruct (IH H) as (k & Hk & Hkc).
    destruct (cell_same x k) eqn:E.
    + exists x. split; [now left | now apply cell_same_trans with k].
    + exists k. split; [| assumption].
      right. apply filter_In. split; [assumption |]. now rewrite E.
Qed.

(** No two of the distinct values are the same. *)
Lemma distinct_apart (l : list cell) :
  ForallOrdPairs (fun a b => cell_same a b = false) (distinct cell_same l).
Proof.
  induction l as [| x t IH]; simpl; [constructor |].
  constructor.
  - apply Forall_forall. intros y Hy. apply filter_In in Hy.
    destruct Hy as [_ Hy]. now apply negb_true_iff in Hy.
  - induction IH as [| y l' Hy Hl' IH']; simpl; [constructor |].
    destruct (negb (cell_same x y)); [| exact IH'].
    constructor; [| exact IH'].
    apply Forall_forall. intros z Hz. apply filter_In in Hz.
    rewrite Forall_forall in Hy. now apply Hy.
Qed.

Lemma present_in (l : list cell) (c : cell) :
  In c (present l) <-> In c l /\ is_nan c = false.
Proof.
  unfold present. rewrite filter_In. now rewrite negb_true_iff.
Qed.

Lemma group_keys_perm (d : DataFrame) (c : string) :
  Permutation (group_keys d c) (distinct cell_same (present (series d c))).
Proof. apply sort_perm. Qed.

Lemma group_keys_in (d : DataFrame) (c : string) (k : cell) :
  In k (group_keys d c) -> In k (series d c) /\ is_nan k = false.
Proof.
  intros H. apply (Permutation_in _ (group_keys_perm d c)) in H.
  apply distinct_in in H. now apply present_in.
Qed.

Lemma group_keys_sorted (d : DataFrame) (c : string) :
  Sorted (fun a b => cell_leb a b = true) (group_keys d c).
Proof. apply sort_sorted, cell_leb_total. Qed.

(** Each value of the column that is present is the key of a group. *)
Lemma group_keys_complete (d : DataFrame) (c : string) (v : cell) :
  In v (series d c) -> is_nan v = false ->
  exists k, In k (group_keys d c) /\ cell_same k v = true.
Proof.
  intros Hv Hn.
  destruct (distinct_complete (present (series d c)) v) as (k & Hk & Hkv).
  { now apply present_in. }
  exists k. split; [| assumption].
  apply (Permutation_in _ (Permutation_sym (group_keys_perm d c))). assumption.
Qed.

Lemma omap_all_return {A B} (f : A -> outcome B) (g : A -> B) (l : list A) :
  (forall x, In x l -> f x = Return (g x)) -> omap f l = Return (map g l).
Proof.
  induction l as [| x t IH]; simpl; intros H; [reflexivity |].
  rewrite (H x) by now left. simpl.
  rewrite IH by (intros y Hy; apply H; now right). reflexivity.
Qed.

Lemma omap_length {A B} (f : A -> outcome B) (l : list A) (ys : list B) :
  omap f l = Return ys -> List.length ys = List.length l.
Proof.
  revert ys. induction l as [| x t IH]; simpl; intros ys H.
  - now injection H as <-.
  - destruct (f x) as [y | e]; [| discriminate]. cbn [obind] in H.
    destruct (omap f t) as [ys' | e]; [| discriminate]. cbn [obind] in H.
    injection H as <-. simpl. f_equal. now apply IH.
Qed.

(** What [omap] returns is, item by item, what the function returned. *)
Lemma omap_each {A B} (f : A -> outcome B) (l : list A) (ys : list B) :
  omap f l = Return ys ->
  forall x y, In (x, y) (combine l ys) -> f x = Return y.
Proof.
  revert ys. induction l as [| a t IH]; simpl; intros ys H x y Hin; [contradiction |].
  destruct (f a) as [b | e] eqn:Ea; [| discriminate]. cbn [obind] in H.
  destruct (omap f t) as [ys' | e]; [| discriminate]. cbn [obind] in H.
  injection H as <-. destruct Hin as [[= <- <-] | Hin]; [exact Ea |].
  now apply (IH ys').
Qed.

Lemma omap_paired {A B C} (f : A -> outcome B) (g : A -> B -> C) (l : list A)
    (ys : list B) :
  omap f l = Return ys ->
  omap (fun x => obind (f x) (fun v => Return (g x v))) l
  = Return (map (fun xv => g (fst xv) (snd xv)) (combine l ys)).
Proof.
  revert ys. induction l as [| a t IH]; simpl; intros ys H.
  - now injection H as <-.
  - destruct (f a) as [b | e]; [| discriminate]. cbn [obind] in H |- *.
    destruct (omap f t) as [ys' | e]; [| discriminate]. cbn [obind] in H.
    injection H as <-. now rewrite (IH ys' eq_refl).
Qed.

Lemma map_snd_combine {A B} (a : list A) (b : list B) :
  List.length b = List.length a -> map snd (combine a b) = b.
Proof.
  revert b. induction a as [| x a IH]; intros [| y b] H; simpl in *;
    try reflexivity; try discriminate.
  f_equal. apply IH. now injection H.
Qed.

Lemma all_numeric_group (d : DataFrame) (by_ metric : string) (k : cell) :
  all_numeric (series d metric) = true ->
  all_numeric (group_values d by_ metric k) = true.
Proof.
  unfold all_numeric, group_values, series. rewrite !forallb_forall.
  intros H c Hc. apply H.
  apply in_map_iff in Hc. destruct Hc as (r & <- & Hr).
  apply in_map. apply filter_In in Hr. tauto.
Qed.

Section GroupingFacts.

Variable pd : Rendering.

(** The sums of a column that holds numbers: pandas returns one for every
    group, and they can be ordered. *)
Lemma numeric_sums (d : DataFrame) (by_ metric : string) (t : dtype) :
  all_numeric (series d metric) = true ->
  exists sums,
    group_aggregates (agg_sum pd t) d by_ metric = Return sums
    /\ sums = map (fun k => total pd t (group_values d by_ metric k)) (group_keys d by_)
    /\ orderable sums = true.
Proof.
  intros Hnum. eexists. split; [| split; [reflexivity |]].
  - unfold group_aggregates. apply omap_all_return.
    intros k _. unfold agg_sum. now rewrite (all_numeric_group d by_ metric k Hnum).
  - unfold orderable, uniform.
    assert (H : forall l : list cell,
               forallb (of_kind Number)
                 (map (fun k => total pd t (group_values d by_ metric k)) l) = true
               /\ forallb (fun v => negb (is_nan v))
                    (map (fun k => total pd t (group_values d by_ metric k)) l) = true).
    { induction l as [| k l [IH1 IH2]]; simpl; auto. }
    destruct (H (group_keys d by_)) as [-> ->]. reflexivity.
Qed.

Lemma group_rows_length (d : DataFrame) (by_ : string) (values : list cell) :
  List.length values = List.length (group_keys d by_) ->
  List.length (group_rows d by_ values)
  = List.length (distinct cell_same (present (series d by_))).
Proof.
  intros H. unfold group_rows. rewrite length_map, length_combine, H, Nat.min_id.
  apply Permutation_length, group_keys_perm.
Qed.

(** The grouped aggregates on a frame the model works out, when the two
    labels differ. *)
Lemma groupby_agg_rows (d : DataFrame) (by_ metric name : string)
    (agg : list cell -> outcome cell) (out : dtype) (values : list cell) :
  groupable d by_ metric = true ->
  by_ <> metric ->
  group_aggregates agg d by_ metric = Return values ->
  groupby_agg pd d by_ metric name agg out
  = Return (mkDataFrame [(by_, dtype_of by_ (schema d)); (metric, out)]
                        (group_rows d by_ values)).
Proof.
  intros Hg Hne Hv. unfold groupby_agg, group_rows. rewrite Hg.
  rewrite (omap_paired (fun k => agg (group_values d by_ metric k))
             (fun k v => [k; v]) (group_keys d by_) values Hv).
  cbn [obind]. destruct (String.eqb_spec by_ metric); [contradiction | reflexivity].
Qed.

(** The same label on both sides is refused by [reset_index], if the
    aggregate was not refused before. *)
Lemma groupby_same_label (d : DataFrame) (c name : string)
    (agg : list cell -> outcome cell) (t : dtype) :
  groupable d c c = true ->
  (exists e, groupby_agg pd d c c name agg t = Raise e)
  /\ (forall values, group_aggregates agg d c c = Return values ->
        groupby_agg pd d c c name agg t
        = Raise (ValueError ("cannot insert " ++ c ++ ", already exists"))).
Proof.
  intros Hg. unfold groupby_agg. rewrite Hg. split.
  - destruct (omap _ (group_keys d c)) as [rs | e]; cbn [obind].
    + rewrite String.eqb_refl. eexists. reflexivity.
    + eexists. reflexivity.
  - intros values Hv.
    rewrite (omap_paired (fun k => agg (group_values d c c k))
               (fun k v => [k; v]) (group_keys d c) values Hv).
    cbn [obind]. now rewrite String.eqb_refl.
Qed.

End GroupingFacts.

Lemma get_key (by_ metric : string) (tb tm : dtype) (rs : list row) (k v : cell) :
  get (mkDataFrame [(by_, tb); (metric, tm)] rs) by_ [k; v] = k.
Proof. unfold get. simpl. now rewrite String.eqb_refl. Qed.

Lemma get_value (by_ metric : string) (tb tm : dtype) (rs : list row) (k v : cell) :
  by_ <> metric ->
  get (mkDataFrame [(by_, tb); (metric, tm)] rs) metric [k; v] = v.
Proof.
  intros Hne. unfold get. simpl.
  destruct (String.eqb_spec metric by_) as [E | _]; [congruence |].
  now rewrite String.eqb_refl.
Qed.

(** The two columns of a grouped frame, read back. *)
Lemma grouped_keys (d : DataFrame) (by_ metric : string) (tb tm : dtype)
    (values : list cell) :
  List.length values = List.length (group_keys d by_) ->
  series (mkDataFrame [(by_, tb); (metric, tm)] (group_rows d by_ values)) by_
  = group_keys d by_.
Proof.
  intros H. unfold series, group_rows. cbn [rows]. rewrite map_map.
  rewrite <- (map_fst_combine (group_keys d by_) values) at 2 by now rewrite H.
  apply map_ext. intros [k v]. apply get_key.
Qed.

Lemma grouped_values (d : DataFrame) (by_ metric : string) (tb tm : dtype)
    (values : list cell) :
  by_ <> metric ->
  List.length values = List.length (group_keys d by_) ->
  series (mkDataFrame [(by_, tb); (metric, tm)] (group_rows d by_ values)) metric
  = values.
Proof.
  intros Hne H. unfold series, group_rows. cbn [rows]. rewrite map_map.
  rewrite <- (map_snd_combine (group_keys d by_) values) at 2 by assumption.
  apply map_ext. intros [k v]. now apply get_value.
Qed.

Lemma grouped_labels (by_ metric : string) (tb tm : dtype) (rs : list row) :
  by_ <> metric ->
  unique_label by_ (mkDataFrame [(by_, tb); (metric, tm)] rs) = true
  /\ unique_label metric (mkDataFrame [(by_, tb); (metric, tm)] rs) = true.
Proof.
  intros Hne. unfold unique_label, columns. cbn [schema map fst filter].
  rewrite !String.eqb_refl.
  destruct (String.eqb_spec by_ metric) as [E | _]; [contradiction |].
  destruct (String.eqb_spec metric by_) as [E | _]; [congruence |].
  split; reflexivity.
Qed.

Lemma cell_leb_antisym (a b : cell) :
  cell_leb a b = true -> cell_leb b a = true -> cell_same a b = true.
Proof.
  destruct a as [| x | x | x | x], b as [| y | y | y | y]; simpl;
    try discriminate; try reflexivity; intros H1 H2.
  - apply Qeq_bool_iff. apply Qle_bool_iff in H1, H2. now apply Qle_antisym.
  - apply String.eqb_eq. now apply String.leb_antisym.
  - apply Z.eqb_eq. apply Z.leb_le in H1, H2. lia.
  - apply String.eqb_eq. now apply String.leb_antisym.
Qed.

Lemma cell_same_sym (a b : cell) : cell_same a b = cell_same b a.
Proof.
  destruct a as [| x | x | x | x], b as [| y | y | y | y]; simpl; try reflexivity.
  - apply Qeq_bool_sym.
  - apply String.eqb_sym.
  - apply Z.eqb_sym.
  - apply String.eqb_sym.
Qed.

Lemma filter_split_perm {A} (p : A -> bool) (l : list A) :
  Permutation (filter (fun x => negb (p x)) l ++ filter p l) l.
Proof.
  induction l as [| x t IH]; simpl; [constructor |].
  destruct (p x); simpl.
  - apply Permutation_sym, Permutation_cons_app. now apply Permutation_sym.
  - now constructor.
Qed.

Lemma Sorted_weaken {A} (R R' : A -> A -> Prop) (l : list A) :
  (forall a b, R a b -> R' a b) -> Sorted R l -> Sorted R' l.
Proof.
  intros HR. induction 1 as [| x t Ht IH Hhd]; constructor; [exact IH |].
  destruct Hhd; constructor. now apply HR.
Qed.

Lemma Sorted_map {A B} (R : B -> B -> Prop) (f : A -> B) (l : list A) :
  Sorted (fun x y => R (f x) (f y)) l <-> Sorted R (map f l).
Proof.
  split.
  - induction 1 as [| x t Ht IH Hhd]; simpl; constructor; [exact IH |].
    destruct Hhd; simpl; constructor. assumption.
  - induction l as [| x t IH]; simpl; intros H; [constructor |].
    inversion H as [| ? ? Ht Hx]; subst. constructor; [now apply IH |].
    destruct t as [| y t']; constructor. simpl in Hx. now inversion Hx.
Qed.

Section SortRowsFacts.

Variable pd : Rendering.
Variable d : DataFrame.
Variable c : string.

Lemma row_leb_total (asc : bool) (x y : nat * row) :
  row_leb pd d c asc x y = true \/ row_leb pd d c asc y x = true.
Proof.
  unfold row_leb.
  destruct (cell_leb_total (get d c (snd x)) (get d c (snd y))) as [H | H];
    destruct (Nat.leb_spec (sort_ties pd d c asc (fst x)) (sort_ties pd d c asc (fst y)))
      as [L | L];
    destruct (Nat.leb_spec (sort_ties pd d c asc (fst y)) (sort_ties pd d c asc (fst x)))
      as [L' | L'];
    try lia;
    destruct asc; rewrite ?H;
    destruct (cell_leb (get d c (snd y)) (get d c (snd x)));
    destruct (cell_leb (get d c (snd x)) (get d c (snd y))); auto; discriminate.
Qed.

Lemma row_leb_key (asc : bool) (x y : nat * row) :
  row_leb pd d c asc x y = true ->
  (if asc then cell_leb (get d c (snd x)) (get d c (snd y))
   else cell_leb (get d c (snd y)) (get d c (snd x))) = true.
Proof.
  unfold row_leb. destruct asc.
  - destruct (cell_leb (get d c (snd x)) (get d c (snd y))); [reflexivity | discriminate].
  - destruct (cell_leb (get d c (snd y)) (get d c (snd x))); [reflexivity | discriminate].
Qed.

Lemma numbered_rows : map snd (combine (seq 0 (len d)) (rows d)) = rows d.
Proof. apply map_snd_combine. unfold len. now rewrite length_seq. Qed.

Lemma sort_rows_perm (asc : bool) : Permutation (sort_rows pd d c asc) (rows d).
Proof.
  unfold sort_rows. rewrite <- numbered_rows at 3. apply Permutation_map.
  eapply perm_trans; [apply Permutation_app_tail, sort_perm |].
  apply (filter_split_perm (fun x => is_nan (get d c (snd x)))).
Qed.

Hypothesis all_present : forall r, In r (rows d) -> is_nan (get d c r) = false.

Lemma sort_rows_present (asc : bool) :
  sort_rows pd d c asc
  = map snd (sort (row_leb pd d c asc) (combine (seq 0 (len d)) (rows d))).
Proof.
  unfold sort_rows.
  rewrite filter_all, filter_none, app_nil_r; [reflexivity | |];
    intros x Hx; destruct x as [i r]; apply in_combine_r in Hx;
    cbn [snd]; now rewrite (all_present r Hx).
Qed.

(** With no missing key, the sorted rows have their keys in order. *)
Lemma sort_rows_sorted (asc : bool) :
  Sorted (fun r1 r2 => (if asc then cell_leb (get d c r1) (get d c r2)
                        else cell_leb (get d c r2) (get d c r1)) = true)
         (sort_rows pd d c asc).
Proof.
  rewrite sort_rows_present.
  apply (Sorted_map (fun r1 r2 => (if asc then cell_leb (get d c r1) (get d c r2)
                                   else cell_leb (get d c r2) (get d c r1)) = true) snd).
  apply (Sorted_weaken (fun x y => row_leb pd d c asc x y = true)).
  - intros x y. apply row_leb_key.
  - apply sort_sorted. intros x y. apply row_leb_total.
Qed.

(** Rows whose keys are in strictly ascending order already are left as
    they are. *)
Lemma sort_rows_in_order :
  Sorted (fun a b => cell_leb a b = true /\ cell_same a b = false) (series d c) ->
  sort_rows pd d c true = rows d.
Proof.
  intros H. rewrite sort_rows_present. rewrite <- numbered_rows at 2. f_equal.
  apply sort_of_sorted.
  unfold series in H. rewrite <- numbered_rows in H. rewrite map_map in H.
  apply (Sorted_map (fun a b => cell_leb a b = true /\ cell_same a b = false)
           (fun x => get d c (snd x))) in H.
  refine (Sorted_weaken _ _ _ _ H).
  intros x y [Hle Hne]. unfold row_leb. rewrite Hle.
  destruct (cell_leb (get d c (snd y)) (get d c (snd x))) eqn:E; [| reflexivity].
  rewrite (cell_leb_antisym _ _ Hle E) in Hne. discriminate.
Qed.

End SortRowsFacts.

Lemma sort_values_sortable (pd : Rendering) (d : DataFrame) (c : string) (asc : bool) :
  sortable d c = true ->
  sort_values pd d c asc = Return (mkDataFrame (schema d) (sort_rows pd d c asc)).
Proof. intros H. unfold sort_values. now rewrite H. Qed.

(** The group keys are in strictly ascending order. *)
Lemma insert_sorted_strict (x : cell) (l : list cell) :
  Sorted (fun a b => cell_leb a b = true /\ cell_same a b = false) l ->
  (forall y, In y l -> cell_same x y = false) ->
  Sorted (fun a b => cell_leb a b = true /\ cell_same a b = false)
         (insert_sorted cell_leb x l).
Proof.
  induction 1 as [| y t Ht IH Hy]; simpl; intros Hx.
  - repeat constructor.
  - destruct (cell_leb x y) eqn:E.
    + constructor; [now constructor |]. constructor. split; [exact E |].
      apply Hx. now left.
    + constructor; [apply IH; intros z Hz; apply Hx; now right |].
      destruct t as [| z t']; simpl.
      * constructor. split.
        -- destruct (cell_leb_total x y); congruence.
        -- rewrite cell_same_sym. apply Hx. now left.
      * destruct (cell_leb x z).
        -- constructor. split.
           ++ destruct (cell_leb_total x y); congruence.
           ++ rewrite cell_same_sym. apply Hx. now left.
        -- inversion Hy; subst. now constructor.
Qed.

Lemma group_keys_strict (d : DataFrame) (c : string) :
  Sorted (fun a b => cell_leb a b = true /\ cell_same a b = false) (group_keys d c).
Proof.
  unfold group_keys.
  induction (distinct_apart (present (series d c))) as [| x l Hx Hl IH]; simpl;
    [constructor |].
  apply insert_sorted_strict; [exact IH |].
  intros y Hy. apply (Permutation_in _ (sort_perm _ cell_leb l)) in Hy.
  rewrite Forall_forall in Hx. now apply Hx.
Qed.

Lemma uniform_part (l l' : list cell) :
  (forall x, In x l' -> In x l) -> uniform l = true -> uniform l' = true.
Proof.
  intros Hsub. unfold uniform.
  assert (P : forall k, forallb (of_kind k) l = true -> forallb (of_kind k) l' = true).
  { intros k H. rewrite forallb_forall in *. auto. }
  intros H. apply orb_true_iff in H. destruct H as [H | H].
  - apply orb_true_iff in H. destruct H as [H | H].
    + now rewrite (P _ H).
    + rewrite (P _ H). now rewrite orb_true_r.
  - rewrite (P _ H). now rewrite !orb_true_r.
Qed.

Lemma sorted_map_keys {A} (leb : cell -> cell -> bool) (key : A -> cell) (l : list A) :
  Sorted (fun a b => leb a b = true) (map key l) ->
  Sorted (fun r1 r2 => leb (key r1) (key r2) = true) l.
Proof.
  induction l as [| x t IH]; simpl; intros H; [constructor |].
  inversion H as [| ? ? Ht Hx]; subst. constructor; [now apply IH |].
  destruct t as [| y t']; constructor. simpl in Hx. now inversion Hx.
Qed.

Lemma find_first {A} (p : A -> bool) (l : list A) (x : A) :
  find p l = Some x ->
  exists before after,
    l = before ++ x :: after /\ p x = true /\ forall y, In y before -> p y = false.
Proof.
  induction l as [| y t IH]; simpl; [discriminate |].
  destruct (p y) eqn:E.
  - intros [= <-]. exists [], t. repeat split; [assumption | intros ? []].
  - intros H. destruct (IH H) as (b & a & -> & Hx & Hb).
    exists (y :: b), a. repeat split; [assumption |].
    intros z [<- | Hz]; [assumption | now apply Hb].
Qed.

(* ================================================================== *)
(** * The comparison strategy                                          *)
(* ================================================================== *)

Lemma find_never {A} (l : list A) : find (fun _ => false) l = None.
Proof. induction l; simpl; auto. Qed.

Lemma find_pointwise {A} (p q : A -> bool) (l : list A) :
  (forall x, p x = q x) -> find p l = find q l.
Proof.
  intros H. induction l as [| x t IH]; simpl; [reflexivity |].
  now rewrite H, IH.
Qed.

Lemma find_entity_col_nil (pd : Rendering) (d : DataFrame) : find_entity_col pd d [] = None.
Proof. unfold find_entity_col. simpl. apply find_never. Qed.

(** With one entity the code resolves the column as the specification
    says. *)
Lemma find_entity_col_single (pd : Rendering) (d : DataFrame) (entity : string) :
  find_entity_col pd d [entity] = spec_entity_col pd d [entity].
Proof.
  unfold find_entity_col, spec_entity_col. apply find_pointwise.
  intros col. simpl. now rewrite orb_false_r.
Qed.

Lemma metric_col_first (d : DataFrame) (ms : list string) (m : string) :
  metric_col d ms = Some m ->
  exists rest, ms = m :: rest /\ has_column m d = true /\ truthy m = true.
Proof.
  destruct ms as [| x rest]; simpl; [discriminate |].
  destruct (has_column x d) eqn:Hc; simpl; [| discriminate].
  destruct (truthy x) eqn:Ht; [| discriminate].
  intros [= <-]. exists rest. auto.
Qed.

Lemma comparison_resolved (pd : Rendering) (d : DataFrame) (intent : Intent)
    (e m : string) :
  find_entity_col pd d (get_list (entities intent)) = Some e ->
  truthy e = true ->
  metric_col d (get_list (metrics intent)) = Some m ->
  comparison pd d intent
  = obind (groupby_sum pd d e m) (fun grouped => sort_values pd grouped m false).
Proof.
  intros He Ht Hm. unfold comparison.
  destruct (get_list (entities intent)) as [| e0 es] eqn:Ee.
  { rewrite find_entity_col_nil in He. discriminate. }
  destruct (get_list (metrics intent)) as [| m0 ms] eqn:Em; [discriminate |].
  rewrite He, Hm. unfold unresolved. rewrite Ht. reflexivity.
Qed.

(** The rows of a grouped frame hold, each, a key and the aggregate pandas
    returned for its group. *)
Lemma group_rows_hold (agg : list cell -> outcome cell) (d : DataFrame)
    (by_ metric : string) (tb tm : dtype) (rs : list row) (values : list cell) (r : row) :
  by_ <> metric ->
  group_aggregates agg d by_ metric = Return values ->
  In r (group_rows d by_ values) ->
  let R := mkDataFrame [(by_, tb); (metric, tm)] rs in
  In (get R by_ r) (group_keys d by_)
  /\ agg (group_values d by_ metric (get R by_ r)) = Return (get R metric r).
Proof.
  intros Hne Hv Hr R. unfold group_rows in Hr.
  apply in_map_iff in Hr. destruct Hr as ([k v] & <- & Hkv). cbn [fst snd].
  unfold R. rewrite get_key, get_value by assumption. split.
  - now apply in_combine_l in Hkv.
  - exact (omap_each _ _ _ Hv k v Hkv).
Qed.

(** C2, as the code has it: a comparison intent is grouped by the first
    column, in column order, whose lower-cased label contains the
    lower-cased text of any of the entities (which is the column the first
    entity names when there is one entity); the strategy returns what
    pandas makes of grouping by that column, summing the first metric and
    sorting by it in descending order.  On a dataset in which that column
    and the first metric are two columns, each the only one of its label,
    and the entity column holds values of one kind, and for sums pandas
    returns and can order (as it does for a metric column that holds
    numbers), the result has the two columns, one row per distinct value
    of the entity column that is present, each row holding the sum of the
    metric over its group, and the rows are in descending order of the
    sum. *)
Theorem comparison_strategy {Conn} (pd : Rendering) (intent : Intent) (e m : string)
    (self : DataExtractionAgent Conn) :
  resolved_type intent = Some "comparison" ->
  find_entity_col pd (df self) (get_list (entities intent)) = Some e ->
  truthy e = true ->
  metric_col (df self) (get_list (metrics intent)) = Some m ->
  let d := df self in
  let t := dtype_of m (schema d) in
  let ents := get_list (entities intent) in
  let matches := fun col =>
    existsb (fun entity => contains (str_lower pd entity) (str_lower pd col)) ents in
  (exists before after,
      columns d = before ++ e :: after
      /\ matches e = true
      /\ forall col, In col before -> matches col = false)
  /\ (exists rest, get_list (metrics intent) = m :: rest /\ has_column m d = true)
  /\ (forall entity, ents = [entity] -> spec_entity_col pd d ents = Some e)
  /\ extract_by_intent pd intent self
     = (obind (groupby_sum pd d e m) (fun grouped => sort_values pd grouped m false), self)
  /\ (e <> m ->
      groupable d e m = true ->
      forall sums,
        group_aggregates (agg_sum pd t) d e m = Return sums ->
        orderable sums = true ->
        exists result,
          extract_by_intent pd intent self = (Return result, self)
          /\ columns result = [e; m]
          /\ Permutation (rows result) (group_rows d e sums)
          /\ Sorted (fun r1 r2 => cell_leb (get result m r2) (get result m r1) = true)
                    (rows result)
          /\ len result = List.length (distinct cell_same (present (series d e)))
          /\ (forall v, In v (series d e) -> is_nan v = false ->
                exists r, In r (rows result) /\ cell_same (get result e r) v = true)
          /\ (forall r, In r (rows result) ->
                In (get result e r) (group_keys d e)
                /\ agg_sum pd t (group_values d e m (get result e r))
                   = Return (get result m r)))
  /\ (all_numeric (series d m) = true ->
      exists sums,
        group_aggregates (agg_sum pd t) d e m = Return sums
        /\ orderable sums = true).
Proof.
  intros Ht He Htr Hm d t ents matches.
  assert (Hrun : extract_by_intent pd intent self
                 = (obind (groupby_sum pd d e m)
                          (fun grouped => sort_values pd grouped m false), self)).
  { rewrite extract_by_intent_run. f_equal.
    rewrite extraction_comparison by assumption.
    now apply comparison_resolved. }
  split; [| split; [| split; [| split; [exact Hrun | split]]]].
  - apply find_first in He. destruct He as (b & a & Hcols & Hp & Hb).
    exists b, a. auto.
  - apply metric_col_first in Hm. destruct Hm as (rest & Hms & Hc & _).
    exists rest. auto.
  - intros entity Hents. rewrite <- He. fold d ents. rewrite Hents.
    symmetry. apply find_entity_col_single.
  - intros Hne Hg sums Hs Hord.
    pose proof (omap_length _ _ _ Hs) as Hlen.
    set (R := mkDataFrame [(e, dtype_of e (schema d)); (m, t)] (group_rows d e sums)).
    apply andb_true_iff in Hord. destruct Hord as [Hu Hp].
    assert (Hvals : series R m = sums) by now apply grouped_values.
    assert (Hsortable : sortable R m = true).
    { unfold sortable. rewrite Hvals, Hu.
      unfold R.
      now rewrite (proj2 (grouped_labels e m (dtype_of e (schema d)) t
                            (group_rows d e sums) Hne)). }
    assert (Hpresent : forall r, In r (rows R) -> is_nan (get R m r) = false).
    { intros r Hr. rewrite forallb_forall in Hp.
      apply negb_true_iff, Hp. rewrite <- Hvals. now apply in_map. }
    pose proof (sort_rows_perm pd R m false) as Hperm.
    exists (mkDataFrame (schema R) (sort_rows pd R m false)).
    split; [| split; [| split; [| split; [| split; [| split]]]]].
    + rewrite Hrun. f_equal. unfold groupby_sum. fold t.
      rewrite (groupby_agg_rows pd d e m "sum" _ t sums Hg Hne Hs). cbn [obind].
      now apply sort_values_sortable.
    + reflexivity.
    + exact Hperm.
    + exact (sort_rows_sorted pd R m Hpresent false).
    + unfold len. cbn [rows]. rewrite (Permutation_length Hperm).
      now apply group_rows_length.
    + intros v Hv Hn.
      destruct (group_keys_complete d e v Hv Hn) as (k & Hk & Hkv).
      assert (Hin : In k (series R e)).
      { unfold R. now rewrite grouped_keys. }
      apply in_map_iff in Hin. destruct Hin as (r & Hr & Hrin).
      exists r. split.
      * cbn [rows]. now apply (Permutation_in _ (Permutation_sym Hperm)).
      * change (get (mkDataFrame (schema R) (sort_rows pd R m false)) e) with (get R e).
        now rewrite Hr.
    + intros r Hr. cbn [rows] in Hr.
      apply (Permutation_in _ Hperm) in Hr.
      exact (group_rows_hold (agg_sum pd t) d e m _ _ (group_rows d e sums) sums r
               Hne Hs Hr).
  - intros Hnum. destruct (numeric_sums pd d e m t Hnum) as (sums & Hs & _ & Ho).
    eauto.
Qed.

Lemma comparison_strategy_witness :
  let self := new_extraction_agent tt sales in
  exists result,
    extract_by_intent plain by_region self = (Return result, self)
    /\ columns result = ["Region"; "Sales"]
    /\ len result = 2
    /\ spec_entity_col plain sales ["Region"] = Some "Region".
Proof.
  intros self.
  assert (H1 : resolved_type by_region = Some "comparison") by reflexivity.
  assert (H2 : find_entity_col plain (df self) (get_list (entities by_region))
               = Some "Region") by (vm_compute; reflexivity).
  assert (H3 : truthy "Region" = true) by reflexivity.
  assert (H4 : metric_col (df self) (get_list (metrics by_region)) = Some "Sales")
    by (vm_compute; reflexivity).
  destruct (comparison_strategy plain by_region "Region" "Sales" self H1 H2 H3 H4)
    as (_ & _ & Hspec & _ & Hshape & Hnum).
  destruct Hnum as (sums & Hs & Ho); [vm_compute; reflexivity |].
  destruct (Hshape ltac:(discriminate) ltac:(vm_compute; reflexivity) sums Hs Ho)
    as (result & H & Hcols & _ & _ & Hlen & _).
  exists result. split; [exact H |]. split; [exact Hcols |]. split.
  - rewrite Hlen. vm_compute. reflexivity.
  - apply (Hspec "Region"). vm_compute. reflexivity.
Defined.

(** C2, as it is worded, fails on an intent with two entities: the first
    entity names the column [Category], and the code groups by [Region],
    the earlier column, which the second entity names. *)
Lemma comparison_first_entity_counterexample :
  spec_entity_col plain sales ["Category"; "Region"] = Some "Category"
  /\ find_entity_col plain sales ["Category"; "Region"] = Some "Region"
  /\ fst (extract_by_intent plain by_category_then_region (new_extraction_agent tt sales))
     = Return (mkDataFrame [("Region", object); ("Sales", int64)]
                 [ [Str "South"; int 260]; [Str "North"; int 140] ]).
Proof. vm_compute. repeat split. Qed.

(* ================================================================== *)
(** * The trend strategy                                               *)
(* ================================================================== *)

Lemma trend_resolved (pd : Rendering) (d : DataFrame) (intent : Intent) (c m : string) :
  find_date_col d = Return (Some c) ->
  truthy c = true ->
  metric_col d (get_list (metrics intent)) = Some m ->
  trend pd d intent
  = obind (groupby_sum pd d c m) (fun grouped => sort_values pd grouped c true).
Proof.
  intros Hc Ht Hm. unfold trend. rewrite Hc. cbn [obind].
  destruct (get_list (metrics intent)) as [| m0 ms] eqn:Em; [discriminate |].
  rewrite Hm. unfold unresolved. rewrite Ht. reflexivity.
Qed.

Lemma find_decomposed {A} (p : A -> bool) (before after : list A) (x : A) :
  p x = true -> (forall y, In y before -> p y = false) ->
  find p (before ++ x :: after) = Some x.
Proof.
  intros Hx. induction before as [| y t IH]; simpl; intros Hb.
  - now rewrite Hx.
  - rewrite (Hb y) by now left. apply IH. intros z Hz. apply Hb. now right.
Qed.

(** The column the loop stops at is the first one that passes its test. *)
Lemma scan_date_col_found (d : DataFrame) (cols : list string) (c : string) :
  scan_date_col d cols = Return (Some c) ->
  let dated := fun col => dtype_eqb (dtype_of col (schema d)) datetime64
                          || contains "date" (lower col) in
  exists before after,
    cols = before ++ c :: after
    /\ dated c = true
    /\ forall col, In col before -> dated col = false.
Proof.
  intros H dated. induction cols as [| col rest IH]; simpl in H; [discriminate |].
  destruct (unique_label col d); [| discriminate].
  destruct (dtype_eqb (dtype_of col (schema d)) datetime64 || contains "date" (lower col))
    eqn:E.
  - injection H as <-. exists [], rest. repeat split; [exact E | intros ? []].
  - destruct (IH H) as (b & a & -> & Hc & Hb).
    exists (col :: b), a. repeat split; [exact Hc |].
    intros z [<- | Hz]; [exact E | now apply Hb].
Qed.

(** The loop finds nothing when no column passes its test, if every label
    is the only one of its name. *)
Lemma scan_date_col_none (d : DataFrame) (cols : list string) :
  (forall col, In col cols -> unique_label col d = true) ->
  (forall col, In col cols ->
     dtype_eqb (dtype_of col (schema d)) datetime64 || contains "date" (lower col) = false) ->
  scan_date_col d cols = Return None.
Proof.
  induction cols as [| col rest IH]; simpl; intros Hu Hd; [reflexivity |].
  rewrite (Hu col) by now left. rewrite (Hd col) by now left.
  apply IH; intros z Hz; [apply Hu | apply Hd]; now right.
Qed.

Lemma datetime64_is_datetime (t : dtype) :
  dtype_eqb t datetime64 = true -> is_datetime t = true.
Proof. destruct t; simpl; congruence. Qed.

(** C7, as the code has it: a trend intent is grouped by the first column,
    in column order, whose type is [datetime64[ns]] or whose lower-cased
    label contains "date"; neither test is preferred over the other, and a
    column of another datetime type passes by its label only.  The column
    is the one the specification asks for when it has the type
    [datetime64[ns]] and no earlier column has a datetime type.  The
    strategy returns what pandas makes of grouping by that column, summing
    the first metric and sorting by the column in ascending order.  On a
    dataset in which that column and the first metric are two columns,
    each the only one of its label, and the date column holds values of
    one kind, and for sums pandas returns (as it does for a metric column
    that holds numbers), the result has the two columns, one row per
    distinct value of the date column that is present, each row holding
    the sum of the metric over its group, and the rows are in ascending
    order of the date column. *)
Theorem trend_strategy {Conn} (pd : Rendering) (intent : Intent) (c m : string)
    (self : DataExtractionAgent Conn) :
  resolved_type intent = Some "trend" ->
  find_date_col (df self) = Return (Some c) ->
  truthy c = true ->
  metric_col (df self) (get_list (metrics intent)) = Some m ->
  let d := df self in
  let t := dtype_of m (schema d) in
  let dated := fun col => dtype_eqb (dtype_of col (schema d)) datetime64
                          || contains "date" (lower col) in
  (exists before after,
      columns d = before ++ c :: after
      /\ dated c = true
      /\ (forall col, In col before -> dated col = false)
      /\ (dtype_eqb (dtype_of c (schema d)) datetime64 = true ->
          (forall col, In col before -> is_datetime (dtype_of col (schema d)) = false) ->
          spec_date_col d = Some c))
  /\ (exists rest, get_list (metrics intent) = m :: rest /\ has_column m d = true)
  /\ extract_by_intent pd intent self
     = (obind (groupby_sum pd d c m) (fun grouped => sort_values pd grouped c true), self)
  /\ (c <> m ->
      groupable d c m = true ->
      forall sums,
        group_aggregates (agg_sum pd t) d c m = Return sums ->
        exists result,
          extract_by_intent pd intent self = (Return result, self)
          /\ columns result = [c; m]
          /\ rows result = group_rows d c sums
          /\ Sorted (fun r1 r2 => cell_leb (get result c r1) (get result c r2) = true)
                    (rows result)
          /\ len result = List.length (distinct cell_same (present (series d c)))
          /\ (forall r, In r (rows result) ->
                In (get result c r) (group_keys d c)
                /\ agg_sum pd t (group_values d c m (get result c r))
                   = Return (get result m r)))
  /\ (all_numeric (series d m) = true ->
      exists sums, group_aggregates (agg_sum pd t) d c m = Return sums).
Proof.
  intros Ht Hc Htr Hm d t dated.
  assert (Hrun : extract_by_intent pd intent self
                 = (obind (groupby_sum pd d c m)
                          (fun grouped => sort_values pd grouped c true), self)).
  { rewrite extract_by_intent_run. f_equal.
    rewrite extraction_trend by assumption.
    now apply trend_resolved. }
  split; [| split; [| split; [exact Hrun | split]]].
  - destruct (scan_date_col_found d (columns d) c Hc) as (b & a & Hcols & Hp & Hb).
    exists b, a. split; [exact Hcols |]. split; [exact Hp |]. split; [exact Hb |].
    intros Hty Hnone. unfold spec_date_col. fold d. rewrite Hcols.
    rewrite find_decomposed; [reflexivity | | exact Hnone].
    now apply datetime64_is_datetime.
  - apply metric_col_first in Hm. destruct Hm as (rest & Hms & Hcol & _).
    exists rest. auto.
  - intros Hne Hg sums Hs.
    pose proof (omap_length _ _ _ Hs) as Hlen.
    set (R := mkDataFrame [(c, dtype_of c (schema d)); (m, t)] (group_rows d c sums)).
    assert (Hkeys : series R c = group_keys d c) by now apply grouped_keys.
    assert (Hsortable : sortable R c = true).
    { unfold sortable. rewrite Hkeys. unfold R.
      rewrite (proj1 (grouped_labels c m (dtype_of c (schema d)) t
                        (group_rows d c sums) Hne)).
      cbn [andb]. unfold groupable in Hg.
      apply andb_true_iff in Hg. destruct Hg as [_ Hu].
      apply (uniform_part (series d c)); [| exact Hu].
      intros k Hk. now apply group_keys_in in Hk. }
    assert (Hpresent : forall r, In r (rows R) -> is_nan (get R c r) = false).
    { intros r Hr. apply (group_keys_in d c). rewrite <- Hkeys. now apply in_map. }
    assert (Hord : Sorted (fun r1 r2 => cell_leb (get R c r1) (get R c r2) = true) (rows R)).
    { apply (sorted_map_keys cell_leb (get R c)).
      change (map (get R c) (rows R)) with (series R c).
      rewrite Hkeys. apply group_keys_sorted. }
    assert (Hrows : sort_rows pd R c true = rows R).
    { apply (sort_rows_in_order pd R c Hpresent).
      rewrite Hkeys. apply group_keys_strict. }
    exists (mkDataFrame (schema R) (sort_rows pd R c true)).
    split; [| split; [| split; [| split; [| split]]]].
    + rewrite Hrun. f_equal. unfold groupby_sum. fold t.
      rewrite (groupby_agg_rows pd d c m "sum" _ t sums Hg Hne Hs). cbn [obind].
      now apply sort_values_sortable.
    + reflexivity.
    + cbn [rows]. exact Hrows.
    + cbn [rows]. rewrite Hrows. exact Hord.
    + unfold len. cbn [rows]. rewrite Hrows. now apply group_rows_length.
    + intros r Hr. cbn [rows] in Hr. rewrite Hrows in Hr.
      exact (group_rows_hold (agg_sum pd t) d c m _ _ (group_rows d c sums) sums r
               Hne Hs Hr).
  - intros Hnum. destruct (numeric_sums pd d c m t Hnum) as (sums & Hs & _).
    eauto.
Qed.

Lemma trend_strategy_witness :
  let self := new_extraction_agent tt sales in
  exists result,
    extract_by_intent plain sales_trend self = (Return result, self)
    /\ rows result
       = [ [Timestamp 1; int 260]; [Timestamp 2; int 40]; [Timestamp 3; int 100] ]
    /\ spec_date_col sales = Some "Date".
Proof.
  intros self.
  assert (H1 : resolved_type sales_trend = Some "trend") by reflexivity.
  assert (H2 : find_date_col (df self) = Return (Some "Date")) by (vm_compute; reflexivity).
  assert (H3 : truthy "Date" = true) by reflexivity.
  assert (H4 : metric_col (df self) (get_list (metrics sales_trend)) = Some "Sales")
    by (vm_compute; reflexivity).
  destruct (trend_strategy plain sales_trend "Date" "Sales" self H1 H2 H3 H4)
    as (_ & _ & _ & Hshape & Hnum).
  destruct Hnum as (sums & Hs); [vm_compute; reflexivity |].
  destruct (Hshape ltac:(discriminate) ltac:(vm_compute; reflexivity) sums Hs)
    as (result & H & _ & Hrows & _).
  exists result. split; [exact H |]. split.
  - rewrite Hrows. vm_compute in Hs. injection Hs as <-. vm_compute. reflexivity.
  - vm_compute. reflexivity.
Defined.

(** C7, as it is worded, fails in two ways.  On a dataset whose first
    column has "date" in its label and whose second column is the one
    typed as a datetime, the specification prefers [when] and the code
    groups by [update_note].  On a dataset whose datetime column carries a
    time zone and is not named after a date, the specification picks that
    column and the code finds none, and returns the first rows. *)
Lemma trend_prefers_type_counterexample :
  (spec_date_col notes = Some "when"
   /\ find_date_col notes = Return (Some "update_note")
   /\ fst (extract_by_intent plain sales_trend (new_extraction_agent tt notes))
      = Return (mkDataFrame [("update_note", object); ("Sales", int64)]
                  [ [Str "a"; int 7]; [Str "b"; int 6] ]))
  /\ (spec_date_col zoned = Some "when"
      /\ find_date_col zoned = Return None
      /\ fst (extract_by_intent plain sales_trend (new_extraction_agent tt zoned))
         = Return zoned).
Proof. vm_compute. repeat split. Qed.

(* ================================================================== *)
(** * The aggregation strategy                                         *)
(* ================================================================== *)

(** A method name that the groupby object does not have makes the strategy
    raise as soon as the entity column and the metric resolve: the default
    of the [getattr] is a text, and the text is called. *)
Lemma aggregate_unknown_method (pd : Rendering) (d : DataFrame) (intent : Intent)
    (e m name : string) :
  find_entity_col pd d (get_list (entities intent)) = Some e ->
  truthy e = true ->
  metric_col d (get_list (metrics intent)) = Some m ->
  dict_get (aggregation intent) (Some "sum") = Some name ->
  groupby_attr pd d e m name = None ->
  aggregate pd d intent = Raise (TypeError "'str' object is not callable").
Proof.
  intros He Ht Hm Hname Hattr. unfold aggregate.
  destruct (get_list (entities intent)) as [| e0 es] eqn:Ee.
  { rewrite find_entity_col_nil in He. discriminate. }
  destruct (get_list (metrics intent)) as [| m0 ms] eqn:Em; [discriminate |].
  rewrite He, Hm, Hname, Hattr. unfold unresolved. rewrite Ht. reflexivity.
Qed.

(** The groupby object of pandas has no [avg]. *)
Lemma groupby_attr_avg (pd : Rendering) (d : DataFrame) (e m : string) :
  groupby_more pd "avg" = None -> groupby_attr pd d e m "avg" = None.
Proof. intros H. unfold groupby_attr. cbn. now rewrite H. Qed.

(** With a method the groupby object has, the strategy aggregates, sorts
    when [sort_by] names a column of the result, and cuts at [limit]. *)
Lemma aggregate_known_method (pd : Rendering) (d : DataFrame) (intent : Intent)
    (e m name : string) (called : outcome DataFrame) :
  find_entity_col pd d (get_list (entities intent)) = Some e ->
  truthy e = true ->
  metric_col d (get_list (metrics intent)) = Some m ->
  dict_get (aggregation intent) (Some "sum") = Some name ->
  groupby_attr pd d e m name = Some called ->
  aggregate pd d intent
  = obind called (fun result =>
      obind (match dict_get (sort_by intent) None with
             | Some s => if truthy s && has_column s result
                         then sort_values pd result s false else Return result
             | None => Return result
             end)
            (fun result => Return (head (dict_get (limit intent) (Some 100%Z)) result))).
Proof.
  intros He Ht Hm Hname Hattr. unfold aggregate.
  destruct (get_list (entities intent)) as [| e0 es] eqn:Ee.
  { rewrite find_entity_col_nil in He. discriminate. }
  destruct (get_list (metrics intent)) as [| m0 ms] eqn:Em; [discriminate |].
  rewrite He, Hm, Hname, Hattr. unfold unresolved. rewrite Ht. reflexivity.
Qed.

Example aggregation_max_by_region :
  aggregate plain sales
    (with_aggregation "max"
       (with_metrics ["Sales"] (with_entities ["Region"] (intent_of "aggregation"))))
  = Return (mkDataFrame [("Region", object); ("Sales", int64)]
              [ [Str "North"; int 100]; [Str "South"; int 250] ]).
Proof. vm_compute. reflexivity. Qed.

(** C3, at the failing input: the aggregation [avg] over [Sales] by
    [Region], on a dataset that has both columns, raises instead of
    returning the averages. *)
Theorem aggregation_avg_raises :
  extract_by_intent plain average_by_region (new_extraction_agent tt sales)
  = (Raise (TypeError "'str' object is not callable"), new_extraction_agent tt sales).
Proof.
  rewrite extract_by_intent_run.
  change (df (new_extraction_agent tt sales)) with sales.
  rewrite extraction_aggregation by reflexivity.
  rewrite (aggregate_unknown_method plain sales average_by_region "Region" "Sales" "avg")
    by reflexivity.
  reflexivity.
Qed.

(* ================================================================== *)
(** * The orchestrator                                                 *)
(* ================================================================== *)

Ltac fields :=
  cbn [fst snd app negb st_question st_query_intent st_sql_query st_extracted_data
       st_validation_result st_final_answer st_messages st_error].

Ltac four_messages := fields; do 4 eexists; reflexivity.

(** A run of [process_query], whatever the agents do: it returns, each of
    the four nodes has left one message, and the response is put together
    from what the stages met. *)
Lemma process_query_run {X} rq gs (ex : string -> M X DataFrame) vr sy pd question x :
  exists m1 m2 m3 m4,
    process_query rq gs ex vr sy pd question x
    = (Return (mkResponse question
                 (answered rq gs ex vr sy question x)
                 (extracted rq gs ex question x)
                 (Some (validated rq gs ex vr question x))
                 (resolved_sql rq gs question)
                 [m1; m2; m3; m4]
                 (last_error rq gs ex vr sy question x)),
       snd (extraction_outcome rq gs ex question x)).
Proof.
  unfold answered, last_error, synthesis_outcome, validated, validation_outcome,
    extracted, extraction_outcome, resolved_sql, resolution_outcome.
  unfold process_query, workflow_invoke, step, _query_resolution_node,
    _data_extraction_node, _validation_node, _synthesis_node,
    try_except, bind, lift, ret, raise, initial_state, apply_update, obind.
  fields.
  assert (Hlen0 : (0 <? len empty_frame)%nat = false) by reflexivity.
  destruct (rq question) as [intent | e1]; [destruct (gs question) as [sql | e1] |]; fields.
  1: destruct (truthy sql); fields; [destruct (ex sql x) as [[d | e2] x']; fields |].
  1: destruct (vr question sql d) as [v | e3]; fields;
     (destruct (0 <? len d)%nat; [destruct (sy question d _) as [a | e4] |];
      four_messages).
  1: destruct (vr question sql empty_frame) as [v | e3]; fields; rewrite ?Hlen0;
     four_messages.
  1: destruct (vr question sql empty_frame) as [v | e3]; fields; rewrite ?Hlen0;
     four_messages.
  all: change (truthy EmptyString) with false; fields;
    destruct (vr question EmptyString empty_frame) as [v | e3]; fields; rewrite ?Hlen0;
    four_messages.
Qed.

Lemma answered_nonempty {X} rq gs (ex : string -> M X DataFrame) vr sy question x :
  (forall d v, sy question d v <> Return EmptyString) ->
  answered rq gs ex vr sy question x <> EmptyString.
Proof.
  intros Hsy. unfold answered, synthesis_outcome.
  destruct (0 <? len (extracted rq gs ex question x))%nat.
  - destruct (sy question _ _) as [a | e] eqn:E.
    + intros ->. now apply Hsy in E.
    + discriminate.
  - discriminate.
Qed.

Lemma omap_returns {A B} (f : A -> outcome B) (l : list A) :
  (forall x, In x l -> exists y, f x = Return y) -> exists ys, omap f l = Return ys.
Proof.
  induction l as [| x t IH]; simpl; intros H; [eauto |].
  destruct (H x) as (y & ->); [now left |]. cbn [obind].
  destruct IH as (ys & ->); [intros z Hz; apply H; now right |].
  cbn [obind]. eauto.
Qed.

Lemma flat_map_nil {A B} (f : A -> list B) (l : list A) (x : A) :
  flat_map f l = [] -> In x l -> f x = [].
Proof.
  induction l as [| y t IH]; simpl; intros H Hin; [contradiction |].
  apply app_eq_nil in H. destruct H as [Hy Ht].
  destruct Hin as [<- | Hin]; auto.
Qed.

Lemma index_of_bound (c : string) (cols : list string) (i : nat) :
  index_of c cols = Some i -> (i < List.length cols)%nat.
Proof.
  revert i. induction cols as [| x t IH]; simpl; intros i H; [discriminate |].
  destruct (String.eqb c x).
  - injection H as <-. lia.
  - destruct (index_of c t) as [j |]; [| discriminate].
    injection H as <-. specialize (IH j eq_refl). lia.
Qed.

(** A column read by its label holds cells of one of the columns read by
    position, or none at all. *)
Lemma series_nested (d : DataFrame) (c : string) :
  unhashable d = None ->
  flat_map (fun v => match v with Nested n => [n] | _ => [] end) (series d c) = [].
Proof.
  intros H. unfold unhashable in H.
  destruct (flat_map _ (seq 0 (List.length (columns d)))) as [| n l] eqn:E;
    [| discriminate].
  unfold series, get. destruct (index_of c (columns d)) as [i |] eqn:Ei.
  - apply index_of_bound in Ei.
    apply (flat_map_nil _ _ i E). apply in_seq. lia.
  - induction (rows d) as [| r t IH]; simpl; auto.
Qed.

Lemma numeric_columns_in (d : DataFrame) (c : string) :
  In c (numeric_columns d) -> In c (columns d).
Proof.
  unfold numeric_columns, columns. intros H.
  apply in_map_iff in H. destruct H as (cd & <- & Hcd).
  apply in_map. apply filter_In in Hcd. tauto.
Qed.

Lemma object_columns_in (d : DataFrame) (c : string) :
  In c (object_columns d) -> In c (columns d).
Proof.
  unfold object_columns, columns. intros H.
  apply in_map_iff in H. destruct H as (cd & <- & Hcd).
  apply in_map. apply filter_In in Hcd. tauto.
Qed.

Section PreparationFacts.

Variable pd : Rendering.

(** The checks return exactly on a frame whose cells can be hashed. *)
Lemma basic_checks_hashable (d : DataFrame) :
  match unhashable d with
  | None => exists p, basic_checks pd d = Return p
  | Some n => basic_checks pd d = Raise (TypeError ("unhashable type: '" ++ n ++ "'"))
  end.
Proof.
  unfold basic_checks, count_distinct_rows.
  destruct (len d =? 0)%nat; destruct (0 <? sum_nat _)%nat;
    destruct (unhashable d); cbn [obind]; try reflexivity;
    destruct (negb _); eauto.
Qed.

Lemma create_summary_regular (d : DataFrame) :
  regular d = true -> exists s, _create_summary pd d = Return s.
Proof.
  intros H. unfold regular, hashable, distinct_labels in H.
  apply andb_true_iff in H. destruct H as [Hl Hh].
  destruct (unhashable d) eqn:Eh; [discriminate |].
  rewrite forallb_forall in Hl.
  unfold _create_summary. destruct (len d =? 0)%nat; [eauto |].
  destruct (omap_returns (numeric_line pd d) (numeric_columns d)) as (l1 & E1).
  { intros c Hc. unfold numeric_line.
    rewrite (Hl c) by now apply numeric_columns_in. eauto. }
  destruct (omap_returns (categorical_line pd d) (firstn 3 (object_columns d)))
    as (l2 & E2).
  { intros c Hc. apply in_firstn in Hc. unfold categorical_line, nunique.
    rewrite (Hl c) by now apply object_columns_in.
    rewrite (series_nested d c Eh). cbn [obind]. eauto. }
  rewrite E1, E2.
  destruct (0 <? List.length (numeric_columns d))%nat;
    destruct (0 <? List.length (object_columns d))%nat; cbn [obind]; eauto.
Qed.

Lemma validation_preparation_regular (d : DataFrame) :
  regular d = true -> exists s, validation_preparation pd d = Return s.
Proof.
  intros H. unfold validation_preparation.
  pose proof (basic_checks_hashable d) as Hb.
  destruct (create_summary_regular d H) as (s & Hs).
  unfold regular, hashable in H. apply andb_true_iff in H. destruct H as [_ H].
  destruct (unhashable d); [discriminate |].
  destruct Hb as (p & ->). cbn [obind]. eauto.
Qed.

(** [validate_result] raises what its preparation raises, and nothing
    else: the chat model has no say in it. *)
Lemma validate_result_raises (llm : ChatModel) (question query : string)
    (d : DataFrame) (e : exn) :
  validate_result llm pd question query d = Raise e
  <-> validation_preparation pd d = Raise e.
Proof.
  unfold validate_result, validation_preparation.
  destruct (basic_checks pd d) as [[iss sug] | e1]; cbn [obind];
    [| split; intros [= <-]; reflexivity].
  destruct (_create_summary pd d) as [s | e2]; cbn [obind];
    [| split; intros [= <-]; reflexivity].
  destruct (ask_validation llm question query s _); split; discriminate.
Qed.

Lemma fallback_summary_nonempty (question : string) (data : DataFrame)
    (validation : option Validation) (a : string) :
  _fallback_summary pd question data validation = Return a -> a <> EmptyString.
Proof.
  unfold _fallback_summary.
  destruct (0 <? len data)%nat.
  - destruct (0 <? List.length (numeric_columns data))%nat.
    + destruct (omap _ (numeric_columns data)) as [lines | e]; cbn [obind];
        [| discriminate].
      intros [= <-]. simpl. discriminate.
    + cbn [obind]. intros [= <-]. simpl. discriminate.
  - cbn [obind]. intros [= <-]. simpl. discriminate.
Qed.

Lemma fallback_summary_distinct (question : string) (data : DataFrame)
    (validation : option Validation) :
  distinct_labels data = true ->
  exists a, _fallback_summary pd question data validation = Return a.
Proof.
  intros Hl. unfold distinct_labels in Hl. rewrite forallb_forall in Hl.
  unfold _fallback_summary.
  destruct (omap_returns (statistics_line pd data) (numeric_columns data)) as (l1 & E1).
  { intros c Hc. unfold statistics_line.
    rewrite (Hl c) by now apply numeric_columns_in. eauto. }
  rewrite E1.
  destruct (0 <? len data)%nat;
    [destruct (0 <? List.length (numeric_columns data))%nat |]; cbn [obind]; eauto.
Qed.

(** [generate_summary] returns the reply of the chat model or the
    template; it raises what the data summary raises before the call, or
    what the template raises after a failed call. *)
Lemma generate_summary_cases (llm : ChatModel) (question : string) (data : DataFrame)
    (validation : option Validation) :
  match generate_summary llm pd question data validation with
  | Return a =>
      exists s,
        _create_data_summary pd data = Return s
        /\ (ask_summary llm question s (_format_validation pd validation) = Return a
            \/ ((exists e, ask_summary llm question s (_format_validation pd validation)
                           = Raise e)
                /\ _fallback_summary pd question data validation = Return a))
  | Raise e =>
      _create_data_summary pd data = Raise e
      \/ (exists s e',
             _create_data_summary pd data = Return s
             /\ ask_summary llm question s (_format_validation pd validation) = Raise e'
             /\ _fallback_summary pd question data validation = Raise e)
  end.
Proof.
  unfold generate_summary.
  destruct (_create_data_summary pd data) as [s | e]; cbn [obind]; [| now left].
  destruct (ask_summary llm question s _) as [a | e'] eqn:E; cbn [ocatch].
  - exists s. auto.
  - destruct (_fallback_summary pd question data validation) as [a | e] eqn:F.
    + exists s. split; [reflexivity |]. right. eauto.
    + right. exists s, e'. auto.
Qed.

Lemma generate_summary_nonempty (llm : ChatModel) (question : string) (data : DataFrame)
    (validation : option Validation) :
  (forall s v, ask_summary llm question s v <> Return EmptyString) ->
  generate_summary llm pd question data validation <> Return EmptyString.
Proof.
  intros Hllm H.
  pose proof (generate_summary_cases llm question data validation) as Hc.
  rewrite H in Hc. destruct Hc as (s & _ & [Ha | [_ Hf]]).
  - now apply Hllm in Ha.
  - now apply fallback_summary_nonempty in Hf.
Qed.

End PreparationFacts.

(** The two agents that resolve the question keep the failures of the chat
    model to themselves. *)
Lemma resolve_query_returns llm schema_description query :
  exists intent, resolve_query llm schema_description query = Return intent.
Proof.
  unfold resolve_query. destruct (ask_intent llm query schema_description); simpl; eauto.
Qed.

Lemma generate_sql_returns llm schema_description query table :
  exists sql, generate_sql llm schema_description query table = Return sql.
Proof.
  unfold generate_sql.
  destruct (ask_sql llm query schema_description table); simpl; eauto.
Qed.

(** C1, as the code has it.  For every question and whatever the agents
    do, [process_query] returns a response after all four stages have run
    and left their message.  A stage whose agent raises hands the next
    stage a substitute (the empty relation, the synthetic validation
    result, the apology as the answer), and [error] holds the message of
    the last stage that raised and is empty when none did.  The answer is
    not empty as long as the synthesizer does not return empty text.  In
    the orchestrator as it is wired, a failure of the chat model never
    reaches [error] by itself: the resolution never raises; the validation
    raises exactly what the checks and the summary it makes before calling
    the chat model raise; the synthesis raises only what its data summary
    raises before the call or what its template raises after a failed
    call.  So on an extracted relation of scalars under distinct labels
    whose data summary is made, [error] is populated exactly when the
    extraction raised; and the answer is not empty as long as the chat
    model does not reply to the summary prompt with empty text. *)
Theorem process_query_fail_forward :
  (forall X rq gs (ex : string -> M X DataFrame) vr sy pd question x,
      exists resp,
        process_query rq gs ex vr sy pd question x
        = (Return resp, snd (extraction_outcome rq gs ex question x))
        /\ r_question resp = question
        /\ List.length (r_messages resp) = 4
        /\ r_sql_query resp = resolved_sql rq gs question
        /\ r_data resp = extracted rq gs ex question x
        /\ r_validation resp = Some (validated rq gs ex vr question x)
        /\ r_answer resp = answered rq gs ex vr sy question x
        /\ r_error resp = last_error rq gs ex vr sy question x
        /\ (forall e, fst (extraction_outcome rq gs ex question x) = Raise e ->
              r_data resp = empty_frame /\ r_answer resp = no_data_answer)
        /\ (forall e, validation_outcome rq gs ex vr question x = Raise e ->
              r_validation resp = Some (failed_validation e))
        /\ (forall e, synthesis_outcome rq gs ex vr sy question x = Raise e ->
              r_answer resp = apology e
              /\ r_error resp = ("Synthesis failed: " ++ str_exn e)%string)
        /\ ((forall d v, sy question d v <> Return EmptyString) ->
            r_answer resp <> EmptyString))
  /\ (forall Conn (db_execute : string -> M Conn DataFrame) llm pd schema_description
             question self,
         let rq := resolve_query llm schema_description in
         let gs := fun q => generate_sql llm schema_description q "sales_data" in
         let ex := execute_sql db_execute in
         let vr := validate_result llm pd in
         let sy := generate_summary llm pd in
         let d := extracted rq gs ex question self in
         let v := Some (validated rq gs ex vr question self) in
         exists resp,
           orchestrator_process_query db_execute llm pd schema_description question self
           = (Return resp, snd (extraction_outcome rq gs ex question self))
           /\ List.length (r_messages resp) = 4
           /\ r_error resp = last_error rq gs ex vr sy question self
           /\ (exists intent sql, resolution_outcome rq gs question = Return (intent, sql))
           /\ (forall e, validation_outcome rq gs ex vr question self = Raise e
                         <-> validation_preparation pd d = Raise e)
           /\ (forall e, synthesis_outcome rq gs ex vr sy question self = Raise e ->
                 (0 < len d)%nat
                 /\ (_create_data_summary pd d = Raise e
                     \/ (exists s e',
                            _create_data_summary pd d = Return s
                            /\ ask_summary llm question s (_format_validation pd v)
                               = Raise e'
                            /\ _fallback_summary pd question d v = Raise e)))
           /\ (regular d = true ->
               (exists s, _create_data_summary pd d = Return s) ->
               r_error resp
               = match fst (extraction_outcome rq gs ex question self) with
                 | Raise e => ("Data extraction failed: " ++ str_exn e)%string
                 | Return _ => EmptyString
                 end)
           /\ ((forall s t, ask_summary llm question s t <> Return EmptyString) ->
               r_answer resp <> EmptyString)).
Proof.
  split.
  - intros X rq gs ex vr sy pd question x.
    destruct (process_query_run rq gs ex vr sy pd question x)
      as (m1 & m2 & m3 & m4 & Hrun).
    eexists. split; [exact Hrun |]. cbn [r_question r_messages r_sql_query r_data
      r_validation r_answer r_error].
    do 7 (split; [reflexivity |]).
    split; [| split; [| split]].
    + intros e He. split.
      * unfold extracted. now rewrite He.
      * unfold answered, synthesis_outcome, extracted. now rewrite He.
    + intros e He. unfold validated. now rewrite He.
    + intros e He. split.
      * unfold answered. now rewrite He.
      * unfold last_error. now rewrite He.
    + now apply answered_nonempty.
  - intros Conn db_execute llm pd schema_description question self rq gs ex vr sy d v.
    unfold orchestrator_process_query.
    destruct (process_query_run rq gs ex vr sy pd question self)
      as (m1 & m2 & m3 & m4 & Hrun).
    assert (Hres : exists intent sql,
               resolution_outcome rq gs question = Return (intent, sql)).
    { unfold resolution_outcome, rq, gs.
      destruct (resolve_query_returns llm schema_description question) as (i & ->).
      destruct (generate_sql_returns llm schema_description question "sales_data")
        as (s & ->).
      cbn [obind]. eauto. }
    assert (Hval : forall e, validation_outcome rq gs ex vr question self = Raise e
                             <-> validation_preparation pd d = Raise e).
    { intros e. unfold validation_outcome, vr. apply validate_result_raises. }
    assert (Hsyn : forall e, synthesis_outcome rq gs ex vr sy question self = Raise e ->
               (0 < len d)%nat
               /\ (_create_data_summary pd d = Raise e
                   \/ (exists s e',
                          _create_data_summary pd d = Return s
                          /\ ask_summary llm question s (_format_validation pd v)
                             = Raise e'
                          /\ _fallback_summary pd question d v = Raise e))).
    { intros e. unfold synthesis_outcome. fold d. fold v.
      destruct (0 <? len d)%nat eqn:El; [| discriminate].
      apply Nat.ltb_lt in El. intros He. split; [exact El |].
      pose proof (generate_summary_cases pd llm question d v) as Hc.
      unfold sy in He. rewrite He in Hc. exact Hc. }
    eexists. split; [exact Hrun |]. cbn [r_messages r_answer r_error].
    split; [reflexivity |]. split; [reflexivity |].
    split; [exact Hres |]. split; [exact Hval |]. split; [exact Hsyn |]. split.
    + intros Hreg (s & Hs). unfold last_error.
      destruct (synthesis_outcome rq gs ex vr sy question self) as [a | e] eqn:Es.
      * destruct (validation_outcome rq gs ex vr question self) as [w | e] eqn:Ev.
        -- destruct (fst (extraction_outcome rq gs ex question self)); [| reflexivity].
           destruct Hres as (i & q & ->). reflexivity.
        -- pose proof (proj1 (Hval e) eq_refl) as Hraise.
           destruct (validation_preparation_regular pd d Hreg) as (p & Hp). congruence.
      * destruct (Hsyn e eq_refl) as (_ & [Hd | (s' & e' & _ & _ & Hf)]);
          [congruence |].
        unfold regular in Hreg. apply andb_true_iff in Hreg. destruct Hreg as [Hl _].
        destruct (fallback_summary_distinct pd question d v Hl) as (a & Ha). congruence.
    + intros Hllm. apply answered_nonempty. intros d' v'. unfold sy.
      now apply generate_summary_nonempty.
Qed.

(** With the chat model down and the table at hand, the run still ends with
    an answer and an empty [error]. *)
Lemma process_query_fail_forward_witness :
  exists resp x',
    orchestrator_process_query one_table offline plain "Region, Sales"
      "What sold best?" (new_extraction_agent tt sales)
    = (Return resp, x')
    /\ List.length (r_messages resp) = 4
    /\ r_error resp = EmptyString
    /\ r_answer resp <> EmptyString.
Proof.
  destruct process_query_fail_forward as [_ H].
  destruct (H unit one_table offline plain "Region, Sales" "What sold best?"
              (new_extraction_agent tt sales))
    as (resp & Hrun & Hlen & _ & _ & _ & _ & Herr & Hans).
  exists resp. eexists. split; [exact Hrun |]. split; [exact Hlen |]. split.
  - rewrite Herr.
    + vm_compute. reflexivity.
    + vm_compute. reflexivity.
    + eexists. vm_compute. reflexivity.
  - apply Hans. intros s t. vm_compute. discriminate.
Defined.

(** C1, as it is worded, fails twice.  When every call succeeds and the
    chat model replies to the summary prompt with empty text, the answer is
    the empty string.  When the chat model fails on the validation prompt
    and on nothing else, [error] stays empty and what is passed forward is
    the validator's own estimate (valid, confidence 0.7), not the synthetic
    validation result. *)
Lemma process_query_answer_counterexample :
  (exists resp,
      fst (orchestrator_process_query one_table terse plain "Region, Sales"
             "What sold best?" (new_extraction_agent tt sales)) = Return resp
      /\ r_data resp = sales
      /\ r_error resp = EmptyString
      /\ r_answer resp = EmptyString)
  /\ (exists resp,
         fst (orchestrator_process_query one_table no_judge plain "Region, Sales"
                "What sold best?" (new_extraction_agent tt sales)) = Return resp
         /\ r_error resp = EmptyString
         /\ r_validation resp
            = Some (mkValidation true (7 # 10) (7 # 10) [] (Some []) (Some 4) (Some 4))).
Proof.
  split; eexists; (split; [vm_compute; reflexivity |]); repeat split.
Qed.

(** A stage other than the extraction can fail the run as it is wired:
    on a relation with a list in a cell the duplicate check of the
    validator raises before the chat model is asked, the synthetic
    validation result is passed on, and [error] names the validation. *)
Example process_query_validation_raises :
  exists resp,
    fst (orchestrator_process_query list_table
           (canned basic_intent "SELECT tags FROM sales_data" "is_valid: true" "ok")
           plain "tags" "Which tags are there?" (new_extraction_agent tt sales))
    = Return resp
    /\ r_data resp = with_list
    /\ r_validation resp
       = Some (failed_validation (TypeError "unhashable type: 'list'"))
    /\ r_answer resp = "ok"
    /\ r_error resp = "Validation failed: unhashable type: 'list'".
Proof. eexists. split; [vm_compute; reflexivity |]. repeat split. Qed.

(* ================================================================== *)
(** * The dataset of the agent, in the store                           *)
(* ================================================================== *)

Lemma read_fresh (h : Refs.Heap) (d : DataFrame) :
  Refs.read (h ++ [d]) (List.length h) = d.
Proof. unfold Refs.read. apply nth_middle. Qed.

Lemma read_old (h fresh : Refs.Heap) (r : Refs.ref) :
  r < List.length h -> Refs.read (h ++ fresh) r = Refs.read h r.
Proof. intros H. unfold Refs.read. now apply app_nth1. Qed.

Lemma bind_assoc {S A B C} (m : M S A) (f : A -> M S B) (g : B -> M S C) (s : S) :
  bind (bind m f) g s = bind m (fun x => bind (f x) g) s.
Proof. unfold bind. destruct (m s) as [[x | e] s']; reflexivity. Qed.

Lemma bind_ret_r {S A} (m : M S A) (s : S) : bind m ret s = m s.
Proof. unfold bind, ret. destruct (m s) as [[x | e] s']; reflexivity. Qed.

Section StoreFacts.

Variable Conn : Type.
Variable pd : Rendering.


Lemma run_self_df {A} (k : Refs.ref -> M (Refs.State Conn) A) (h : Refs.Heap) (a : Refs.DataExtractionAgent Conn) :
  bind (Refs.self_df (Conn := Conn)) k (h, a) = k (Refs.df a) (h, a).
Proof. reflexivity. Qed.

Lemma run_deref {A} (r : Refs.ref) (k : DataFrame -> M (Refs.State Conn) A) (h : Refs.Heap)
    (a : Refs.DataExtractionAgent Conn) :
  bind (Refs.deref r) k (h, a) = k (Refs.read h r) (h, a).
Proof. reflexivity. Qed.

Lemma method_run (f : DataFrame -> outcome DataFrame) (r : Refs.ref) (h : Refs.Heap)
    (a : Refs.DataExtractionAgent Conn) :
  Refs.method f r (h, a)
  = match f (Refs.read h r) with
    | Return d' => (Return (List.length h), (h ++ [d'], a))
    | Raise e => (Raise e, (h, a))
    end.
Proof.
  unfold Refs.method, Refs.deref, Refs.new, bind, gets, lift. cbn [fst snd].
  destruct (f (Refs.read h r)); reflexivity.
Qed.

(** A method makes a new frame, or raises and makes none. *)
Lemma allocates_method (f : DataFrame -> outcome DataFrame) (r : Refs.ref)
    (h : Refs.Heap) (a : Refs.DataExtractionAgent Conn) :
  Refs.allocates (Refs.method f r (h, a)) h a (f (Refs.read h r)).
Proof.
  rewrite method_run. destruct (f (Refs.read h r)) as [d' | e].
  - exists [d']. split; [reflexivity |]. cbn [fst].
    rewrite length_app, read_fresh. cbn [List.length]. repeat split; lia.
  - exists []. split; [cbn [snd]; now rewrite app_nil_r | reflexivity].
Qed.

Lemma allocates_new (d : DataFrame) (h : Refs.Heap) (a : Refs.DataExtractionAgent Conn) :
  Refs.allocates (Refs.new d (h, a)) h a (Return d).
Proof.
  exists [d]. split; [reflexivity |]. cbn [fst Refs.new].
  rewrite length_app, read_fresh. cbn [List.length]. repeat split; lia.
Qed.

Lemma allocates_raise (e : exn) (h : Refs.Heap) (a : Refs.DataExtractionAgent Conn) :
  Refs.allocates (raise e (h, a)) h a (Raise e).
Proof. exists []. split; [cbn; now rewrite app_nil_r | reflexivity]. Qed.

(** A step that follows a run: a method called on the frame the run
    returned, or nothing at all. *)
Lemma allocates_step (step : Refs.ref -> M (Refs.State Conn) Refs.ref)
    (g : DataFrame -> outcome DataFrame) (m : M (Refs.State Conn) Refs.ref) (s : Refs.State Conn)
    (h : Refs.Heap) (a : Refs.DataExtractionAgent Conn) (o : outcome DataFrame) :
  (forall h' r,
      step r (h', a) = Refs.method g r (h', a)
      \/ (step r (h', a) = (Return r, (h', a)) /\ g (Refs.read h' r) = Return (Refs.read h' r))) ->
  Refs.allocates (m s) h a o ->
  Refs.allocates (bind m step s) h a (obind o g).
Proof.
  intros Hstep (fresh & Hsnd & Hfst). unfold bind, Refs.Heap in *.
  destruct (m s) as [[r | e] s']; cbn [fst snd] in Hsnd, Hfst; subst s'; cbv beta iota.
  - destruct o as [d | e']; [| contradiction]. destruct Hfst as (Hlo & Hhi & Hd).
    cbn [obind]. destruct (Hstep (h ++ fresh) r) as [-> | [-> Hg]].
    + rewrite method_run, Hd. destruct (g d) as [d' | e].
      * exists (fresh ++ [d']). split; [cbn [snd]; now rewrite app_assoc |].
        cbn [fst]. rewrite app_assoc, read_fresh, !length_app. cbn [List.length].
        repeat split; lia.
      * exists fresh. split; reflexivity.
    + rewrite Hd in Hg. rewrite Hg. exists fresh. split; [reflexivity |].
      cbn [fst]. auto.
  - destruct o as [d | e']; [contradiction |]. subst e'.
    exists fresh. split; reflexivity.
Qed.

Lemma allocates_then (g : DataFrame -> outcome DataFrame) (m : M (Refs.State Conn) Refs.ref)
    (s : Refs.State Conn) (h : Refs.Heap) (a : Refs.DataExtractionAgent Conn) (o : outcome DataFrame) :
  Refs.allocates (m s) h a o ->
  Refs.allocates (bind m (Refs.method g) s) h a (obind o g).
Proof. apply allocates_step. intros h' r. now left. Qed.

Lemma allocates_then_raise (e : exn) (m : M (Refs.State Conn) Refs.ref) (s : Refs.State Conn)
    (h : Refs.Heap) (a : Refs.DataExtractionAgent Conn) (d : DataFrame) :
  Refs.allocates (m s) h a (Return d) ->
  Refs.allocates (bind m (fun _ => raise e) s) h a (Raise e).
Proof.
  intros (fresh & Hsnd & Hfst). unfold bind.
  destruct (m s) as [[r | e'] s']; cbn [fst snd] in Hsnd, Hfst; [| contradiction].
  subst s'. cbv beta iota. exists fresh. split; reflexivity.
Qed.

Lemma allocates_first_rows (h : Refs.Heap) (a : Refs.DataExtractionAgent Conn) :
  Refs.allocates (Refs.first_rows (Conn := Conn) (h, a)) h a
    (Return (head (Some 10%Z) (Refs.read h (Refs.df a)))).
Proof. unfold Refs.first_rows. rewrite run_self_df. apply allocates_method. Qed.

Lemma allocates_filters (fs : list (string * cell)) :
  forall (m : M (Refs.State Conn) Refs.ref) (s : Refs.State Conn) (h : Refs.Heap) (a : Refs.DataExtractionAgent Conn)
         (o : outcome DataFrame),
    Refs.allocates (m s) h a o ->
    Refs.allocates (bind m (Refs.apply_filters pd fs) s) h a
      (obind o (apply_filters pd fs)).
Proof.
  induction fs as [| f rest IH]; intros m s h a o H.
  - cbn [Refs.apply_filters]. rewrite bind_ret_r.
    destruct o; exact H.
  - cbn [Refs.apply_filters apply_filters].
    rewrite <- bind_assoc.
    assert (E : obind o (fun result => obind (apply_filter pd result f)
                                             (apply_filters pd rest))
                = obind (obind o (fun result => apply_filter pd result f))
                        (apply_filters pd rest)) by now destruct o.
    rewrite E. apply IH.
    apply allocates_step; [| exact H].
    intros h' r. unfold Refs.apply_filter. rewrite run_deref.
    destruct (has_column (fst f) (Refs.read h' r)) eqn:Hc.
    + left. unfold Refs.pd_getitem_eq. rewrite !method_run.
      unfold apply_filter. now rewrite Hc.
    + right. split; [reflexivity |]. unfold apply_filter. now rewrite Hc.
Qed.

(** Every strategy only makes new frames, and the frame it returns is the
    one the strategy computes from the dataset of the agent. *)
Lemma extract_summary_allocates (intent : Intent) (h : Refs.Heap) (a : Refs.DataExtractionAgent Conn) :
  Refs.allocates (Refs._extract_summary pd intent (h, a)) h a
    (summary pd (Refs.read h (Refs.df a)) intent).
Proof.
  unfold Refs._extract_summary, summary. rewrite run_self_df, run_deref.
  destruct (get_list (metrics intent)) as [| m0 ms].
  - apply (allocates_then (describe pd) _ _ _ _
             (Return (project (Refs.read h (Refs.df a))
                              (numeric_columns (Refs.read h (Refs.df a)))))).
    apply (allocates_method
             (fun d => Return (project d (numeric_columns (Refs.read h (Refs.df a)))))).
  - unfold bind at 1, lift.
    destruct (omap _ _) as [stats | e]; cbn [obind].
    + apply allocates_new.
    + apply allocates_raise.
Qed.

Lemma extract_comparison_allocates (intent : Intent) (h : Refs.Heap) (a : Refs.DataExtractionAgent Conn) :
  Refs.allocates (Refs._extract_comparison pd intent (h, a)) h a
    (comparison pd (Refs.read h (Refs.df a)) intent).
Proof.
  unfold Refs._extract_comparison, comparison. rewrite run_self_df, run_deref.
  destruct (get_list (entities intent)) as [| e0 es];
    [destruct (get_list (metrics intent)); apply allocates_first_rows |].
  destruct (get_list (metrics intent)) as [| m0 ms]; [apply allocates_first_rows |].
  destruct (unresolved _); [apply allocates_first_rows |].
  destruct (find_entity_col pd _ _) as [e |]; [| apply allocates_first_rows].
  destruct (metric_col _ _) as [m |]; [| apply allocates_first_rows].
  apply (allocates_then (fun d => sort_values pd d m false) _ _ _ _
           (groupby_sum pd (Refs.read h (Refs.df a)) e m)).
  apply (allocates_method (fun d => groupby_sum pd d e m)).
Qed.

Lemma extract_trend_allocates (intent : Intent) (h : Refs.Heap) (a : Refs.DataExtractionAgent Conn) :
  Refs.allocates (Refs._extract_trend pd intent (h, a)) h a
    (trend pd (Refs.read h (Refs.df a)) intent).
Proof.
  unfold Refs._extract_trend, trend. rewrite run_self_df, run_deref.
  unfold bind at 1, lift.
  destruct (find_date_col _) as [date_col | e]; cbn [obind]; [| apply allocates_raise].
  destruct (unresolved date_col || _); [apply allocates_first_rows |].
  destruct date_col as [c |]; [| apply allocates_first_rows].
  destruct (metric_col _ _) as [m |]; [| apply allocates_first_rows].
  apply (allocates_then (fun d => sort_values pd d c true) _ _ _ _
           (groupby_sum pd (Refs.read h (Refs.df a)) c m)).
  apply (allocates_method (fun d => groupby_sum pd d c m)).
Qed.

Lemma extract_filtered_allocates (intent : Intent) (h : Refs.Heap) (a : Refs.DataExtractionAgent Conn) :
  Refs.allocates (Refs._extract_filtered pd intent (h, a)) h a
    (filtered pd (Refs.read h (Refs.df a)) intent).
Proof.
  unfold Refs._extract_filtered, filtered. rewrite run_self_df.
  destruct (dict_get (filters intent) (Some [])) as [fs |].
  - rewrite <- bind_assoc.
    apply (allocates_then
             (fun d => Return (head (dict_get (limit intent) (Some 100%Z)) d)) _ _ _ _
             (apply_filters pd fs (copy (Refs.read h (Refs.df a))))).
    apply (allocates_filters fs (Refs.pd_copy (Refs.df a)) (h, a) h a
             (Return (copy (Refs.read h (Refs.df a))))).
    apply (allocates_method (fun d => Return (copy d))).
  - apply (allocates_then_raise _ _ _ _ _ (copy (Refs.read h (Refs.df a)))).
    apply (allocates_method (fun d => Return (copy d))).
Qed.

Lemma extract_aggregation_allocates (intent : Intent) (h : Refs.Heap) (a : Refs.DataExtractionAgent Conn) :
  Refs.allocates (Refs._extract_aggregation pd intent (h, a)) h a
    (aggregate pd (Refs.read h (Refs.df a)) intent).
Proof.
  unfold Refs._extract_aggregation, aggregate. rewrite run_self_df, run_deref.
  destruct (get_list (entities intent)) as [| e0 es];
    [destruct (get_list (metrics intent)); apply allocates_first_rows |].
  destruct (get_list (metrics intent)) as [| m0 ms]; [apply allocates_first_rows |].
  destruct (unresolved _); [apply allocates_first_rows |].
  destruct (find_entity_col pd _ _) as [e |]; [| apply allocates_first_rows].
  destruct (metric_col _ _) as [m |]; [| apply allocates_first_rows].
  destruct (dict_get (aggregation intent) (Some "sum")) as [name |];
    [| apply allocates_raise].
  destruct (groupby_attr pd _ e m name) as [called |]; [| apply allocates_raise].
  rewrite <- bind_assoc.
  assert (E : forall o : outcome DataFrame,
             obind o (fun result =>
               obind (match dict_get (sort_by intent) None with
                      | Some s => if truthy s && has_column s result
                                  then sort_values pd result s false else Return result
                      | None => Return result
                      end)
                     (fun result => Return (head (dict_get (limit intent) (Some 100%Z))
                                                 result)))
             = obind (obind o (fun result =>
                        match dict_get (sort_by intent) None with
                        | Some s => if truthy s && has_column s result
                                    then sort_values pd result s false else Return result
                        | None => Return result
                        end))
                     (fun result => Return (head (dict_get (limit intent) (Some 100%Z))
                                                 result))) by (intros o; now destruct o).
  rewrite E.
  apply (allocates_then
           (fun d => Return (head (dict_get (limit intent) (Some 100%Z)) d))).
  apply allocates_step.
  - intros h' r. destruct (dict_get (sort_by intent) None) as [s |].
    + rewrite run_deref. destruct (truthy s && has_column s (Refs.read h' r)) eqn:Hs.
      * left. unfold Refs.pd_sort_values. rewrite !method_run. cbv beta.
        now rewrite Hs.
      * right. split; reflexivity.
    + right. split; reflexivity.
  - apply (allocates_method (fun _ => called)).
Qed.

Lemma extract_by_intent_allocates (intent : Intent) (h : Refs.Heap) (a : Refs.DataExtractionAgent Conn) :
  Refs.allocates (Refs.extract_by_intent pd intent (h, a)) h a
    (extraction pd (Refs.read h (Refs.df a)) intent).
Proof.
  unfold Refs.extract_by_intent, extraction.
  destruct (dict_get (query_type intent) (Some "summary")) as [t |];
    [| apply allocates_first_rows].
  destruct (String.eqb t "summary"); [apply extract_summary_allocates |].
  destruct (String.eqb t "comparison"); [apply extract_comparison_allocates |].
  destruct (String.eqb t "trend"); [apply extract_trend_allocates |].
  destruct (String.eqb t "filter"); [apply extract_filtered_allocates |].
  destruct (String.eqb t "aggregation"); [apply extract_aggregation_allocates |].
  apply allocates_first_rows.
Qed.

End StoreFacts.

(** C10: [extract_by_intent] leaves the dataset of the agent unchanged.
    Run from any store in which [self.df] refers to a frame, with any
    intent, and whether it returns or raises, it ends with the attributes
    of the agent as they were ([self.df] is the same reference, and so are
    [last_query] and [last_result]) and with the store extended by the
    frames made during the call: every frame that was in the store, the
    dataset among them, is what it was, row for row.  This holds for the
    five strategies and for the fallback; the filter strategy selects from
    a copy it makes first, the others read the dataset through methods
    that return new frames.  The frame returned is one made during the
    call, and it is the frame the strategy computes from the dataset. *)
Theorem extract_by_intent_preserves_dataset {Conn} (pd : Rendering) (intent : Intent)
    (h : Refs.Heap) (self : Refs.DataExtractionAgent Conn) :
  Refs.df self < List.length h ->
  exists fresh,
    snd (Refs.extract_by_intent pd intent (h, self)) = (h ++ fresh, self)
    /\ Refs.read (h ++ fresh) (Refs.df self) = Refs.read h (Refs.df self)
    /\ (forall r, r < List.length h -> Refs.read (h ++ fresh) r = Refs.read h r)
    /\ match fst (Refs.extract_by_intent pd intent (h, self)) with
       | Return r =>
           List.length h <= r
           /\ extraction pd (Refs.read h (Refs.df self)) intent
              = Return (Refs.read (h ++ fresh) r)
       | Raise e => extraction pd (Refs.read h (Refs.df self)) intent = Raise e
       end.
Proof.
  intros Hdf.
  destruct (extract_by_intent_allocates Conn pd intent h self) as (fresh & Hsnd & Hfst).
  exists fresh. split; [exact Hsnd |]. split; [now apply read_old |].
  split; [intros r Hr; now apply read_old |].
  destruct (fst (Refs.extract_by_intent pd intent (h, self))) as [r | e],
           (extraction pd (Refs.read h (Refs.df self)) intent) as [d | e'];
    try contradiction.
  - destruct Hfst as (Hlo & _ & Hd). now rewrite Hd.
  - now subst.
Qed.

Lemma extract_by_intent_preserves_dataset_witness :
  let self := Refs.mkExtraction tt 0 None None in
  exists fresh,
    snd (Refs.extract_by_intent plain electronics_top5 ([sales], self))
    = ([sales] ++ fresh, self)
    /\ Refs.read ([sales] ++ fresh) 0 = sales
    /\ List.length fresh = 3.
Proof.
  intros self.
  destruct (extract_by_intent_preserves_dataset plain electronics_top5 [sales] self)
    as (fresh & Hsnd & Hdf & _); [cbn; lia |].
  exists fresh. split; [exact Hsnd |]. split; [exact Hdf |].
  vm_compute in Hsnd. injection Hsnd as <-. reflexivity.
Defined.

(** The property is one a method can fail to have: sorting the dataset in
    place (which no strategy does) changes the frame [self.df] refers
    to. *)
Example sorted_in_place_changes_dataset :
  let self := Refs.mkExtraction tt 0 None None in
  let after := fst (snd (Refs.sorted_in_place plain "Sales" ([sales], self))) in
  Refs.read after 0 <> sales.
Proof. vm_compute. discriminate. Qed.

(* ================================================================== *)
(** * QueryResolutionAgent: the SQL text                                *)
(* ================================================================== *)

Lemma take_length (n : nat) (s : string) :
  String.length (take n s) = Nat.min n (String.length s).
Proof.
  revert s. induction n as [| n IH]; intros [| c t]; simpl; auto.
Qed.

Lemma drop_length (n : nat) (s : string) :
  String.length (drop n s) = String.length s - n.
Proof.
  revert s. induction n as [| n IH]; intros [| c t]; simpl; auto.
Qed.

Lemma take_drop (n : nat) (s : string) : (take n s ++ drop n s)%string = s.
Proof.
  revert s. induction n as [| n IH]; intros [| c t]; simpl; auto.
  now rewrite IH.
Qed.

Lemma drop_drop (n m : nat) (s : string) : drop n (drop m s) = drop (m + n) s.
Proof.
  revert s. induction m as [| m IH]; intros s; simpl; [reflexivity |].
  destruct s as [| c t]; [now destruct n | apply IH].
Qed.

Lemma take_take (n m : nat) (s : string) : n <= m -> take n (take m s) = take n s.
Proof.
  revert m s. induction n as [| n IH]; intros m s H; [reflexivity |].
  destruct m as [| m]; [lia |]. destruct s as [| c t]; [reflexivity |].
  simpl. f_equal. apply IH. lia.
Qed.

Lemma take_all (n : nat) (s : string) : String.length s <= n -> take n s = s.
Proof.
  revert s. induction n as [| n IH]; intros [| c t] H; simpl in *; try reflexivity; try lia.
  f_equal. apply IH. lia.
Qed.

Lemma take_min (n : nat) (s : string) : take (Nat.min n (String.length s)) s = take n s.
Proof.
  destruct (Nat.le_gt_cases n (String.length s)) as [H | H].
  - now rewrite Nat.min_l.
  - rewrite Nat.min_r by lia. rewrite !take_all; auto; lia.
Qed.

Lemma drop_all (n : nat) (s : string) : String.length s <= n -> drop n s = EmptyString.
Proof.
  revert s. induction n as [| n IH]; intros [| c t] H; simpl in *; try reflexivity; try lia.
  apply IH. lia.
Qed.

Lemma append_assoc (a b c : string) : ((a ++ b) ++ c = a ++ (b ++ c))%string.
Proof. induction a as [| x t IH]; simpl; [reflexivity | now rewrite IH]. Qed.

Lemma append_empty_r (s : string) : (s ++ EmptyString)%string = s.
Proof. induction s as [| c t IH]; simpl; [reflexivity | now rewrite IH]. Qed.

Lemma append_length (a b : string) :
  String.length (a ++ b) = String.length a + String.length b.
Proof. induction a as [| c t IH]; simpl; [reflexivity | now rewrite IH]. Qed.

Lemma string_rev_app (a b : string) :
  string_rev (a ++ b) = (string_rev b ++ string_rev a)%string.
Proof.
  induction a as [| c t IH]; simpl.
  - now rewrite append_empty_r.
  - now rewrite IH, append_assoc.
Qed.

Lemma string_rev_involutive (s : string) : string_rev (string_rev s) = s.
Proof.
  induction s as [| c t IH]; simpl; [reflexivity |].
  rewrite string_rev_app. simpl. now rewrite IH.
Qed.

Lemma string_rev_length (s : string) : String.length (string_rev s) = String.length s.
Proof.
  induction s as [| c t IH]; simpl; [reflexivity |].
  rewrite append_length, IH. simpl. lia.
Qed.

Lemma prefix_app (a b : string) : String.prefix a (a ++ b) = true.
Proof.
  induction a as [| c t IH]; simpl; [destruct b; reflexivity |].
  destruct (ascii_dec c c); [exact IH | congruence].
Qed.

Lemma prefix_empty (s : string) : String.prefix EmptyString s = true.
Proof. destruct s; reflexivity. Qed.

(** A text that [w] begins is [w] followed by the rest. *)
Lemma prefix_split (w s : string) :
  String.prefix w s = true -> s = (w ++ drop (String.length w) s)%string.
Proof.
  revert s. induction w as [| a w IH]; intros s H.
  - reflexivity.
  - destruct s as [| b s]; [discriminate |]. simpl in H.
    destruct (ascii_dec a b) as [-> | _]; [| discriminate].
    simpl. f_equal. now apply IH.
Qed.

Lemma prefix_extend (w p x : string) :
  String.prefix w p = true -> String.prefix w (p ++ x) = true.
Proof.
  intros H. rewrite (prefix_split w p H), append_assoc. apply prefix_app.
Qed.

(** What begins [q ++ x] either begins [q] already or runs into [x]. *)
Lemma prefix_app_cases (w q x : string) :
  String.prefix w (q ++ x) = true ->
  String.prefix w q = true
  \/ exists y, y <> EmptyString /\ w = (q ++ y)%string /\ String.prefix y x = true.
Proof.
  revert w. induction q as [| c q IH]; intros w H.
  - destruct w as [| a w]; [left; reflexivity |].
    right. exists (String a w). split; [discriminate |]. auto.
  - destruct w as [| a w]; [left; reflexivity |].
    simpl in H. simpl. destruct (ascii_dec a c) as [-> | _]; [| discriminate].
    destruct (IH w H) as [Hp | (y & Hy & -> & Hx)]; [now left |].
    right. exists y. auto.
Qed.

(* ================================================================== *)
(** * Stripping                                                        *)
(* ================================================================== *)

Section StripLeading.

Variable ws : list string.
Hypothesis ws_nonempty : forall w, In w ws -> w <> EmptyString.

Lemma leading_some (s w : string) :
  leading ws s = Some w -> In w ws /\ String.prefix w s = true.
Proof. intros H. unfold leading in H. apply find_some in H. exact H. Qed.

Lemma leading_none (s : string) :
  leading ws s = None -> forall w, In w ws -> String.prefix w s = false.
Proof. intros H w Hin. unfold leading in H. exact (find_none _ _ H w Hin). Qed.

Lemma leading_empty : leading ws EmptyString = None.
Proof.
  destruct (leading ws EmptyString) as [w |] eqn:E; [| reflexivity].
  apply leading_some in E. destruct E as [Hin Hp].
  destruct w; [now apply ws_nonempty in Hin | discriminate].
Qed.

Lemma strip_leading_clean_already (n : nat) (s : string) :
  leading ws s = None -> strip_leading ws n s = s.
Proof. intros H. destruct n; simpl; [reflexivity | now rewrite H]. Qed.

Lemma strip_leading_length (n : nat) (s : string) :
  String.length (strip_leading ws n s) <= String.length s.
Proof.
  revert s. induction n as [| n IH]; intros s; simpl; [lia |].
  destruct (leading ws s) as [w |]; [| lia].
  etransitivity; [apply IH |]. rewrite drop_length. lia.
Qed.

(** With a turn for every character, nothing of [ws] is left in front. *)
Lemma strip_leading_clean (n : nat) (s : string) :
  String.length s <= n -> leading ws (strip_leading ws n s) = None.
Proof.
  revert s. induction n as [| n IH]; intros s H; simpl.
  - destruct s; [apply leading_empty | simpl in H; lia].
  - destruct (leading ws s) as [w |] eqn:E; [| exact E].
    apply IH. rewrite drop_length.
    apply leading_some in E. destruct E as [Hin _].
    apply ws_nonempty in Hin. destruct w; [contradiction |]. simpl. lia.
Qed.

(** What is left is the end of the text. *)
Lemma strip_leading_suffix (n : nat) (s : string) :
  exists a, s = (a ++ strip_leading ws n s)%string.
Proof.
  revert s. induction n as [| n IH]; intros s; simpl.
  - now exists EmptyString.
  - destruct (leading ws s) as [w |]; [| now exists EmptyString].
    destruct (IH (drop (String.length w) s)) as [a Ha].
    exists (take (String.length w) s ++ a)%string.
    rewrite append_assoc, <- Ha. now rewrite take_drop.
Qed.

(** A text the loop leaves as it is has nothing of [ws] in front. *)
Lemma strip_leading_fixed (n : nat) (s : string) :
  strip_leading ws (S n) s = s -> leading ws s = None.
Proof.
  simpl. destruct (leading ws s) as [w |] eqn:E; [| reflexivity].
  intros H. exfalso.
  apply leading_some in E. destruct E as [Hin Hp].
  apply ws_nonempty in Hin.
  pose proof (strip_leading_length n (drop (String.length w) s)) as L.
  rewrite H, drop_length in L.
  destruct w as [| a w]; [contradiction |].
  destruct s as [| b s]; [discriminate |]. simpl in L. lia.
Qed.

End StripLeading.

Lemma whitespace_nonempty (w : string) : In w whitespace -> w <> EmptyString.
Proof.
  intros H. simpl in H.
  repeat (destruct H as [<- | H]; [discriminate |]). contradiction.
Qed.

Lemma whitespace_rev_nonempty (w : string) :
  In w (map string_rev whitespace) -> w <> EmptyString.
Proof.
  intros H. simpl in H.
  repeat (destruct H as [<- | H]; [discriminate |]). contradiction.
Qed.

Lemma lstrip_clean (s : string) : leading whitespace (lstrip s) = None.
Proof. apply (strip_leading_clean _ whitespace_nonempty). lia. Qed.

Lemma lstrip_clean_already (s : string) :
  leading whitespace s = None -> lstrip s = s.
Proof. apply strip_leading_clean_already. Qed.

Lemma rstrip_clean_already (s : string) :
  leading (map string_rev whitespace) (string_rev s) = None -> rstrip s = s.
Proof.
  intros H. unfold rstrip. rewrite strip_leading_clean_already by assumption.
  apply string_rev_involutive.
Qed.

(** What [strip] returns has nothing left to strip. *)
Lemma strip_idem (s : string) : strip (strip s) = strip s.
Proof.
  unfold strip. set (r := lstrip s).
  set (q := strip_leading (map string_rev whitespace) (String.length r) (string_rev r)).
  assert (Hq : leading (map string_rev whitespace) q = None).
  { apply (strip_leading_clean _ whitespace_rev_nonempty).
    now rewrite string_rev_length. }
  destruct (strip_leading_suffix (map string_rev whitespace) (String.length r)
              (string_rev r)) as [a Ha].
  fold q in Ha.
  assert (Hr : r = (string_rev q ++ string_rev a)%string).
  { rewrite <- string_rev_app, <- Ha. symmetry. apply string_rev_involutive. }
  change (rstrip r) with (string_rev q).
  assert (Hl : leading whitespace (string_rev q) = None).
  { destruct (leading whitespace (string_rev q)) as [w |] eqn:E; [| reflexivity].
    apply leading_some in E. destruct E as [Hin Hp].
    pose proof (leading_none whitespace r (lstrip_clean s) w Hin) as Hn.
    rewrite Hr in Hn. rewrite (prefix_extend _ _ _ Hp) in Hn. discriminate. }
  rewrite (lstrip_clean_already _ Hl).
  apply rstrip_clean_already. now rewrite string_rev_involutive.
Qed.

Lemma begins_with_none (ws : list string) (c : ascii) (t : string) :
  forallb (fun w => negb (String.prefix (String c EmptyString) w)) ws = true ->
  (forall w, In w ws -> w <> EmptyString) ->
  leading ws (String c t) = None.
Proof.
  intros Hc Hne.
  destruct (leading ws (String c t)) as [w |] eqn:E; [| reflexivity].
  apply leading_some in E. destruct E as [Hin Hp].
  rewrite forallb_forall in Hc. specialize (Hc w Hin).
  specialize (Hne w Hin). destruct w as [| a w]; [contradiction |].
  simpl in Hp, Hc. destruct (ascii_dec a c) as [-> | _]; [| discriminate].
  destruct (ascii_dec c c); [| congruence].
  rewrite prefix_empty in Hc. discriminate.
Qed.

(** A text that begins with [c] and ends with [c'], where no white space
    character begins with the byte [c] or ends with the byte [c'], is
    trimmed. *)
Lemma strip_between (c c' : ascii) (t : string) :
  forallb (fun w => negb (String.prefix (String c EmptyString) w)) whitespace = true ->
  forallb (fun w => negb (String.prefix (String c' EmptyString) w))
          (map string_rev whitespace) = true ->
  strip (String c t ++ String c' EmptyString) = (String c t ++ String c' EmptyString)%string.
Proof.
  intros Hc Hc'. unfold strip.
  change (String c t ++ String c' EmptyString)%string
    with (String c (t ++ String c' EmptyString)).
  rewrite (lstrip_clean_already _ (begins_with_none _ c _ Hc whitespace_nonempty)).
  apply rstrip_clean_already.
  change (String c (t ++ String c' EmptyString))
    with (String c t ++ String c' EmptyString)%string.
  rewrite string_rev_app. cbn [string_rev append].
  apply (begins_with_none _ c' _ Hc' whitespace_rev_nonempty).
Qed.

(** The text that replaces a failed generation is trimmed, whatever the
    table is called. *)
Lemma default_sql_trimmed (table : string) :
  strip ("SELECT * FROM " ++ table ++ " LIMIT 10") = ("SELECT * FROM " ++ table ++ " LIMIT 10")%string.
Proof.
  replace ("SELECT * FROM " ++ table ++ " LIMIT 10")%string
    with (String "S" ("ELECT * FROM " ++ table ++ " LIMIT 1") ++ "0")%string.
  - apply strip_between; vm_compute; reflexivity.
  - cbn [append]. rewrite !append_assoc. reflexivity.
Qed.

(** X1: [generate_sql] never raises, and what it returns has no white
    space left at either end.  When the chat model fails the text is
    [SELECT * FROM <table> LIMIT 10]; when it replies without a code fence
    the text is the reply, trimmed. *)
Theorem generate_sql_total (llm : ChatModel) (schema_description query table : string) :
  exists sql,
    generate_sql llm schema_description query table = Return sql
    /\ strip sql = sql
    /\ (forall e, ask_sql llm query schema_description table = Raise e ->
          sql = ("SELECT * FROM " ++ table ++ " LIMIT 10")%string)
    /\ (forall content,
          ask_sql llm query schema_description table = Return content ->
          String.prefix fence (strip content) = false ->
          sql = strip content).
Proof.
  unfold generate_sql.
  destruct (ask_sql llm query schema_description table) as [content | e]; simpl.
  - destruct (String.prefix fence (strip content)) eqn:Hf.
    + eexists. split; [reflexivity |]. split; [apply strip_idem |].
      split; [discriminate |]. intros c [= <-] H. congruence.
    + eexists. split; [reflexivity |]. split; [apply strip_idem |].
      split; [discriminate |]. now intros c [= <-] _.
  - eexists. split; [reflexivity |]. split; [apply default_sql_trimmed |].
    split; [reflexivity | discriminate].
Qed.

Lemma no_backtick_app (a b : string) :
  no_backtick (a ++ b) = no_backtick a && no_backtick b.
Proof.
  induction a as [| c t IH]; simpl; [reflexivity |].
  rewrite IH. now rewrite andb_assoc.
Qed.

Lemma until_at_sep (sep s : string) :
  String.prefix sep s = true -> until sep s = EmptyString.
Proof. destruct s; simpl; intros ->; reflexivity. Qed.

(** Up to the first fence: text without a backtick is passed whole. *)
Lemma until_fence (x rest : string) :
  no_backtick x = true -> until fence (x ++ fence ++ rest) = x.
Proof.
  induction x as [| c t IH]; intros H.
  - apply until_at_sep. apply (prefix_app fence rest).
  - simpl in H. apply andb_true_iff in H. destruct H as [Hc Ht].
    change ((String c t ++ fence ++ rest)%string)
      with (String c (t ++ fence ++ rest)).
    cbn [until]. unfold fence at 1. cbn [String.prefix].
    destruct (ascii_dec "`"%char c) as [E | _].
    + subst c. discriminate Hc.
    + f_equal. now apply IH.
Qed.

(** No white space character of two or more bytes ends in a line break. *)
Lemma whitespace_no_newline_end (w q : string) :
  In w whitespace -> w = (q ++ newline)%string -> q = EmptyString.
Proof.
  intros H E. simpl in H.
  repeat (destruct H as [<- | H];
          [destruct q as [| a [| b [| c [| d q]]]]; simpl in E;
           solve [reflexivity | discriminate E | congruence] |]).
  contradiction.
Qed.

Lemma leading_newline_rev (x : string) :
  leading (map string_rev whitespace) (newline ++ x) = Some newline.
Proof. destruct x; reflexivity. Qed.

(** A trimmed text between two line breaks is what [strip] gives back. *)
Lemma strip_between_newlines (q : string) :
  lstrip q = q -> rstrip q = q -> strip (newline ++ q ++ newline) = q.
Proof.
  intros Hl Hr. unfold strip.
  destruct q as [| c t]; [vm_compute; reflexivity |].
  set (q := String c t) in *.
  assert (Hq : leading whitespace q = None).
  { apply (strip_leading_fixed _ whitespace_nonempty (String.length t)). exact Hl. }
  assert (Hqn : leading whitespace (q ++ newline) = None).
  { destruct (leading whitespace (q ++ newline)) as [w |] eqn:E; [| reflexivity].
    apply leading_some in E. destruct E as [Hin Hp].
    apply prefix_app_cases in Hp. destruct Hp as [Hp | (y & Hy & Hw & Hp)].
    - rewrite (leading_none _ _ Hq w Hin) in Hp. discriminate.
    - assert (y = newline).
      { destruct y as [| a [| b y]]; [contradiction | |].
        - unfold newline in *. simpl in Hp.
          destruct (ascii_dec a _) as [-> | _]; [reflexivity | discriminate].
        - unfold newline in Hp. simpl in Hp.
          destruct (ascii_dec a _); discriminate. }
      subst y. apply (whitespace_no_newline_end w q Hin) in Hw. discriminate. }
  assert (E1 : lstrip (newline ++ q ++ newline) = (q ++ newline)%string).
  { unfold lstrip.
    change (String.length (newline ++ q ++ newline))
      with (S (String.length (q ++ newline))).
    change (strip_leading whitespace (S (String.length (q ++ newline)))
              (newline ++ q ++ newline))
      with (strip_leading whitespace (String.length (q ++ newline)) (q ++ newline)).
    now apply strip_leading_clean_already. }
  rewrite E1. unfold rstrip.
  rewrite string_rev_app. change (string_rev newline) with newline.
  rewrite append_length. change (String.length newline) with 1.
  rewrite Nat.add_1_r. cbn [strip_leading].
  rewrite leading_newline_rev.
  change (drop (String.length newline) (newline ++ string_rev q)) with (string_rev q).
  exact Hr.
Qed.

Lemma fenced_trimmed (lang q : string) : strip (fenced lang q) = fenced lang q.
Proof.
  unfold fenced.
  replace (fence ++ lang ++ newline ++ q ++ newline ++ fence)%string
    with (String "`" ("``" ++ lang ++ newline ++ q ++ newline ++ "``") ++ "`")%string.
  - apply strip_between; vm_compute; reflexivity.
  - cbn [append]. rewrite !append_assoc. reflexivity.
Qed.

(** X2: a reply that wraps a query in a code fence, tagged [sql] or not
    tagged, is unwrapped to the query itself, provided the query is trimmed
    and holds no backtick. *)
Theorem generate_sql_unwraps_fence (llm : ChatModel)
    (schema_description query table lang q : string) :
  lang = "sql" \/ lang = EmptyString ->
  no_backtick q = true ->
  lstrip q = q ->
  rstrip q = q ->
  ask_sql llm query schema_description table = Return (fenced lang q) ->
  generate_sql llm schema_description query table = Return q.
Proof.
  intros Hlang Hq Hl Hr Hllm. unfold generate_sql. rewrite Hllm.
  cbn [obind ocatch]. rewrite fenced_trimmed.
  assert (Hp : String.prefix fence (fenced lang q) = true) by apply prefix_app.
  rewrite Hp. f_equal. unfold split_second.
  change (drop (String.length fence) (fenced lang q))
    with (lang ++ newline ++ q ++ newline ++ fence)%string.
  replace (lang ++ newline ++ q ++ newline ++ fence)%string
    with ((lang ++ newline ++ q ++ newline) ++ fence ++ EmptyString)%string
    by (rewrite !append_assoc; reflexivity).
  rewrite until_fence.
  - destruct Hlang as [-> | ->].
    + assert (Hs : String.prefix "sql" ("sql" ++ newline ++ q ++ newline) = true)
        by apply prefix_app.
      rewrite Hs.
      change (drop 3 ("sql" ++ newline ++ q ++ newline)) with (newline ++ q ++ newline)%string.
      now apply strip_between_newlines.
    + change (String.prefix "sql" (EmptyString ++ newline ++ q ++ newline)) with false.
      cbv iota. now apply strip_between_newlines.
  - rewrite !no_backtick_app, Hq.
    destruct Hlang as [-> | ->]; reflexivity.
Qed.

Lemma generate_sql_unwraps_fence_witness :
  generate_sql (replies_sql (fenced "sql" "SELECT Region FROM sales_data"))
               "Region, Sales" "Which regions are there?" "sales_data"
  = Return "SELECT Region FROM sales_data".
Proof.
  apply (generate_sql_unwraps_fence _ _ _ _ "sql" "SELECT Region FROM sales_data").
  - left. reflexivity.
  - vm_compute. reflexivity.
  - vm_compute. reflexivity.
  - vm_compute. reflexivity.
  - reflexivity.
Defined.

(* ================================================================== *)
(** * From the resolver to the extraction strategies                   *)
(* ================================================================== *)

Lemma resolved_type_dict (qi : QueryIntent) :
  resolved_type (dict qi) = Some (qi_query_type qi).
Proof. reflexivity. Qed.

(** X3: [resolve_query] never raises.  When the chat model or the parser of
    its reply fails, the intent it returns is the summary intent with no
    entities, metrics or filters, and [extract_by_intent] on the dict of
    that intent is [describe] over the numeric columns of the dataset. *)
Theorem resolve_query_fallback {Conn} (llm : ChatModel) (pd : Rendering)
    (schema_description query : string) (self : DataExtractionAgent Conn) :
  (exists intent, resolve_query llm schema_description query = Return intent)
  /\ (forall e,
        ask_intent llm query schema_description = Raise e ->
        resolve_query llm schema_description query = Return basic_intent
        /\ extract_by_intent pd (dict basic_intent) self
           = (describe pd (project (df self) (numeric_columns (df self))), self)).
Proof.
  split.
  - unfold resolve_query.
    destruct (ask_intent llm query schema_description); simpl; eauto.
  - intros e He. split.
    + unfold resolve_query. now rewrite He.
    + rewrite extract_by_intent_run. reflexivity.
Qed.

Lemma resolve_query_fallback_witness :
  resolve_query offline "Region, Sales" "What sold best?" = Return basic_intent
  /\ fst (extract_by_intent plain (dict basic_intent) (new_extraction_agent tt sales))
     = Return (mkDataFrame [("Sales", int64)] [[int 100]; [int 250]; [int 40]; [int 10]]).
Proof.
  destruct (resolve_query_fallback offline plain "Region, Sales" "What sold best?"
              (new_extraction_agent tt sales)) as [_ H].
  destruct (H (ProviderError "Connection error.") eq_refl) as [H1 H2].
  split; [exact H1 |]. rewrite H2. vm_compute. reflexivity.
Defined.



Lemma obind_return {A} (x : outcome A) : obind x (fun a => Return a) = x.
Proof. now destruct x. Qed.

(** X5: a filter intent that comes out of [QueryIntent.dict()] with no
    limit set carries the key bound to [None], so the default of 100 is not
    used and [head(None)] cuts nothing: the strategy returns what the loop
    over the filters returns, or raises what it raises.  When every filter
    whose column exists compares a column of the one label with a scalar
    of the kind the column holds, these are all the rows that pass each of
    those filters, in the order of the dataset and however many there
    are. *)
Theorem filter_unset_limit_keeps_all {Conn} (pd : Rendering) (qi : QueryIntent)
    (self : DataExtractionAgent Conn) :
  qi_query_type qi = "filter" ->
  qi_limit qi = None ->
  extract_by_intent pd (dict qi) self
  = (apply_filters pd (qi_filters qi) (df self), self)
  /\ (all_selectable (df self) (qi_filters qi) = true ->
      extract_by_intent pd (dict qi) self
      = (Return (mkDataFrame (schema (df self))
                   (filter (passes pd (df self) (qi_filters qi)) (rows (df self)))),
         self)).
Proof.
  intros Ht Hl.
  assert (Hrun : extract_by_intent pd (dict qi) self
                 = (apply_filters pd (qi_filters qi) (df self), self)).
  { rewrite extract_by_intent_run. f_equal.
    rewrite extraction_filter by (rewrite resolved_type_dict; now rewrite Ht).
    unfold filtered, copy. cbn [dict filters limit dict_get]. rewrite Hl.
    cbn [of_option dict_get head]. apply obind_return. }
  split; [exact Hrun |].
  intros Hs. rewrite Hrun. f_equal.
  pose proof (apply_filters_rows pd (df self) (qi_filters qi) Hs (rows (df self))
                (fun r H => H)) as E.
  destruct (df self) as [sch rs]. exact E.
Qed.

Lemma filter_unset_limit_keeps_all_witness :
  exists result,
    fst (extract_by_intent plain
           (dict (bare_intent "filter" [] [] [("Region", Str "South")]))
           (new_extraction_agent tt sales)) = Return result
    /\ rows result = [ [Str "South"; Str "Clothing"; int 250; Timestamp 1];
                       [Str "South"; Str "Electronics"; int 10; Timestamp 1] ].
Proof.
  destruct (filter_unset_limit_keeps_all plain
              (bare_intent "filter" [] [] [("Region", Str "South")])
              (new_extraction_agent tt sales) eq_refl eq_refl) as [_ H].
  eexists. rewrite H by (vm_compute; reflexivity).
  split; [reflexivity | vm_compute; reflexivity].
Defined.

Lemma head_kept (lim : option Z) (d : DataFrame) :
  rows (head lim d) = firstn (kept lim (len d)) (rows d).
Proof.
  unfold head, kept, len. destruct lim as [z |].
  - destruct (0 <=? z)%Z; cbn [rows]; [apply firstn_min | reflexivity].
  - symmetry. apply firstn_all.
Qed.

(** X23: the filter strategy on filters the model works out (each filter
    whose column exists compares a column of the one label with a scalar
    of the kind the column holds).  The result has the columns of the
    dataset and, of its rows, those that pass every filter whose column
    exists, in the order of the dataset, cut by [head(limit)]: at most 100
    rows when the key [limit] is absent, at most [n] rows for a limit
    [n >= 0], and all of them when the key is bound to [None].  The agent
    is left as it was. *)
Theorem filter_strategy {Conn} (pd : Rendering) (intent : Intent)
    (fs : list (string * cell)) (self : DataExtractionAgent Conn) :
  resolved_type intent = Some "filter" ->
  dict_get (filters intent) (Some []) = Some fs ->
  all_selectable (df self) fs = true ->
  let d := df self in
  let lim := dict_get (limit intent) (Some 100%Z) in
  let passing := filter (passes pd d fs) (rows d) in
  exists result,
    extract_by_intent pd intent self = (Return result, self)
    /\ schema result = schema d
    /\ rows result = firstn (kept lim (List.length passing)) passing
    /\ (forall r, In r (rows result) -> In r (rows d) /\ passes pd d fs r = true)
    /\ (forall r c v,
          In r (rows result) -> In (c, v) fs -> has_column c d = true ->
          mask_eq pd (get d c r) v = true)
    /\ (limit intent = Absent -> len result <= 100)
    /\ (forall n, limit intent = Given n -> (0 <= n)%Z -> len result <= Z.to_nat n)
    /\ (limit intent = PyNone -> rows result = passing).
Proof.
  intros Ht Hfs Hs d lim passing.
  exists (head lim (mkDataFrame (schema d) passing)).
  assert (Hin : forall r, In r (rows (head lim (mkDataFrame (schema d) passing))) ->
                  In r (rows d) /\ passes pd d fs r = true).
  { intros r Hr. apply head_rows_in in Hr. cbn [rows] in Hr.
    now apply filter_In in Hr. }
  split; [| split; [| split; [| split; [| split; [| split; [| split]]]]]].
  - rewrite extract_by_intent_run. f_equal.
    rewrite extraction_filter by assumption.
    now apply filtered_rows.
  - apply (head_schema lim (mkDataFrame (schema d) passing)).
  - apply (head_kept lim (mkDataFrame (schema d) passing)).
  - exact Hin.
  - intros r c v Hr Hcv Hc. destruct (Hin r Hr) as [_ Hp].
    unfold passes in Hp. rewrite forallb_forall in Hp.
    specialize (Hp (c, v) Hcv). cbn [fst snd] in Hp.
    now rewrite Hc in Hp.
  - intros Hl. unfold lim. rewrite Hl. cbn [dict_get].
    apply (head_len 100 (mkDataFrame (schema d) passing)). lia.
  - intros n Hl Hn. unfold lim. rewrite Hl. cbn [dict_get].
    now apply (head_len n (mkDataFrame (schema d) passing)).
  - intros Hl. unfold lim. rewrite Hl. reflexivity.
Qed.

Lemma filter_strategy_witness :
  let self := new_extraction_agent tt sales in
  exists result,
    extract_by_intent plain electronics_top5 self = (Return result, self)
    /\ rows result = [ [Str "North"; Str "Electronics"; int 100; Timestamp 3];
                       [Str "South"; Str "Electronics"; int 10; Timestamp 1] ]
    /\ len result <= 5.
Proof.
  intros self.
  assert (H1 : resolved_type electronics_top5 = Some "filter") by reflexivity.
  assert (H2 : dict_get (filters electronics_top5) (Some [])
               = Some [("Category", Str "Electronics")]) by reflexivity.
  assert (H3 : all_selectable (df self) [("Category", Str "Electronics")] = true)
    by (vm_compute; reflexivity).
  destruct (filter_strategy plain electronics_top5 [("Category", Str "Electronics")]
              self H1 H2 H3) as (result & H & _ & Hrows & _ & _ & _ & Hn & _).
  exists result. split; [exact H |]. split.
  - rewrite Hrows. vm_compute. reflexivity.
  - apply (Hn 5%Z); [reflexivity | lia].
Defined.

(* ================================================================== *)
(** * The summary strategy                                             *)
(* ================================================================== *)

Lemma first_seen_in (l : list string) (x : string) : In x (first_seen l) <-> In x l.
Proof.
  induction l as [| y t IH]; simpl; [tauto |].
  rewrite filter_In, IH. split.
  - intros [H | [H _]]; auto.
  - intros [H | H]; [now left |].
    destruct (String.eqb_spec y x) as [E | E]; [now left | right].
    split; [assumption | reflexivity].
Qed.

Lemma metric_stats_numeric (pd : Rendering) (d : DataFrame) (m : string) :
  all_numeric (series d m) = true ->
  metric_stats pd d m = Return (numeric_stats pd d m).
Proof.
  intros H. unfold metric_stats, agg_sum, agg_mean, agg_max, agg_min.
  rewrite H. reflexivity.
Qed.

Lemma stats_columns (pd : Rendering) (d : DataFrame) (l : list string) :
  map fst (map fst (List.concat (map (numeric_stats pd d) l))) = flat_map stat_columns l.
Proof.
  induction l as [| m t IH]; simpl; [reflexivity |].
  now rewrite IH.
Qed.

(** X6: with metrics given, [_extract_summary] does not call [describe]:
    for numeric metric columns it returns a frame with the four columns
    [_total], [_avg], [_max], [_min] of every metric that is a column of
    the dataset, each metric once and in the order given; metrics that are
    no column are skipped.  The frame has one row, and no row and no column
    at all when none of the metrics is a column. *)
Theorem summary_of_metrics (pd : Rendering) (d : DataFrame) (intent : Intent) :
  let ms := get_list (metrics intent) in
  let known := filter (fun m => has_column m d) (first_seen ms) in
  ms <> [] ->
  (forall m, In m known -> all_numeric (series d m) = true) ->
  exists r,
    summary pd d intent = Return r
    /\ columns r = flat_map stat_columns known
    /\ len r = (if existsb (fun m => has_column m d) ms then 1 else 0)
    /\ (forall cells, In cells (rows r) -> List.length cells = 4 * List.length known)
    /\ (known = [] -> r = empty_frame).
Proof.
  cbv zeta. intros Hms Hnum. unfold summary.
  destruct (get_list (metrics intent)) as [| m0 rest] eqn:Ems; [congruence |].
  set (ms := m0 :: rest) in *.
  set (known := filter (fun m => has_column m d) (first_seen ms)) in *.
  rewrite (omap_all_return (metric_stats pd d) (numeric_stats pd d) known)
    by (intros m Hm; now apply metric_stats_numeric, Hnum).
  cbn [obind]. eexists. split; [reflexivity |].
  assert (Hex : existsb (fun m => has_column m d) ms = true <-> known <> []).
  { unfold known. rewrite existsb_exists. split.
    - intros (m & Hin & Hc) E.
      assert (Hk : In m (filter (fun m => has_column m d) (first_seen ms)))
        by (apply filter_In; split; [now apply first_seen_in | assumption]).
      rewrite E in Hk. destruct Hk.
    - intros Hne. destruct (filter _ (first_seen ms)) as [| m l] eqn:E; [congruence |].
      assert (Hk : In m (filter (fun m => has_column m d) (first_seen ms)))
        by (rewrite E; now left).
      apply filter_In in Hk. destruct Hk as [Hin Hc].
      exists m. split; [now apply first_seen_in | assumption]. }
  split; [| split; [| split]].
  - unfold columns. cbn [schema]. apply stats_columns.
  - unfold len. cbn [rows].
    destruct (existsb (fun m => has_column m d) ms) eqn:E.
    + pose proof (proj1 Hex eq_refl) as Hne.
      destruct known as [| k ks]; [congruence | reflexivity].
    + destruct known as [| k ks]; [reflexivity |].
      assert (H : false = true) by (apply Hex; discriminate). discriminate H.
  - intros cells Hin. cbn [rows] in Hin.
    destruct known as [| k ks]; [destruct Hin |].
    cbn [map List.concat numeric_stats app] in Hin.
    destruct Hin as [<- | []].
    cbn [map snd List.length]. rewrite !length_map.
    clear. induction ks as [| x xs IH]; simpl; [reflexivity |].
    simpl in IH. rewrite IH. lia.
  - intros ->. reflexivity.
Qed.

Lemma summary_of_metrics_witness :
  exists r,
    summary plain sales (with_metrics ["Profit"; "Sales"; "Sales"] (intent_of "summary"))
    = Return r
    /\ columns r = ["Sales_total"; "Sales_avg"; "Sales_max"; "Sales_min"]
    /\ len r = 1.
Proof.
  destruct (summary_of_metrics plain sales
              (with_metrics ["Profit"; "Sales"; "Sales"] (intent_of "summary")))
    as (r & Hr & Hc & Hl & _).
  - discriminate.
  - intros m Hm. vm_compute in Hm. destruct Hm as [<- | []]. vm_compute. reflexivity.
  - exists r. split; [exact Hr |]. split.
    + rewrite Hc. vm_compute. reflexivity.
    + rewrite Hl. vm_compute. reflexivity.
Defined.

(* ================================================================== *)
(** * One column as entity and as metric                               *)
(* ================================================================== *)

Lemma aggregate_default_method (pd : Rendering) (d : DataFrame) (intent : Intent)
    (e m : string) :
  find_entity_col pd d (get_list (entities intent)) = Some e ->
  truthy e = true ->
  metric_col d (get_list (metrics intent)) = Some m ->
  aggregation intent = Absent ->
  forall x,
    groupby_sum pd d e m = Raise x -> aggregate pd d intent = Raise x.
Proof.
  intros He Ht Hm Ha x Hx.
  rewrite (aggregate_known_method pd d intent e m "sum" (groupby_sum pd d e m));
    try assumption.
  - now rewrite Hx.
  - now rewrite Ha.
  - reflexivity.
Qed.

(** X7: when the entity resolves to the very column that is the first
    metric (an entity such as [sales] with the metric [Sales]), and that
    column is the only one of its label and holds values of one kind, the
    comparison strategy and the aggregation strategy with the default
    method do not fall back to the first ten rows: they raise.  When
    pandas returns the sums, as it does for a column that holds numbers,
    what they raise is the [ValueError] of [reset_index], which cannot
    insert the group key beside a column of the same name. *)
Theorem same_column_raises {Conn} (pd : Rendering) (intent : Intent) (m : string)
    (self : DataExtractionAgent Conn) :
  find_entity_col pd (df self) (get_list (entities intent)) = Some m ->
  metric_col (df self) (get_list (metrics intent)) = Some m ->
  groupable (df self) m m = true ->
  let d := df self in
  let t := dtype_of m (schema d) in
  let refused := ValueError ("cannot insert " ++ m ++ ", already exists") in
  (exists x,
      _extract_comparison pd intent self = (Raise x, self)
      /\ (aggregation intent = Absent ->
          _extract_aggregation pd intent self = (Raise x, self))
      /\ ((exists sums, group_aggregates (agg_sum pd t) d m m = Return sums) ->
          x = refused))
  /\ (all_numeric (series d m) = true ->
      _extract_comparison pd intent self = (Raise refused, self)
      /\ (aggregation intent = Absent ->
          _extract_aggregation pd intent self = (Raise refused, self))).
Proof.
  intros He Hm Hg d t refused.
  destruct (metric_col_first _ _ _ Hm) as (rest & _ & _ & Htr).
  destruct (groupby_same_label pd d m "sum" (agg_sum pd t) t Hg) as [(x & Hx) Hsums].
  assert (Hcmp : forall y, groupby_sum pd d m m = Raise y ->
                   _extract_comparison pd intent self = (Raise y, self)).
  { intros y Hy. unfold _extract_comparison. rewrite on_df_state. f_equal.
    rewrite (comparison_resolved pd (df self) intent m m) by assumption.
    fold d. now rewrite Hy. }
  assert (Hagg : forall y, groupby_sum pd d m m = Raise y ->
                   aggregation intent = Absent ->
                   _extract_aggregation pd intent self = (Raise y, self)).
  { intros y Hy Ha. unfold _extract_aggregation. rewrite on_df_state. f_equal.
    now apply (aggregate_default_method pd (df self) intent m m). }
  split.
  - exists x. split; [now apply Hcmp |]. split; [now apply Hagg |].
    intros (sums & Hs). specialize (Hsums sums Hs).
    rewrite Hsums in Hx. now injection Hx as <-.
  - intros Hnum. destruct (numeric_sums pd d m m t Hnum) as (sums & Hs & _).
    specialize (Hsums sums Hs). split; [now apply Hcmp |]. now apply Hagg.
Qed.

Lemma same_column_raises_witness :
  fst (extract_by_intent plain sales_by_sales (new_extraction_agent tt sales))
  = Raise (ValueError "cannot insert Sales, already exists").
Proof.
  assert (He : find_entity_col plain sales (get_list (entities sales_by_sales))
               = Some "Sales") by (vm_compute; reflexivity).
  assert (Hm : metric_col sales (get_list (metrics sales_by_sales)) = Some "Sales")
    by (vm_compute; reflexivity).
  assert (Hg : groupable sales "Sales" "Sales" = true) by (vm_compute; reflexivity).
  destruct (same_column_raises plain sales_by_sales "Sales" (new_extraction_agent tt sales)
              He Hm Hg) as [_ H].
  destruct H as [H _]; [vm_compute; reflexivity |].
  rewrite extract_by_intent_run. unfold _extract_comparison in H.
  rewrite on_df_state in H. apply (f_equal fst) in H. exact H.
Defined.

(* ================================================================== *)
(** * Query after query on one agent                                   *)
(* ================================================================== *)

Lemma execute_sql_cases {Conn} (db_execute : string -> M Conn DataFrame) (sql : string)
    (self : DataExtractionAgent Conn) :
  let after := snd (execute_sql db_execute sql self) in
  df after = df self
  /\ ((last_query after = last_query self /\ last_result after = last_result self)
      \/ (last_query after = Some sql /\ exists r, last_result after = Some r)).
Proof.
  unfold execute_sql, try_except, bind, on_conn.
  destruct (db_execute sql (db_conn self)) as [[r | e] c]; simpl.
  - split; [reflexivity |]. right. eauto.
  - split; [reflexivity |]. left. auto.
Qed.

(** X8: over any run of queries on one agent, some of which may raise, the
    dataset the agent holds is never replaced, [last_query] and
    [last_result] stay paired (both unset or both set), and a recorded
    query is one of the queries that were run, unless it was recorded
    before the run. *)
Theorem execute_each_invariant {Conn} (db_execute : string -> M Conn DataFrame)
    (sqls : list string) (self : DataExtractionAgent Conn) :
  let after := execute_each db_execute sqls self in
  df after = df self
  /\ ((last_query self = None <-> last_result self = None) ->
      (last_query after = None <-> last_result after = None))
  /\ (forall q, last_query after = Some q -> In q sqls \/ last_query self = Some q).
Proof.
  unfold execute_each. revert self.
  induction sqls as [| sql rest IH]; intros self; cbn [fold_left].
  - repeat split; auto; tauto.
  - destruct (IH (snd (execute_sql db_execute sql self))) as (Hdf & Hpair & Hq).
    destruct (execute_sql_cases db_execute sql self) as (Hdf1 & Hstep).
    split; [congruence |]. split.
    + intros H0. apply Hpair.
      destruct Hstep as [[-> ->] | [-> [r ->]]]; [exact H0 |].
      split; discriminate.
    + intros q Hlast. destruct (Hq q Hlast) as [Hin | Hprev].
      * left. now right.
      * destruct Hstep as [[E _] | [E _]]; rewrite E in Hprev.
        -- now right.
        -- left. left. congruence.
Qed.

Lemma execute_each_invariant_witness :
  let after := execute_each one_table
                 ["SELECT 1"; "SELECT * FROM sales_data LIMIT 10"; "DROP"]
                 (new_extraction_agent tt sales) in
  df after = sales
  /\ last_query after = Some "SELECT * FROM sales_data LIMIT 10"
  /\ last_result after <> None.
Proof.
  intros after.
  destruct (execute_each_invariant one_table
              ["SELECT 1"; "SELECT * FROM sales_data LIMIT 10"; "DROP"]
              (new_extraction_agent tt sales)) as (Hdf & Hpair & _).
  fold after in Hdf, Hpair.
  split; [exact Hdf |].
  assert (Hq : last_query after = Some "SELECT * FROM sales_data LIMIT 10")
    by (vm_compute; reflexivity).
  split; [exact Hq |].
  intros Hnone. apply Hpair in Hnone; [| split; reflexivity].
  rewrite Hq in Hnone. discriminate.
Defined.

(* ================================================================== *)
(** * ValidationAgent: how low the confidence can get                  *)
(* ================================================================== *)



(** [validate_result] returns exactly when its preparation does. *)
Lemma validate_result_returns_iff (llm : ChatModel) (pd : Rendering)
    (question query : string) (result : DataFrame) :
  (exists v, validate_result llm pd question query result = Return v)
  <-> (exists s, validation_preparation pd result = Return s).
Proof.
  unfold validation_preparation. split.
  - intros (v & Hv).
    destruct (validate_result_returned pd llm question query result v Hv)
      as (iss & sug & s & -> & ->).
    cbn [obind]. eauto.
  - intros (s & Hs).
    destruct (basic_checks pd result) as [[iss sug] | e] eqn:Hb; [| discriminate].
    cbn [obind] in Hs.
    rewrite (validate_result_prepared pd llm question query result iss sug s Hb Hs).
    eauto.
Qed.



(* ================================================================== *)
(** * A failed extraction, seen from the response                      *)
(* ================================================================== *)

Lemma validate_empty_frame (llm : ChatModel) (pd : Rendering) (question query : string) :
  exists v,
    validate_result llm pd question query empty_frame = Return v
    /\ issues v = ["Result is empty - no data returned"]
    /\ row_count v = Some 0
    /\ column_count v = Some 0
    /\ match ask_validation llm question query "Empty DataFrame" "No data" with
       | Return text => (confidence v == 8 # 10)%Q /\ is_valid v = affirmed text
       | Raise _ => (confidence v == 3 # 10)%Q /\ is_valid v = false
       end.
Proof.
  rewrite (validate_result_prepared pd llm question query empty_frame
             ["Result is empty - no data returned"]
             ["Review query filters or check if data exists for the criteria"]
             "Empty DataFrame" eq_refl eq_refl).
  change (sample_data pd empty_frame) with "No data".
  destruct (ask_validation llm question query "Empty DataFrame" "No data") as [text | e];
    eexists; (split; [reflexivity |]);
    cbn [issues row_count column_count confidence is_valid]; repeat split.
  cbn. apply orb_false_r.
Qed.

(** X10: in the orchestrator as it is wired, when the generated SQL text is
    empty or the engine raises on it, the response carries the empty
    relation, the fixed no-data answer (the synthesizer is not asked), the
    extraction failure in [error], and a validation of the empty relation:
    its one issue is that the result is empty, its counts are zero, and its
    confidence is 0.8 when the chat model answers the validation prompt and
    0.3, with the verdict invalid, when it does not. *)
Theorem extraction_failure_response {Conn} (db_execute : string -> M Conn DataFrame)
    (llm : ChatModel) (pd : Rendering) (schema_description question sql : string)
    (self : DataExtractionAgent Conn) (e : exn) :
  generate_sql llm schema_description question "sales_data" = Return sql ->
  (truthy sql = false /\ e = ValueError "No SQL query generated")
  \/ (truthy sql = true /\ fst (db_execute sql (db_conn self)) = Raise e) ->
  exists resp self' v,
    orchestrator_process_query db_execute llm pd schema_description question self
    = (Return resp, self')
    /\ last_query self' = last_query self
    /\ last_result self' = last_result self
    /\ r_sql_query resp = sql
    /\ r_data resp = empty_frame
    /\ r_answer resp = no_data_answer
    /\ r_error resp = ("Data extraction failed: " ++ str_exn e)%string
    /\ r_validation resp = Some v
    /\ issues v = ["Result is empty - no data returned"]
    /\ row_count v = Some 0
    /\ column_count v = Some 0
    /\ match ask_validation llm question sql "Empty DataFrame" "No data" with
       | Return text => (confidence v == 8 # 10)%Q /\ is_valid v = affirmed text
       | Raise _ => (confidence v == 3 # 10)%Q /\ is_valid v = false
       end.
Proof.
  intros Hsql Hfail.
  set (rq := resolve_query llm schema_description).
  set (gs := fun q => generate_sql llm schema_description q "sales_data").
  set (ex := execute_sql db_execute).
  unfold orchestrator_process_query.
  destruct (process_query_run rq gs ex (validate_result llm pd)
              (generate_summary llm pd) pd question self)
    as (m1 & m2 & m3 & m4 & Hrun).
  fold rq gs ex. rewrite Hrun. clear Hrun.
  assert (Hres : resolved_sql rq gs question = sql).
  { unfold resolved_sql, resolution_outcome, rq, gs.
    destruct (resolve_query_returns llm schema_description question) as (i & ->).
    rewrite Hsql. reflexivity. }
  assert (Hout : exists self',
             extraction_outcome rq gs ex question self = (Raise e, self')
             /\ last_query self' = last_query self
             /\ last_result self' = last_result self).
  { unfold extraction_outcome. rewrite Hres.
    destruct Hfail as [[Ht ->] | [Ht He]]; rewrite Ht.
    - eexists. repeat split.
    - unfold ex, execute_sql, try_except, bind, on_conn.
      destruct (db_execute sql (db_conn self)) as [[r | e'] c]; cbn [fst] in He;
        [discriminate |].
      injection He as ->. eexists. repeat split. }
  destruct Hout as (self' & Hout & Hlq & Hlr).
  assert (Hext : extracted rq gs ex question self = empty_frame).
  { unfold extracted. now rewrite Hout. }
  destruct (validate_empty_frame llm pd question sql) as (v & Hv & Hiss & Hrc & Hcc & Hconf).
  assert (Hval : validated rq gs ex (validate_result llm pd) question self = v).
  { unfold validated, validation_outcome. now rewrite Hres, Hext, Hv. }
  exists (mkResponse question
            (answered rq gs ex (validate_result llm pd) (generate_summary llm pd)
                      question self)
            (extracted rq gs ex question self)
            (Some (validated rq gs ex (validate_result llm pd) question self))
            (resolved_sql rq gs question) [m1; m2; m3; m4]
            (last_error rq gs ex (validate_result llm pd) (generate_summary llm pd)
                        question self)).
  exists self', v.
  rewrite Hout. cbn [snd r_sql_query r_data r_answer r_error r_validation].
  split; [reflexivity |].
  do 4 (split; [assumption |]).
  split.
  { unfold answered, synthesis_outcome. rewrite Hext. reflexivity. }
  split.
  { unfold last_error, synthesis_outcome, validation_outcome.
    rewrite Hext, Hres, Hv, Hout. reflexivity. }
  split; [now rewrite Hval |].
  auto.
Qed.

Lemma extraction_failure_response_witness :
  exists resp self',
    orchestrator_process_query one_table
      (replies_sql "SELECT * FROM orders") plain "Region, Sales" "What sold best?"
      (new_extraction_agent tt sales)
    = (Return resp, self')
    /\ r_error resp = "Data extraction failed: Parser Error: syntax error"
    /\ r_answer resp = no_data_answer.
Proof.
  destruct (extraction_failure_response one_table (replies_sql "SELECT * FROM orders")
              plain "Region, Sales" "What sold best?" "SELECT * FROM orders"
              (new_extraction_agent tt sales) (SqlError "Parser Error: syntax error"))
    as (resp & self' & v & Hrun & _ & _ & _ & _ & Hans & Herr & _).
  - reflexivity.
  - right. split; reflexivity.
  - exists resp, self'. split; [exact Hrun |]. split; [exact Herr | exact Hans].
Defined.

(* ================================================================== *)
(** * The context of the last extraction                               *)
(* ================================================================== *)

(** X11: [get_context] only reads the agent.  On a new agent it says that
    no data was extracted yet.  After [execute_sql]: a query that raised
    leaves the context as it was; a query that returned rows makes the
    context report that query (its first 200 characters, [N/A] for the
    empty text), the size of the result and its first [max_rows] rows; a
    query that returned no row makes the context say, again, that no data
    was extracted yet. *)
Theorem get_context_after_query {Conn} (db_execute : string -> M Conn DataFrame)
    (pd : Rendering) (max_rows : Z) (sql : string) (self : DataExtractionAgent Conn) :
  let after := snd (execute_sql db_execute sql self) in
  snd (get_context pd max_rows self) = self
  /\ fst (get_context pd max_rows (new_extraction_agent (db_conn self) (df self)))
     = Return no_data_yet
  /\ match fst (execute_sql db_execute sql self) with
     | Raise _ =>
         fst (get_context pd max_rows after) = fst (get_context pd max_rows self)
     | Return result =>
         fst (get_context pd max_rows after)
         = Return (if (len result =? 0)%nat then no_data_yet
                   else join newline (context_parts pd max_rows (Some sql) result))
     end.
Proof.
  cbv zeta. split; [reflexivity |]. split; [reflexivity |].
  unfold execute_sql, try_except, bind, on_conn.
  destruct (db_execute sql (db_conn self)) as [[result | e] c]; reflexivity.
Qed.

(* ================================================================== *)
(** * SynthesisAgent: what is said when the chat model is down         *)
(* ================================================================== *)








(* ================================================================== *)
(** * The overall summary                                              *)
(* ================================================================== *)

(** X13: the orchestrator's [generate_summary] never raises.  Without a
    loaded dataset it returns [Error generating summary: No data loaded]
    and runs no query: the extraction agent is left as it was.  With a
    dataset it returns the answer of [process_query] for the fixed summary
    question, and leaves the agent as that run leaves it. *)
Theorem orchestrator_generate_summary_total {Conn}
    (db_execute : string -> M Conn DataFrame) (llm : ChatModel) (pd : Rendering)
    (schema_description : string) (memory_usage : DataFrame -> Q)
    (loaded : option DataFrame) (self : DataExtractionAgent Conn) :
  match loaded with
  | None =>
      orchestrator_generate_summary db_execute llm pd schema_description memory_usage
        loaded self
      = (Return "Error generating summary: No data loaded", self)
  | Some _ =>
      exists resp self',
        orchestrator_process_query db_execute llm pd schema_description
          summary_question self = (Return resp, self')
        /\ orchestrator_generate_summary db_execute llm pd schema_description
             memory_usage loaded self
           = (Return (r_answer resp), self')
  end.
Proof.
  destruct loaded as [d |]; [| reflexivity].
  unfold orchestrator_generate_summary, orchestrator_process_query.
  destruct (process_query_run (resolve_query llm schema_description)
              (fun q => generate_sql llm schema_description q "sales_data")
              (execute_sql db_execute) (validate_result llm pd)
              (generate_summary llm pd) pd summary_question self)
    as (m1 & m2 & m3 & m4 & Hrun).
  do 2 eexists. split; [exact Hrun |].
  unfold try_except, bind, lift, ret. cbn [get_summary_stats].
  rewrite Hrun. reflexivity.
Qed.

(* ================================================================== *)
(** * ValidationAgent: business rules                                  *)
(* ================================================================== *)

Section BusinessRuleFacts.

Variable str_bound : option Q -> string.








End BusinessRuleFacts.



(* ================================================================== *)
(** * DocumentChunker: chunk_text                                      *)
(* ================================================================== *)

Lemma concat_empty_cons (x : string) (l : list string) :
  String.concat EmptyString (x :: l) = (x ++ String.concat EmptyString l)%string.
Proof.
  destruct l as [| y l]; simpl; [| reflexivity].
  induction x; simpl; congruence.
Qed.

(** A slice that starts inside the text and runs forward. *)
Lemma slice_forward (s : string) (start : nat) (size : Z) :
  start < String.length s -> (0 < size)%Z ->
  slice s (Z.of_nat start) (Z.of_nat start + size) = take (Z.to_nat size) (drop start s).
Proof.
  intros Hs Hsize. unfold slice, clip.
  destruct (Z.ltb_spec (Z.of_nat start) 0) as [H | _]; [lia |].
  destruct (Z.ltb_spec (Z.of_nat start + size) 0) as [H | _]; [lia |].
  rewrite (Z.min_l (Z.of_nat start)) by lia. rewrite Nat2Z.id.
  rewrite <- (take_min (Z.to_nat size)). f_equal.
  rewrite drop_length. lia.
Qed.

Lemma chunk_text_loop_covers (text : string) (chunk_size overlap : Z) :
  (0 <= overlap < chunk_size)%Z ->
  forall fuel start acc,
    String.length text - start < fuel ->
    exists chunks,
      chunk_text_loop fuel text chunk_size overlap (Z.of_nat start) acc
      = Some (acc ++ chunks)
      /\ without_overlap chunk_size overlap chunks = drop start text
      /\ Forall (fun c => 1 <= String.length c /\ (Z.of_nat (String.length c) <= chunk_size)%Z)
                chunks
      /\ (start < String.length text -> chunks <> [])
      /\ List.length chunks
         = (String.length text - start + Z.to_nat (chunk_size - overlap) - 1)
           / Z.to_nat (chunk_size - overlap).
Proof.
  intros Hov. set (step := Z.to_nat (chunk_size - overlap)).
  assert (Hstep : 1 <= step) by (unfold step; lia).
  induction fuel as [| fuel IH]; intros start acc Hfuel; [lia |].
  cbn [chunk_text_loop].
  destruct (Z.ltb_spec (Z.of_nat start) (Z.of_nat (String.length text))) as [Hlt | Hge].
  - rewrite slice_forward by lia.
    replace (Z.of_nat start + chunk_size - overlap)%Z with (Z.of_nat (start + step))
      by (unfold step; lia).
    destruct (IH (start + step) (acc ++ [take (Z.to_nat chunk_size) (drop start text)]))
      as (rest & Hrun & Hcat & Hall & _ & Hcount); [lia |].
    exists (take (Z.to_nat chunk_size) (drop start text) :: rest).
    split; [| split; [| split; [| split]]].
    + rewrite Hrun. now rewrite <- app_assoc.
    + unfold without_overlap in *. cbn [map]. fold step in Hcat |- *.
      rewrite take_take by (unfold step; lia).
      rewrite concat_empty_cons, Hcat, <- drop_drop. apply take_drop.
    + constructor; [| exact Hall].
      rewrite take_length, drop_length. lia.
    + discriminate.
    + cbn [List.length]. rewrite Hcount.
      destruct (Nat.le_gt_cases (start + step) (String.length text)) as [Hle | Hgt].
      * replace (String.length text - start + step - 1)
          with (String.length text - (start + step) + step - 1 + 1 * step) by lia.
        rewrite Nat.div_add by lia. lia.
      * replace (String.length text - (start + step) + step - 1) with (step - 1) by lia.
        rewrite (Nat.div_small (step - 1)) by lia.
        apply (Nat.div_unique _ _ 1 (String.length text - start - 1)); lia.
  - exists []. split; [now rewrite app_nil_r |]. split; [| split; [| split]].
    + unfold without_overlap. simpl. symmetry. apply drop_all. lia.
    + constructor.
    + lia.
    + replace (String.length text - start) with 0 by lia.
      cbn [List.length]. symmetry. apply Nat.div_small. lia.
Qed.

(** X16: with [0 <= overlap < chunk_size], [chunk_text] ends after at most
    one turn per character, and more turns change nothing.  Every chunk has
    between 1 and [chunk_size] characters, and the chunks cover the text:
    the first [chunk_size - overlap] characters of each chunk, put end to
    end, are the text.  There is one chunk for every [chunk_size - overlap]
    characters, rounded up, so the empty text gives no chunk. *)
Theorem chunk_text_covers (text : string) (chunk_size overlap : Z) (fuel : nat) :
  (0 <= overlap < chunk_size)%Z ->
  String.length text < fuel ->
  exists chunks,
    chunk_text fuel text chunk_size overlap = Some chunks
    /\ chunk_text (S (String.length text)) text chunk_size overlap = Some chunks
    /\ without_overlap chunk_size overlap chunks = text
    /\ Forall (fun c => 1 <= String.length c /\ (Z.of_nat (String.length c) <= chunk_size)%Z)
              chunks
    /\ (chunks = [] <-> text = EmptyString)
    /\ List.length chunks
       = (String.length text + Z.to_nat (chunk_size - overlap) - 1)
         / Z.to_nat (chunk_size - overlap).
Proof.
  intros Hov Hfuel. unfold chunk_text.
  destruct (chunk_text_loop_covers text chunk_size overlap Hov fuel 0 [])
    as (chunks & Hrun & Hcat & Hall & Hne & Hcount); [lia |].
  rewrite Nat.sub_0_r in Hcount.
  destruct (chunk_text_loop_covers text chunk_size overlap Hov (S (String.length text)) 0 [])
    as (chunks' & Hrun' & Hcat' & _); [lia |].
  exists chunks. cbn [app Z.of_nat] in Hrun, Hrun'.
  change (drop 0 text) with text in Hcat.
  assert (Hsame : chunks' = chunks).
  { (* both runs are the same run once there is fuel enough *)
    clear Hcat Hcat' Hall Hne.
    assert (Hmono : forall f g start acc r,
               f <= g ->
               chunk_text_loop f text chunk_size overlap start acc = Some r ->
               chunk_text_loop g text chunk_size overlap start acc = Some r).
    { induction f as [| f IHf]; intros g start acc r Hfg Hf; [discriminate |].
      destruct g as [| g]; [lia |]. cbn [chunk_text_loop] in *.
      destruct (start <? Z.of_nat (String.length text))%Z; [| exact Hf].
      apply (IHf g); [lia | exact Hf]. }
    destruct (Nat.le_ge_cases fuel (S (String.length text))) as [H | H].
    - apply (Hmono _ _ _ _ _ H) in Hrun. congruence.
    - apply (Hmono _ _ _ _ _ H) in Hrun'. congruence. }
  subst chunks'.
  split; [exact Hrun |]. split; [exact Hrun' |]. split; [exact Hcat |].
  split; [exact Hall |]. split; [| exact Hcount]. split.
  - intros ->. now rewrite <- Hcat.
  - intros ->. cbn in Hrun'. now injection Hrun' as <-.
Qed.

Lemma chunk_text_covers_witness :
  exists chunks,
    chunk_text 20 "retail sales" 5 2 = Some chunks
    /\ without_overlap 5 2 chunks = "retail sales"
    /\ List.length chunks = 4.
Proof.
  destruct (chunk_text_covers "retail sales" 5 2 20)
    as (chunks & Hrun & _ & Hcat & _ & _ & Hcount).
  - lia.
  - simpl. lia.
  - exists chunks. split; [exact Hrun |]. split; [exact Hcat |].
    rewrite Hcount. reflexivity.
Defined.

(** X17: with [overlap >= chunk_size] the start of the next chunk does not
    move forward, and [chunk_text] never ends on a text that is not empty:
    whatever number of turns it is given, the loop is still running when
    they are used up. *)
Theorem chunk_text_never_ends (text : string) (chunk_size overlap : Z) (fuel : nat) :
  (chunk_size <= overlap)%Z ->
  text <> EmptyString ->
  chunk_text fuel text chunk_size overlap = None.
Proof.
  intros Hov Htext. unfold chunk_text.
  assert (Hlen : 0 < String.length text) by (destruct text; [congruence | simpl; lia]).
  assert (H : forall start acc,
             (start <= 0)%Z ->
             chunk_text_loop fuel text chunk_size overlap start acc = None).
  { induction fuel as [| fuel IH]; intros start acc Hs; [reflexivity |].
    cbn [chunk_text_loop].
    destruct (Z.ltb_spec start (Z.of_nat (String.length text))) as [_ | Hge]; [| lia].
    apply IH. lia. }
  apply H. lia.
Qed.

Lemma chunk_text_never_ends_witness : chunk_text 1000 "retail sales" 200 200 = None.
Proof.
  apply (chunk_text_never_ends "retail sales" 200 200 1000).
  - lia.
  - discriminate.
Defined.

(* ================================================================== *)
(** * DocumentChunker: chunk_dataframe_rows                            *)
(* ================================================================== *)

Lemma range_by_below (stop step k : nat) :
  0 < step -> k < (stop + step - 1) / step -> k * step < stop.
Proof.
  intros Hstep Hk.
  pose proof (Nat.div_mod_eq (stop + step - 1) step) as E.
  pose proof (Nat.mod_upper_bound (stop + step - 1) step) as Hm.
  nia.
Qed.

Lemma range_by_reaches (stop step : nat) :
  0 < step -> stop <= ((stop + step - 1) / step) * step.
Proof.
  intros Hstep.
  pose proof (Nat.div_mod_eq (stop + step - 1) step) as E.
  pose proof (Nat.mod_upper_bound (stop + step - 1) step) as Hm.
  nia.
Qed.

Lemma sum_nat_app (a b : list nat) : sum_nat (a ++ b) = sum_nat a + sum_nat b.
Proof. induction a as [| x t IH]; simpl; [reflexivity | rewrite IH; lia]. Qed.

(** The sizes of the first [m] chunks add up to the rows they span. *)
Lemma chunk_sizes_sum (total step m : nat) :
  sum_nat (map (fun k => Nat.min step (total - k * step)) (seq 0 m))
  = Nat.min (m * step) total.
Proof.
  induction m as [| m IH]; [reflexivity |].
  rewrite seq_S, map_app, sum_nat_app, IH. cbn [map sum_nat Nat.add].
  rewrite Nat.mul_succ_l. unfold sum_nat. cbn [fold_right]. lia.
Qed.

Lemma iloc_len (d : DataFrame) (i size : nat) :
  len (iloc d i (i + size)) = Nat.min size (len d - i).
Proof.
  unfold iloc, len. cbn [rows].
  rewrite length_firstn, length_skipn. lia.
Qed.

Section RowChunkFacts.

Variable pd : Rendering.
Variable to_string_indexed : DataFrame -> string.

Lemma row_chunk_returns (d : DataFrame) (size i : nat) :
  (forall d', exists r, describe pd d' = Return r) ->
  exists body,
    row_chunk pd to_string_indexed d size i
    = Return (mkRowChunk body i (i + Nat.min size (len d - i)) (Nat.min size (len d - i))).
Proof.
  intros Hd. unfold row_chunk. rewrite iloc_len.
  destruct (0 <? _)%nat; [| eexists; reflexivity].
  destruct (Hd (project (iloc d i (i + size)) (numeric_columns (iloc d i (i + size)))))
    as (r & ->).
  eexists. reflexivity.
Qed.

(** X18: for a positive chunk size and a [describe] that does not raise,
    [chunk_dataframe_rows] cuts the frame into row ranges that tile it: the
    chunks start at 0, [chunk_size], [2 * chunk_size], ..., each ends where
    the next starts (the last at the number of rows), holds between 1 and
    [chunk_size] records, and the records of all chunks add up to the rows
    of the frame.  A chunk size of 0 raises a [ValueError] and a negative
    one gives no chunk. *)
Theorem chunk_dataframe_rows_tile (d : DataFrame) (chunk_size : Z) :
  (forall d', exists r, describe pd d' = Return r) ->
  (0 < chunk_size)%Z ->
  let size := Z.to_nat chunk_size in
  exists chunks,
    chunk_dataframe_rows pd to_string_indexed d chunk_size = Return chunks
    /\ map start_row chunks = range_by (len d) size
    /\ Forall (fun c => end_row c = Nat.min (start_row c + size) (len d)
                        /\ num_records c = end_row c - start_row c
                        /\ 1 <= num_records c <= size) chunks
    /\ sum_nat (map num_records chunks) = len d
    /\ chunk_dataframe_rows pd to_string_indexed d 0
       = Raise (ValueError "range() arg 3 must not be zero")
    /\ chunk_dataframe_rows pd to_string_indexed d (- chunk_size) = Return [].
Proof.
  intros Hd Hpos size.
  assert (Hsize : 0 < size) by (unfold size; lia).
  unfold chunk_dataframe_rows.
  destruct (Z.eqb_spec chunk_size 0) as [E | _]; [lia |].
  destruct (Z.ltb_spec chunk_size 0) as [E | _]; [lia |].
  fold size.
  set (body := fun i =>
         match row_chunk pd to_string_indexed d size i with
         | Return c => chunk_body c
         | Raise _ => EmptyString
         end).
  set (mk := fun i => mkRowChunk (body i) i (i + Nat.min size (len d - i))
                                 (Nat.min size (len d - i))).
  rewrite (omap_all_return _ mk).
  2:{ intros i _. destruct (row_chunk_returns d size i Hd) as (b & Hb).
      unfold mk, body. rewrite Hb. reflexivity. }
  eexists. split; [reflexivity |].
  split; [| split; [| split; [| split]]].
  - rewrite map_map. unfold mk. cbn [start_row]. apply map_id.
  - apply Forall_forall. intros c Hc.
    apply in_map_iff in Hc. destruct Hc as (i & <- & Hi).
    unfold range_by in Hi. apply in_map_iff in Hi. destruct Hi as (k & <- & Hk).
    apply in_seq in Hk.
    pose proof (range_by_below (len d) size k Hsize) as Hb.
    unfold mk. cbn [start_row end_row num_records]. lia.
  - rewrite map_map. unfold mk. cbn [num_records]. unfold range_by.
    rewrite map_map.
    rewrite (chunk_sizes_sum (len d) size).
    pose proof (range_by_reaches (len d) size Hsize). lia.
  - reflexivity.
  - destruct (Z.eqb_spec (- chunk_size) 0) as [E | _]; [lia |].
    destruct (Z.ltb_spec (- chunk_size) 0) as [_ | E]; [reflexivity | lia].
Qed.

End RowChunkFacts.

Lemma chunk_dataframe_rows_tile_witness :
  exists chunks,
    chunk_dataframe_rows plain (fun _ => "<stats>") many 40 = Return chunks
    /\ map start_row chunks = [0; 40; 80; 120]
    /\ sum_nat (map num_records chunks) = 150.
Proof.
  destruct (chunk_dataframe_rows_tile plain (fun _ => "<stats>") many 40)
    as (chunks & Hrun & Hstart & _ & Hsum & _).
  - intros d'. eexists. reflexivity.
  - lia.
  - exists chunks. split; [exact Hrun |]. split.
    + rewrite Hstart. vm_compute. reflexivity.
    + rewrite Hsum. vm_compute. reflexivity.
Defined.

(* ================================================================== *)
(** * DataLoader: preprocess                                           *)
(* ================================================================== *)

Lemma assign_column_columns (d : DataFrame) (col : string) (t : dtype) (vals : list cell) :
  columns (assign_column d col t vals) = columns d.
Proof.
  unfold columns, assign_column. cbn [schema]. rewrite map_map.
  apply map_ext. intros cd. destruct (String.eqb (fst cd) col); reflexivity.
Qed.

Lemma assign_column_len (d : DataFrame) (col : string) (t : dtype) (vals : list cell) :
  len (assign_column d col t vals) = len d.
Proof.
  unfold len, assign_column. cbn [rows].
  rewrite length_map, length_combine, length_seq. apply Nat.min_id.
Qed.

Lemma assign_column_well_formed (d : DataFrame) (col : string) (t : dtype)
    (vals : list cell) :
  well_formed d -> well_formed (assign_column d col t vals).
Proof.
  unfold well_formed, assign_column. cbn [rows schema]. rewrite !Forall_forall.
  intros H r Hr. apply in_map_iff in Hr. destruct Hr as ([i r0] & <- & Hin).
  apply in_combine_r in Hin. cbn [snd].
  rewrite !length_map, length_combine, (H r0 Hin). apply Nat.min_id.
Qed.

Lemma fillna_well_formed (d : DataFrame) (cols : list string) (v : cell) :
  well_formed d -> well_formed (fillna d cols v).
Proof.
  unfold well_formed, fillna. cbn [rows schema]. rewrite !Forall_forall.
  intros H r Hr. apply in_map_iff in Hr. destruct Hr as (r0 & <- & Hin).
  rewrite length_map, length_combine, (H r0 Hin). apply Nat.min_id.
Qed.

(** The cells of a row that was mapped cell by cell along the schema. *)
Lemma in_combine_mapped {A B} (f : A * B -> B) (l : list A) (r : list B) (a : A) (b : B) :
  In (a, b) (combine l (map f (combine l r))) ->
  exists b0, In (a, b0) (combine l r) /\ b = f (a, b0).
Proof.
  revert r. induction l as [| x l IH]; intros r; [intros [] |].
  destruct r as [| y r]; [intros [] |].
  cbn [combine map]. intros [E | H].
  - injection E as E1 E2. subst a b. exists y. split; [now left | reflexivity].
  - destruct (IH r H) as (b0 & Hin & Hb). exists b0. split; [now right | exact Hb].
Qed.

Section PreprocessFacts.

Variable Conn : Type.
Variable to_datetime : list cell -> outcome (list cell).

Lemma convert_date_keeps (d : DataFrame) (col : string) :
  columns (Loader.convert_date to_datetime d col) = columns d
  /\ len (Loader.convert_date to_datetime d col) = len d
  /\ (well_formed d -> well_formed (Loader.convert_date to_datetime d col)).
Proof.
  unfold Loader.convert_date.
  destruct (contains "date" (lower col)); [| auto].
  destruct (to_datetime (series d col)) as [vals | e]; [| auto].
  split; [apply assign_column_columns |].
  split; [apply assign_column_len | apply assign_column_well_formed].
Qed.

Lemma convert_dates_keep (cols : list string) (d : DataFrame) :
  columns (fold_left (Loader.convert_date to_datetime) cols d) = columns d
  /\ len (fold_left (Loader.convert_date to_datetime) cols d) = len d
  /\ (well_formed d -> well_formed (fold_left (Loader.convert_date to_datetime) cols d)).
Proof.
  revert d. induction cols as [| c cs IH]; intros d; cbn [fold_left]; [auto |].
  destruct (IH (Loader.convert_date to_datetime d c)) as (H1 & H2 & H3).
  destruct (convert_date_keeps d c) as (K1 & K2 & K3).
  split; [congruence |]. split; [congruence | auto].
Qed.

(** X19: [preprocess] works on the frame it is given or, without one, on
    the frame the loader holds, and raises [No data loaded], changing
    nothing, when there is neither.  Otherwise it returns a frame with the
    same column labels and as many rows, records it as the loader's
    dataset, and has left no missing cell in any column that ends up
    numeric or text; a frame with one cell per column in every row stays
    so. *)
Theorem preprocess_fills (arg : option DataFrame) (self : Loader.DataLoader Conn) :
  match (match arg with Some d => Some d | None => Loader.df self end) with
  | None =>
      Loader.preprocess to_datetime arg self
      = (Raise (ValueError "No data loaded"), self)
  | Some d =>
      exists r,
        Loader.preprocess to_datetime arg self
        = (Return r, Loader.mkLoader (Some r) (Loader.db_conn self))
        /\ columns r = columns d
        /\ len r = len d
        /\ (well_formed d -> well_formed r)
        /\ (forall cells cd c,
              In cells (rows r) ->
              In (cd, c) (combine (schema r) cells) ->
              filled_type (snd cd) = true ->
              is_nan c = false)
  end.
Proof.
  unfold Loader.preprocess.
  destruct (match arg with Some d => Some d | None => Loader.df self end) as [d |];
    [| reflexivity].
  unfold copy.
  set (d1 := fold_left (Loader.convert_date to_datetime) (columns_of_type object d) d).
  destruct (convert_dates_keep (columns_of_type object d) d) as (Hc & Hl & Hw).
  fold d1 in Hc, Hl, Hw.
  set (d2 := fillna d1 (numeric_columns d1) (Num 0)).
  set (d3 := fillna d2 (columns_of_type object d2) (Str "Unknown")).
  exists d3. split; [reflexivity |]. split; [exact Hc |].
  split; [| split].
  - unfold d3, d2, fillna, len. cbn [rows]. rewrite !length_map. exact Hl.
  - intros H. apply fillna_well_formed, fillna_well_formed, Hw, H.
  - intros cells [label t] c Hcells Hin Hty. cbn [snd] in Hty.
    unfold d3, fillna in Hcells. cbn [rows] in Hcells.
    apply in_map_iff in Hcells. destruct Hcells as (r2 & <- & Hr2).
    change (schema d3) with (schema d2) in Hin.
    apply in_combine_mapped in Hin. destruct Hin as (c2 & Hin2 & ->).
    cbn [fst snd].
    unfold d2, fillna in Hr2. cbn [rows] in Hr2.
    apply in_map_iff in Hr2. destruct Hr2 as (r1 & <- & Hr1).
    change (schema d2) with (schema d1) in Hin2.
    pose proof (in_combine_l _ _ _ _ Hin2) as Hsch.
    apply in_combine_mapped in Hin2. destruct Hin2 as (c1 & Hin1 & ->).
    cbn [fst snd].
    destruct t; try discriminate Hty.
    + (* int64: filled by the first pass *)
      assert (Hnum : existsb (String.eqb label) (numeric_columns d1) = true).
      { apply existsb_exists. exists label. split; [| apply String.eqb_refl].
        unfold numeric_columns. apply in_map_iff. exists (label, int64).
        split; [reflexivity |]. apply filter_In. split; [exact Hsch | reflexivity]. }
      rewrite Hnum. cbn [andb].
      destruct (is_nan c1) eqn:E1; cbn [is_nan].
      * rewrite andb_false_r. reflexivity.
      * rewrite E1, andb_false_r. exact E1.
    + assert (Hnum : existsb (String.eqb label) (numeric_columns d1) = true).
      { apply existsb_exists. exists label. split; [| apply String.eqb_refl].
        unfold numeric_columns. apply in_map_iff. exists (label, float64).
        split; [reflexivity |]. apply filter_In. split; [exact Hsch | reflexivity]. }
      rewrite Hnum. cbn [andb].
      destruct (is_nan c1) eqn:E1; cbn [is_nan].
      * rewrite andb_false_r. reflexivity.
      * rewrite E1, andb_false_r. exact E1.
    + (* object: filled by the second pass at the latest *)
      assert (Hobj : existsb (String.eqb label) (columns_of_type object d2) = true).
      { apply existsb_exists. exists label. split; [| apply String.eqb_refl].
        unfold columns_of_type. apply in_map_iff. exists (label, object).
        split; [reflexivity |]. apply filter_In. split; [exact Hsch | reflexivity]. }
      rewrite Hobj. cbn [andb].
      match goal with
      | |- is_nan (if is_nan ?x then _ else _) = false =>
          destruct (is_nan x) eqn:E; [reflexivity | exact E]
      end.
Qed.

End PreprocessFacts.

Lemma preprocess_fills_witness :
  exists r,
    fst (Loader.preprocess all_day_zero None (Loader.mkLoader (Some raw_orders) (@None unit)))
    = Return r
    /\ rows r = [ [Timestamp 0; Str "North"; Num 0];
                  [Timestamp 0; Str "Unknown"; Num 12];
                  [NaN; Str "South"; Num 7] ]
    /\ well_formed r.
Proof.
  pose proof (preprocess_fills unit all_day_zero None
                (Loader.mkLoader (Some raw_orders) None)) as H.
  cbn [Loader.df] in H. destruct H as (r & Hrun & _ & _ & Hwf & _).
  exists r. split; [now rewrite Hrun |]. split.
  - clear Hwf.
    assert (E : fst (Loader.preprocess all_day_zero None
                       (Loader.mkLoader (Some raw_orders) (@None unit)))
                = Return r) by now rewrite Hrun.
    vm_compute in E. injection E as <-. reflexivity.
  - apply Hwf. unfold well_formed. repeat constructor.
Defined.

(* ================================================================== *)
(** * ValidationAgent: what the chat model can change                  *)
(* ================================================================== *)

(** X20: the chat model can only add to the verdict.  Whether
    [validate_result] returns does not depend on the chat model.  When it
    returns, a relation without deterministic issue is reported valid
    whatever the model replies, even a reply that denies validity, and
    also when the model fails; a relation with an issue is reported valid
    only on a reply that carries the affirmative marker.  The issues, the
    suggestions and the counts never depend on the chat model. *)
Theorem validate_result_verdict (llm llm' : ChatModel) (pd : Rendering)
    (question query : string) (result : DataFrame) :
  ((exists v, validate_result llm pd question query result = Return v)
   <-> (exists v', validate_result llm' pd question query result = Return v'))
  /\ (forall v v',
        validate_result llm pd question query result = Return v ->
        validate_result llm' pd question query result = Return v' ->
        (issue_count result = 0 -> is_valid v = true)
        /\ (is_valid v = true ->
            issue_count result = 0
            \/ exists s text,
                 _create_summary pd result = Return s
                 /\ ask_validation llm question query s (sample_data pd result)
                    = Return text
                 /\ affirmed text = true)
        /\ issues v = issues v'
        /\ suggestions v = suggestions v'
        /\ row_count v = row_count v'
        /\ column_count v = column_count v').
Proof.
  split.
  - now rewrite !validate_result_returns_iff.
  - intros v v' Hv Hv'.
    destruct (validate_result_returned pd llm question query result v Hv)
      as (iss & sug & s & Hb & Hs).
    destruct (basic_checks_count pd result iss sug Hb) as [Hi _].
    rewrite (validate_result_prepared pd llm question query result iss sug s Hb Hs) in Hv.
    rewrite (validate_result_prepared pd llm' question query result iss sug s Hb Hs) in Hv'.
    injection Hv as <-. injection Hv' as <-.
    destruct (ask_validation llm question query s (sample_data pd result))
      as [text | e] eqn:Ea,
        (ask_validation llm' question query s (sample_data pd result)) as [text' | e'];
      cbn [is_valid issues suggestions row_count column_count]; rewrite Hi;
      (split; [intros ->; cbn; now rewrite ?orb_true_r |]);
      (split; [| repeat split]).
    + intros H. apply orb_true_iff in H. destruct H as [H | H].
      * right. exists s, text. auto.
      * left. now apply Nat.eqb_eq.
    + intros H. apply orb_true_iff in H. destruct H as [H | H].
      * right. exists s, text. auto.
      * left. now apply Nat.eqb_eq.
    + intros H. left. now apply Nat.eqb_eq.
    + intros H. left. now apply Nat.eqb_eq.
Qed.

Lemma validate_result_verdict_witness :
  exists v v',
    validate_result (canned basic_intent "SELECT 1" "Is_Valid: TRUE" "ok") plain
                    "Which region sells most?" "SELECT 1" flawed = Return v
    /\ validate_result offline plain "Which region sells most?" "SELECT 1" flawed
       = Return v'
    /\ is_valid v = true
    /\ issues v = issues v'.
Proof.
  destruct (validate_result (canned basic_intent "SELECT 1" "Is_Valid: TRUE" "ok") plain
              "Which region sells most?" "SELECT 1" flawed) as [v | e] eqn:Hv;
    [| vm_compute in Hv; discriminate Hv].
  destruct (validate_result offline plain "Which region sells most?" "SELECT 1" flawed)
    as [v' | e] eqn:Hv'; [| vm_compute in Hv'; discriminate Hv'].
  destruct (validate_result_verdict (canned basic_intent "SELECT 1" "Is_Valid: TRUE" "ok")
              offline plain "Which region sells most?" "SELECT 1" flawed) as [_ H].
  destruct (H v v' Hv Hv') as (_ & _ & Hiss & _).
  exists v, v'. split; [reflexivity |]. split; [reflexivity |]. split; [| exact Hiss].
  vm_compute in Hv. injection Hv as <-. reflexivity.
Defined.

(* ================================================================== *)
(** * The orchestrator: what one request leaves to the next            *)
(* ================================================================== *)

(** Two runs of [process_query] from states on which the extraction agent
    answers alike give the same response, and end in states that are
    again related. *)
Lemma process_query_frame {X} rq gs (ex : string -> M X DataFrame) vr sy pd question
    (R : X -> X -> Prop) (x x' : X) :
  (forall sql, fst (ex sql x) = fst (ex sql x')
               /\ R (snd (ex sql x)) (snd (ex sql x'))) ->
  R x x' ->
  fst (process_query rq gs ex vr sy pd question x)
  = fst (process_query rq gs ex vr sy pd question x')
  /\ R (snd (process_query rq gs ex vr sy pd question x))
       (snd (process_query rq gs ex vr sy pd question x')).
Proof.
  intros Hex HR.
  unfold process_query, workflow_invoke, step, _query_resolution_node,
    _data_extraction_node, _validation_node, _synthesis_node,
    try_except, bind, lift, ret, raise, initial_state, apply_update, obind.
  fields.
  assert (Hlen0 : (0 <? len empty_frame)%nat = false) by reflexivity.
  destruct (rq question) as [intent | e1]; [destruct (gs question) as [sql | e1] |]; fields.
  1: destruct (truthy sql); fields;
     [destruct (Hex sql) as [Hfst Hsnd];
      destruct (ex sql x) as [[d | e2] y], (ex sql x') as [[d' | e2'] y'];
      cbn [fst snd] in Hfst, Hsnd; try discriminate Hfst;
      injection Hfst as <-; fields |].
  1: destruct (vr question sql d) as [v | e3]; fields;
     (destruct (0 <? len d)%nat; [destruct (sy question d _) as [a | e4] |];
      fields; (split; [reflexivity | exact Hsnd])).
  1: destruct (vr question sql empty_frame) as [v | e3]; fields; rewrite ?Hlen0;
     fields; (split; [reflexivity | exact Hsnd]).
  1: destruct (vr question sql empty_frame) as [v | e3]; fields; rewrite ?Hlen0;
     fields; (split; [reflexivity | exact HR]).
  all: change (truthy EmptyString) with false; fields;
    destruct (vr question EmptyString empty_frame) as [v | e3]; fields; rewrite ?Hlen0;
    fields; (split; [reflexivity | exact HR]).
Qed.

(** X21: a response depends on the extraction agent through its connection
    only.  Two agents over the same connection state, whatever dataset,
    last query and last result each holds, answer a question with the same
    response (answer, data, validation, SQL, trace and error), and their
    connections are again in the same state afterwards: what a request
    recorded in the agent never reaches a later response. *)
Theorem response_ignores_agent_attributes {Conn} (db_execute : string -> M Conn DataFrame)
    (llm : ChatModel) (pd : Rendering) (schema_description question : string)
    (self self' : DataExtractionAgent Conn) :
  db_conn self = db_conn self' ->
  fst (orchestrator_process_query db_execute llm pd schema_description question self)
  = fst (orchestrator_process_query db_execute llm pd schema_description question self')
  /\ db_conn (snd (orchestrator_process_query db_execute llm pd schema_description
                     question self))
     = db_conn (snd (orchestrator_process_query db_execute llm pd schema_description
                       question self')).
Proof.
  intros Hc. unfold orchestrator_process_query.
  apply (process_query_frame _ _ _ _ _ _ _ (fun a b => db_conn a = db_conn b));
    [| exact Hc].
  intros sql. unfold execute_sql, try_except, bind, on_conn. rewrite Hc.
  destruct (db_execute sql (db_conn self')) as [[r | e] c]; simpl; auto.
Qed.

Lemma response_ignores_agent_attributes_witness :
  fst (orchestrator_process_query one_table offline plain "Region, Sales"
         "Which region sells most?" (mkExtraction tt sales None None))
  = fst (orchestrator_process_query one_table offline plain "Region, Sales"
           "Which region sells most?"
           (mkExtraction tt empty_frame (Some "SELECT 1") (Some sales))).
Proof.
  exact (proj1 (response_ignores_agent_attributes one_table offline plain
                  "Region, Sales" "Which region sells most?"
                  (mkExtraction tt sales None None)
                  (mkExtraction tt empty_frame (Some "SELECT 1") (Some sales))
                  eq_refl)).
Defined.

(* ================================================================== *)
(** * The aggregation strategy with a method pandas has                *)
(* ================================================================== *)

Lemma groupby_count (pd : Rendering) (d : DataFrame) (by_ metric : string) :
  groupable d by_ metric = true ->
  by_ <> metric ->
  groupby_agg pd d by_ metric "count" agg_count int64
  = Return (mkDataFrame [(by_, dtype_of by_ (schema d)); (metric, int64)]
                        (count_rows d by_ metric)).
Proof.
  intros Hg Hne. unfold groupby_agg, count_rows. rewrite Hg.
  rewrite (omap_all_return _
             (fun k => [k; Num (inject_Z (Z.of_nat
                              (List.length (present (group_values d by_ metric k)))))])).
  - cbn [obind]. destruct (String.eqb_spec by_ metric); [contradiction | reflexivity].
  - intros k _. reflexivity.
Qed.

(** The frame of the counts can be sorted by either of its columns. *)
Lemma count_frame_sortable (d : DataFrame) (e m s : string) :
  groupable d e m = true ->
  e <> m ->
  has_column s (mkDataFrame [(e, dtype_of e (schema d)); (m, int64)] (count_rows d e m))
  = true ->
  sortable (mkDataFrame [(e, dtype_of e (schema d)); (m, int64)] (count_rows d e m)) s
  = true.
Proof.
  intros Hg Hne Hs.
  destruct (grouped_labels e m (dtype_of e (schema d)) int64 (count_rows d e m) Hne)
    as [Ue Um].
  unfold has_column, columns in Hs. cbn [schema map fst existsb] in Hs.
  rewrite orb_false_r in Hs. apply orb_true_iff in Hs.
  unfold sortable. destruct Hs as [Hs | Hs]; apply String.eqb_eq in Hs; subst s.
  - rewrite Ue. cbn [andb].
    assert (Hk : series (mkDataFrame [(e, dtype_of e (schema d)); (m, int64)]
                           (count_rows d e m)) e = group_keys d e).
    { unfold series, count_rows. cbn [rows]. rewrite map_map.
      rewrite <- (map_id (group_keys d e)) at 2. apply map_ext.
      intros k. apply get_key. }
    rewrite Hk. unfold groupable in Hg. apply andb_true_iff in Hg.
    destruct Hg as [_ Hu].
    apply (uniform_part (series d e)); [| exact Hu].
    intros k Hin. now apply group_keys_in in Hin.
  - rewrite Um. cbn [andb]. unfold uniform.
    assert (Hn : forallb (of_kind Number)
                   (series (mkDataFrame [(e, dtype_of e (schema d)); (m, int64)]
                              (count_rows d e m)) m) = true).
    { apply forallb_forall. intros v Hv. unfold series, count_rows in Hv.
      cbn [rows] in Hv. rewrite map_map in Hv.
      apply in_map_iff in Hv. destruct Hv as (k & <- & _).
      now rewrite get_value. }
    now rewrite Hn.
Qed.

Lemma head_prefix (lim : option Z) (d : DataFrame) :
  exists n, rows (head lim d) = firstn n (rows d)
            /\ (forall z, lim = Some z -> (0 <= z)%Z -> n = Z.to_nat z)
            /\ (lim = None -> n = len d).
Proof.
  destruct lim as [z |]; simpl.
  - destruct (Z.leb_spec 0 z) as [Hz | Hz]; simpl.
    + exists (Z.to_nat z). split; [reflexivity |]. split; [| discriminate].
      now intros z' [= <-] _.
    + exists (len d - Z.to_nat (- z)). split; [reflexivity |].
      split; [| discriminate]. intros z' [= <-] Hz'. lia.
  - exists (len d). split; [symmetry; apply firstn_all |]. split; [discriminate | auto].
Qed.

Lemma Sorted_firstn {A} (R : A -> A -> Prop) (n : nat) (l : list A) :
  Sorted R l -> Sorted R (firstn n l).
Proof.
  revert l. induction n as [| n IH]; intros l H; simpl; [constructor |].
  destruct l as [| x t]; [constructor |].
  inversion H as [| ? ? Ht Hhd]; subst. constructor; [now apply IH |].
  destruct t as [| y t'], n; simpl; constructor.
  now inversion Hhd.
Qed.

(** X22: the aggregation [count] works whatever the type of the metric
    column.  When the entity column and the first metric resolve to
    different labels, each the label of one column, and the entity column
    holds values of one kind, the strategy returns the entity column with,
    per group, the number of present values of the metric; it keeps the
    first rows up to [limit] (100 when the key is absent, no cut when it
    is [None]), after sorting by descending count when [sort_by] names the
    metric, and in ascending order of the group key when [sort_by] is
    unset.  The agent is left as it was. *)
Theorem aggregation_count_strategy {Conn} (pd : Rendering) (intent : Intent) (e m : string)
    (self : DataExtractionAgent Conn) :
  resolved_type intent = Some "aggregation" ->
  find_entity_col pd (df self) (get_list (entities intent)) = Some e ->
  truthy e = true ->
  metric_col (df self) (get_list (metrics intent)) = Some m ->
  e <> m ->
  groupable (df self) e m = true ->
  aggregation intent = Given "count" ->
  let d := df self in
  let groups := List.length (distinct cell_same (present (series d e))) in
  exists result,
    extract_by_intent pd intent self = (Return result, self)
    /\ columns result = [e; m]
    /\ (forall r, In r (rows result) -> In r (count_rows d e m))
    /\ (forall z, dict_get (limit intent) (Some 100%Z) = Some z -> (0 <= z)%Z ->
          len result = Nat.min (Z.to_nat z) groups)
    /\ (limit intent = PyNone -> len result = groups)
    /\ (dict_get (sort_by intent) None = Some m ->
          Sorted (fun r1 r2 => cell_leb (get result m r2) (get result m r1) = true)
                 (rows result))
    /\ (dict_get (sort_by intent) None = None ->
          exists rest, count_rows d e m = rows result ++ rest).
Proof.
  intros Ht He Htr Hm Hne Hg Hagg d groups.
  set (R := mkDataFrame [(e, dtype_of e (schema d)); (m, int64)] (count_rows d e m)).
  assert (Hlen : List.length (count_rows d e m) = groups).
  { unfold count_rows. rewrite length_map.
    apply Permutation_length, group_keys_perm. }
  assert (Hpresent : forall r, In r (rows R) -> is_nan (get R m r) = false).
  { intros r Hr. apply in_map_iff in Hr. destruct Hr as (k & <- & _).
    unfold R. now rewrite get_value. }
  set (sorted := match dict_get (sort_by intent) None with
                 | Some s => if truthy s && has_column s R
                             then mkDataFrame (schema R) (sort_rows pd R s false) else R
                 | None => R
                 end).
  assert (Hsorted : match dict_get (sort_by intent) None with
                    | Some s => if truthy s && has_column s R
                                then sort_values pd R s false else Return R
                    | None => Return R
                    end = Return sorted).
  { unfold sorted. destruct (dict_get (sort_by intent) None) as [s |]; [| reflexivity].
    destruct (truthy s); cbn [andb]; [| reflexivity].
    destruct (has_column s R) eqn:Hs; [| reflexivity].
    apply sort_values_sortable. now apply count_frame_sortable. }
  assert (Hschema : schema sorted = schema R).
  { unfold sorted. destruct (dict_get (sort_by intent) None) as [s |]; [| reflexivity].
    destruct (truthy s && has_column s R); reflexivity. }
  assert (Hperm : Permutation (rows sorted) (rows R)).
  { unfold sorted. destruct (dict_get (sort_by intent) None) as [s |]; [| reflexivity].
    destruct (truthy s && has_column s R); [| reflexivity].
    cbn [rows]. apply sort_rows_perm. }
  destruct (head_prefix (dict_get (limit intent) (Some 100%Z)) sorted)
    as (n & Hn & Hnz & Hnone).
  exists (head (dict_get (limit intent) (Some 100%Z)) sorted).
  split; [| split; [| split; [| split; [| split; [| split]]]]].
  - rewrite extract_by_intent_run. f_equal.
    rewrite extraction_aggregation by assumption.
    rewrite (aggregate_known_method pd (df self) intent e m "count"
               (groupby_agg pd d e m "count" agg_count int64));
      try assumption; try reflexivity.
    + rewrite groupby_count by assumption. cbn [obind]. fold R.
      rewrite Hsorted. reflexivity.
    + now rewrite Hagg.
  - unfold columns. now rewrite head_schema, Hschema.
  - intros r Hr. apply head_rows_in in Hr.
    exact (Permutation_in _ Hperm Hr).
  - intros z Hz Hz0. unfold len. rewrite Hn, length_firstn.
    rewrite (Permutation_length Hperm). cbn [rows R]. rewrite Hlen.
    now rewrite (Hnz z Hz Hz0).
  - intros Hl. rewrite Hl in Hnone. cbn [dict_get] in Hnone.
    unfold len. rewrite Hn, length_firstn, (Hnone eq_refl).
    unfold len. rewrite Nat.min_id, (Permutation_length Hperm). exact Hlen.
  - intros Hs. rewrite Hn. apply Sorted_firstn.
    assert (Es : sorted = mkDataFrame (schema R) (sort_rows pd R m false)).
    { unfold sorted. rewrite Hs.
      apply metric_col_first in Hm. destruct Hm as (rest & _ & _ & Hmt).
      rewrite Hmt. unfold R at 1, has_column, columns. cbn [schema map fst existsb].
      rewrite String.eqb_refl, orb_true_r. reflexivity. }
    assert (Hget : forall r,
               get (head (dict_get (limit intent) (Some 100%Z)) sorted) m r = get R m r).
    { intros r. unfold get, columns. now rewrite head_schema, Hschema. }
    apply (Sorted_weaken (fun r1 r2 => cell_leb (get R m r2) (get R m r1) = true)).
    { intros a b Hab. now rewrite !Hget. }
    rewrite Es. cbn [rows].
    exact (sort_rows_sorted pd R m Hpresent false).
  - intros Hs. assert (Es : sorted = R) by (unfold sorted; now rewrite Hs).
    rewrite Hn, Es. exists (skipn n (rows R)). symmetry. apply firstn_skipn.
Qed.

Lemma aggregation_count_strategy_witness :
  let self := new_extraction_agent tt sales in
  exists result,
    extract_by_intent plain count_by_region self = (Return result, self)
    /\ columns result = ["Region"; "Category"]
    /\ len result = 2.
Proof.
  intros self.
  assert (H1 : resolved_type count_by_region = Some "aggregation") by reflexivity.
  assert (H2 : find_entity_col plain (df self) (get_list (entities count_by_region))
               = Some "Region") by (vm_compute; reflexivity).
  assert (H3 : truthy "Region" = true) by reflexivity.
  assert (H4 : metric_col (df self) (get_list (metrics count_by_region))
               = Some "Category") by (vm_compute; reflexivity).
  assert (H5 : "Region" <> "Category") by discriminate.
  assert (H6 : groupable (df self) "Region" "Category" = true)
    by (vm_compute; reflexivity).
  assert (H7 : aggregation count_by_region = Given "count") by reflexivity.
  destruct (aggregation_count_strategy plain count_by_region "Region" "Category" self
              H1 H2 H3 H4 H5 H6 H7) as (result & H & Hc & _ & Hl & _).
  exists result. split; [exact H |]. split; [exact Hc |].
  rewrite (Hl 2%Z eq_refl ltac:(lia)). vm_compute. reflexivity.
Defined.
